(** * record_timelapse: the recorder's process supervision, verified

    A shallow embedding of [record_timelapse.py]: the three methods of
    [RecorderApp] that drive the encoder child process
    ([start_recording], [stop_recording], [cancel_recording]) and the
    exception handler of the [__main__] block, together with the parts
    of the Python runtime they rely on (exceptions, [int]/[float]
    numbers, [fractions.Fraction], f-string formatting of integers,
    [strftime]).

    Everything that the program asks of its surroundings (screen size,
    process creation, signal delivery, the removal of a file, the
    clock, what other processes do to the disk while the host sleeps,
    [repr] of a float) is a field of the [Platform] class: the program
    is verified for every platform.

    On top of the recorder stand the handlers of the interface (the
    key actions, [on_button_pressed], [select_changed],
    [update_win_dimensions], [input_update]) with the widgets they
    write, and the window list of [get_windows_titles].  What they ask
    of the window manager and of the parsers [float] and [int] is a
    field of the [Desktop] class. *)

From Stdlib Require Import Ascii ZArith Lia.
From Stdlib Require Import SpecFloat.
From stdpp Require Import base decidable option list strings pretty gmap well_founded sorting.

Local Open Scope Z_scope.

(** ** Python exceptions *)

Inductive exn_class :=
  | ZeroDivisionError | OverflowError | ValueError | AttributeError
  | IndexError | OSError | SystemExit (code : Z) | KeyboardInterrupt.

(** An exception object: its class and [str(e)]. *)
Record exn := mk_exn { exn_cls : exn_class; exn_str : string }.

(** [isinstance(e, Exception)]: [SystemExit] and [KeyboardInterrupt]
    derive from [BaseException] only. *)
Definition is_Exception (e : exn) : bool :=
  match exn_cls e with
  | SystemExit _ | KeyboardInterrupt => false
  | _ => true
  end.

(** The result of evaluating a Python expression. *)
Inductive Outcome (A : Type) :=
  | Return (a : A)
  | Raise (e : exn).
Arguments Return {A} a.
Arguments Raise {A} e.

#[global] Instance Outcome_ret : MRet Outcome := λ A a, Return a.
#[global] Instance Outcome_bind : MBind Outcome := λ A B k m,
  match m with
  | Return a => k a
  | Raise e => Raise e
  end.

(** ** Numbers: [int], [float], [fractions.Fraction] *)

(** A Python [float] is an IEEE 754 binary64 number. *)
Definition float := spec_float.
Definition float_prec : Z := 53.
Definition float_emax : Z := 1024.

Definition float_div : float → float → float := SFdiv float_prec float_emax.

(** [float(z)] for an [int]: round to nearest, ties to even. *)
Definition float_of_int (z : Z) : float :=
  binary_normalize float_prec float_emax z 0 false.

Definition float_is_zero (f : float) : bool :=
  match f with S754_zero _ => true | _ => false end.

(** The value of [self.record_fps], [self.target_fps]: the class
    attributes are [int]s, [input_update] stores [float]s. *)
Inductive PyNum :=
  | PyInt (z : Z)
  | PyFloat (f : float).

(** [isinstance(x, int)] *)
Definition isinstance_int (x : PyNum) : bool :=
  match x with PyInt _ => true | PyFloat _ => false end.

(** Conversion of an operand of a mixed [int]/[float] operation. *)
Definition as_float (x : PyNum) : Outcome float :=
  match x with
  | PyFloat f => Return f
  | PyInt z =>
      match float_of_int z with
      | S754_infinity _ =>
          Raise (mk_exn OverflowError "int too large to convert to float")
      | f => Return f
      end
  end.

(** The mantissa/exponent view of an [int], for the correctly rounded
    [int / int]. *)
Definition int_as_finite (z : Z) : float :=
  match z with
  | Z0 => S754_zero false
  | Zpos m => S754_finite false m 0
  | Zneg m => S754_finite true m 0
  end.

(** [a / b] (true division). *)
Definition py_truediv (a b : PyNum) : Outcome float :=
  match a, b with
  | PyInt x, PyInt y =>
      if decide (y = 0) then Raise (mk_exn ZeroDivisionError "division by zero")
      else
        match float_div (int_as_finite x) (int_as_finite y) with
        | S754_infinity _ =>
            Raise (mk_exn OverflowError "integer division result too large for a float")
        | q => Return q
        end
  | _, _ =>
      x ← as_float a;
      y ← as_float b;
      if float_is_zero y
      then Raise (mk_exn ZeroDivisionError "float division by zero")
      else Return (float_div x y)
  end.

(** [a // b] on [int]s. *)
Definition py_floordiv (a b : Z) : Outcome Z :=
  if decide (b = 0)
  then Raise (mk_exn ZeroDivisionError "integer division or modulo by zero")
  else Return (a `div` b).

(** [fractions.Fraction]: the two private attributes. *)
Record Fraction := mk_Fraction { numerator : Z; denominator : Z }.

(** [Fraction(p, q)] for two [int]s: lowest terms, positive denominator. *)
Definition Fraction_new (p q : Z) : Outcome Fraction :=
  if decide (q = 0)
  then Raise (mk_exn ZeroDivisionError ("Fraction(" +:+ pretty p +:+ ", 0)"))
  else
    let g := Z.gcd p q in
    let g := if decide (q < 0) then - g else g in
    Return (mk_Fraction (p `div` g) (q `div` g)).

(** [float.as_integer_ratio], the exact value of a finite float. *)
Definition as_integer_ratio (f : float) : Outcome (Z * Z) :=
  match f with
  | S754_zero _ => Return (0, 1)
  | S754_finite s m e =>
      let n := cond_Zopp s (Zpos m) in
      if decide (0 ≤ e) then Return (n * 2 ^ e, 1)
      else
        let d := 2 ^ (- e) in
        let g := Z.gcd n d in
        Return (n `div` g, d `div` g)
  | S754_infinity _ =>
      Raise (mk_exn OverflowError "cannot convert Infinity to integer ratio")
  | S754_nan =>
      Raise (mk_exn ValueError "cannot convert NaN to integer ratio")
  end.

(** [Fraction(x)] for a number. *)
Definition Fraction_of (x : PyNum) : Outcome Fraction :=
  match x with
  | PyInt z => Return (mk_Fraction z 1)
  | PyFloat f => '(n, d) ← as_integer_ratio f; Return (mk_Fraction n d)
  end.

(** [a - b], [abs(a)], [a <= b] on fractions. *)
Definition Fraction_sub (a b : Fraction) : Outcome Fraction :=
  Fraction_new (numerator a * denominator b - numerator b * denominator a)
               (denominator a * denominator b).

Definition Fraction_abs (a : Fraction) : Fraction :=
  mk_Fraction (Z.abs (numerator a)) (denominator a).

Definition Fraction_le (a b : Fraction) : bool :=
  bool_decide (numerator a * denominator b ≤ numerator b * denominator a).

(** The [while True] loop of [limit_denominator].  Every iteration
    replaces [d] by [n - (n // d) * d], which is smaller in absolute
    value; the loop state is returned at [break]. *)
Definition abs_lt (x y : Z) : Prop := Z.abs x < Z.abs y.

Lemma abs_lt_wf : well_founded abs_lt.
Proof.
  apply (wf_projected (λ x y, 0 ≤ x < y) Z.abs); [|apply Z.lt_wf].
  unfold abs_lt. lia.
Qed.

Lemma abs_lt_floor_rem (n d : Z) : d ≠ 0 → abs_lt (n - n `div` d * d) d.
Proof.
  intros Hd. unfold abs_lt.
  pose proof (Z_div_mod_eq_full n d).
  destruct (decide (0 < d)).
  - pose proof (Z.mod_pos_bound n d). lia.
  - pose proof (Z.mod_neg_bound n d). lia.
Qed.

Record cf_state := mk_cf {
  cf_p0 : Z; cf_q0 : Z; cf_p1 : Z; cf_q1 : Z; cf_n : Z; cf_d : Z
}.

Fixpoint limit_loop (max_denominator : Z) (p0 q0 p1 q1 n d : Z)
    (acc : Acc abs_lt d) {struct acc} : Outcome cf_state :=
  match decide (d = 0) with
  | left _ => Raise (mk_exn ZeroDivisionError "integer division or modulo by zero")
  | right Hd =>
      let a := n `div` d in
      let q2 := q0 + a * q1 in
      if decide (q2 > max_denominator)
      then Return (mk_cf p0 q0 p1 q1 n d)
      else limit_loop max_denominator p1 q1 (p0 + a * p1) q2 d (n - a * d)
             (Acc_inv acc (abs_lt_floor_rem n d Hd))
  end.

(** [Fraction.limit_denominator(max_denominator)] *)
Definition limit_denominator (self : Fraction) (max_denominator : Z)
    : Outcome Fraction :=
  if decide (max_denominator < 1)
  then Raise (mk_exn ValueError "max_denominator should be at least 1")
  else if decide (denominator self ≤ max_denominator)
  then Return self
  else
    st ← limit_loop max_denominator 0 1 1 0 (numerator self) (denominator self)
           (wf_guard 32 abs_lt_wf (denominator self));
    let '(mk_cf p0 q0 p1 q1 n d) := st in
    k ← py_floordiv (max_denominator - q0) q1;
    bound1 ← Fraction_new (p0 + k * p1) (q0 + k * q1);
    bound2 ← Fraction_new p1 q1;
    d2 ← Fraction_sub bound2 self;
    d1 ← Fraction_sub bound1 self;
    if Fraction_le (Fraction_abs d2) (Fraction_abs d1)
    then Return bound2
    else Return bound1.

(** The default argument [max_denominator=1000000]. *)
Definition default_max_denominator : Z := 1000000.

(** ** f-strings and [strftime] *)

(** [datetime.now()] *)
Record datetime := mk_datetime {
  year : N; month : N; day : N; hour : N; minute : N; second : N
}.

(** Zero padding to a width of two ([%m], [%d], [%H], [%M], [%S]) and of
    four ([%Y]). *)
Definition pad2 (n : N) : string :=
  if decide (n < 10)%N then "0" +:+ pretty n else pretty n.

Definition pad4 (n : N) : string :=
  if decide (n < 10)%N then "000" +:+ pretty n
  else if decide (n < 100)%N then "00" +:+ pretty n
  else if decide (n < 1000)%N then "0" +:+ pretty n
  else pretty n.

(** [now.strftime('%Y.%m.%d_%H.%M.%S')] *)
Definition strftime (now : datetime) : string :=
  pad4 (year now) +:+ "." +:+ pad2 (month now) +:+ "." +:+ pad2 (day now)
  +:+ "_" +:+ pad2 (hour now) +:+ "." +:+ pad2 (minute now)
  +:+ "." +:+ pad2 (second now).

(** ** The operating system, as the program sees it *)

Inductive Signal := CTRL_BREAK_EVENT | SIGTERM.

(** The calls the program makes to its surroundings, in program order.
    A signal is recorded with the process id it is aimed at and whether
    the call returned ([true]) or raised ([false]). *)
Inductive Event :=
  | EvPopen (args : list string) (child : option positive)
  | EvSignal (pid : Z) (sig : Signal) (delivered : bool)
  | EvSleep (seconds : Z)
  | EvRecompose
  | EvUnlink (path : string)
  | EvMkdir (path : string)
  | EvPrint (text : string).

(** The observable world: the calls made so far, the files and the
    directories on disk. *)
Record World := mk_World {
  trace : list Event;
  files : gset string;
  dirs : gset string
}.

(** What the program cannot decide itself.  Process ids handed out by
    process creation are [positive]: id 0 is never a child's.  Process
    creation, signal delivery and the removal of a file succeed or fail
    with an [OSError], whose text the platform chooses.  While the host
    sleeps the rest of the system decides what files and what
    directories there are when it wakes up. *)
Class Platform := {
  WINDOW_MAX_WIDTH : Z;
  WINDOW_MAX_HEIGHT : Z;
  repr_float : float → string;
  os_now : World → datetime;
  os_create_process : World → list string → string + positive;
  os_kill : World → Z → Signal → option string;
  os_unlink : World → string → option string;
  os_elapse : World → Z → gset string;
  os_elapse_dirs : World → Z → gset string
}.

(** ** Program state *)

(** [subprocess.Popen]: the handle of a child. *)
Record Popen := mk_Popen { pid : positive; args : list string }.

(** The attributes of [RecorderApp] the recorder reads or writes.
    [cmd] is not a class attribute: it exists once [start_recording]
    has assigned it. *)
Record RecorderApp := mk_RecorderApp {
  box : Z * Z * Z * Z;
  hwid : Z;
  process : option Popen;
  started : bool;
  record_fps : PyNum;
  target_fps : PyNum;
  bitrate : Z;
  cmd : option (list string)
}.

(** The instance, the module global [PID] and the world. *)
Record State := mk_State {
  self : RecorderApp;
  PID : Z;
  world : World
}.

(** The class attributes of a fresh [RecorderApp()] and [PID = 0]. *)
Definition RecorderApp_init : RecorderApp :=
  mk_RecorderApp (0, 0, 1, 1) 0 None false (PyInt 1) (PyInt 60) 4000 None.

Definition State_init (w : World) : State := mk_State RecorderApp_init 0 w.

(** A statement: runs in a state, returns or raises, leaves a state. *)
Definition Py (A : Type) : Type := State → Outcome A * State.

#[global] Instance Py_ret : MRet Py := λ A a s, (Return a, s).
#[global] Instance Py_bind : MBind Py := λ A B k m s,
  match m s with
  | (Return a, s') => k a s'
  | (Raise e, s') => (Raise e, s')
  end.

Definition raise {A} (e : exn) : Py A := λ s, (Raise e, s).

(** An expression that touches no state. *)
Definition pure {A} (o : Outcome A) : Py A := λ s, (o, s).

(** [try: body  except Exception as e: handler(e)] *)
Definition try_except {A} (body : Py A) (handler : exn → Py A) : Py A := λ s,
  match body s with
  | (Raise e, s') => if is_Exception e then handler e s' else (Raise e, s')
  | r => r
  end.

Definition get_self : Py RecorderApp := λ s, (Return (self s), s).
Definition get_PID : Py Z := λ s, (Return (PID s), s).

Definition set_PID (v : Z) : Py unit := λ s,
  (Return tt, mk_State (self s) v (world s)).

(** Assignment to [self.process] and to [self.cmd]. *)
Definition with_process (v : option Popen) (a : RecorderApp) : RecorderApp :=
  mk_RecorderApp (box a) (hwid a) v (started a) (record_fps a)
    (target_fps a) (bitrate a) (cmd a).

Definition with_cmd (v : list string) (a : RecorderApp) : RecorderApp :=
  mk_RecorderApp (box a) (hwid a) (process a) (started a) (record_fps a)
    (target_fps a) (bitrate a) (Some v).

Definition set_process (v : option Popen) : Py unit := λ s,
  (Return tt, mk_State (with_process v (self s)) (PID s) (world s)).

Definition set_cmd (v : list string) : Py unit := λ s,
  (Return tt, mk_State (with_cmd v (self s)) (PID s) (world s)).

(** [self.cmd]: [AttributeError] while the attribute does not exist. *)
Definition get_cmd : Py (list string) := λ s,
  match cmd (self s) with
  | Some c => (Return c, s)
  | None =>
      (Raise (mk_exn AttributeError "'RecorderApp' object has no attribute 'cmd'"), s)
  end.

(** [l[-1]] *)
Definition index_last (l : list string) : Outcome string :=
  match last l with
  | Some x => Return x
  | None => Raise (mk_exn IndexError "list index out of range")
  end.

(** Appending a call to the trace. *)
Definition log (w : World) (e : Event) : World :=
  mk_World (trace w ++ [e]) (files w) (dirs w).

Definition emit (e : Event) : Py unit := λ s,
  (Return tt, mk_State (self s) (PID s) (log (world s) e)).

Section Recorder.
Context `{Platform}.

(** [datetime.now()] *)
Definition datetime_now : Py datetime := λ s, (Return (os_now (world s)), s).

(** [Popen(args, stdin=PIPE, creationflags=CREATE_NEW_PROCESS_GROUP)] *)
Definition Popen_new (argv : list string) : Py Popen := λ s,
  match os_create_process (world s) argv with
  | inr p =>
      (Return (mk_Popen p argv),
       mk_State (self s) (PID s) (log (world s) (EvPopen argv (Some p))))
  | inl msg =>
      (Raise (mk_exn OSError msg),
       mk_State (self s) (PID s) (log (world s) (EvPopen argv None)))
  end.

(** [os.kill(pid, sig)] *)
Definition os_kill_call (p : Z) (sig : Signal) : Py unit := λ s,
  match os_kill (world s) p sig with
  | None =>
      (Return tt, mk_State (self s) (PID s) (log (world s) (EvSignal p sig true)))
  | Some msg =>
      (Raise (mk_exn OSError msg),
       mk_State (self s) (PID s) (log (world s) (EvSignal p sig false)))
  end.

(** [proc.send_signal(sig)]: the handle is never polled, so its
    [returncode] is [None] and the signal goes to the process id. *)
Definition send_signal (proc : Popen) (sig : Signal) : Py unit :=
  os_kill_call (Zpos (pid proc)) sig.

(** [await asyncio.sleep(n)] and [time.sleep(n)]: the host does
    nothing while the rest of the system runs on. *)
Definition asleep (w : World) (seconds : Z) : World :=
  let w' := log w (EvSleep seconds) in
  mk_World (trace w') (os_elapse w' seconds) (os_elapse_dirs w' seconds).

Definition sleep (seconds : Z) : Py unit := λ s,
  (Return tt, mk_State (self s) (PID s) (asleep (world s) seconds)).

(** [await self.recompose()] *)
Definition recompose : Py unit := emit EvRecompose.

(** [Path(path).unlink(True)]: with [missing_ok] an absent file is
    not an error.  Any other failure (the file is still in use, access
    is denied, the path is a directory) is an [OSError] that the call
    raises, and then nothing is removed. *)
Definition unlinked (w : World) (path : string) : World :=
  let w' := log w (EvUnlink path) in
  mk_World (trace w') (files w' ∖ {[path]}) (dirs w').

Definition unlink (path : string) : Py unit := λ s,
  match os_unlink (world s) path with
  | None => (Return tt, mk_State (self s) (PID s) (unlinked (world s) path))
  | Some msg =>
      (Raise (mk_exn OSError msg),
       mk_State (self s) (PID s) (log (world s) (EvUnlink path)))
  end.

(** The world in which [cancel_recording] calls [unlink]: the signal
    has been delivered, the wait is over and the UI recomposed. *)
Definition cancelled (w : World) (child : Z) : World :=
  log (asleep (log w (EvSignal child SIGTERM true)) 3) EvRecompose.

(** [print(text)] *)
Definition print (text : string) : Py unit := emit (EvPrint text).

(** [f"{x}"] for a number. *)
Definition format_num (x : PyNum) : string :=
  match x with
  | PyInt z => pretty z
  | PyFloat f => repr_float f
  end.

(** The [settb] and [setpts] strings (lines 336 to 343). *)
Definition filter_args (record_fps target_fps : PyNum)
    : Outcome (string * string) :=
  if isinstance_int record_fps && isinstance_int target_fps then
    let settb := "1/" +:+ format_num target_fps in
    let setpts := format_num target_fps in
    Return (settb, setpts)
  else
    q ← py_truediv record_fps target_fps;
    f ← Fraction_of (PyFloat q);
    _settb ← limit_denominator f default_max_denominator;
    let settb := pretty (numerator _settb) +:+ "/" +:+ pretty (denominator _settb) in
    g ← Fraction_of target_fps;
    _setpts ← limit_denominator g default_max_denominator;
    let setpts :=
      "(" +:+ pretty (numerator _setpts) +:+ "/" +:+ pretty (denominator _setpts) +:+ ")" in
    Return (settb, setpts).

(** The argument list assigned to [self.cmd] (lines 346 to 368). *)
Definition build_cmd (a : RecorderApp) (settb setpts : string)
    (now : datetime) : list string :=
  let '(box0, box1, box2, box3) := box a in
  [ "ffmpeg";
    "-v"; "quiet";
    "-stats";
    "-f"; "gdigrab";
    "-thread_queue_size"; "1024";
    "-rtbufsize"; "256M";
    "-framerate"; format_num (record_fps a);
    "-offset_x"; pretty (Z.max box0 0);
    "-offset_y"; pretty (Z.max box1 0);
    "-video_size";
      pretty (Z.min box2 WINDOW_MAX_WIDTH) +:+ "x" +:+ pretty (Z.min box3 WINDOW_MAX_HEIGHT);
    "-show_region"; "0";
    "-i"; "desktop";
    "-filter_complex"; "settb=" +:+ settb +:+ ",setpts=N/TB/" +:+ setpts;
    "-c:v"; "h264_nvenc";
    "-r"; format_num (target_fps a);
    "-preset"; "p4";
    "-tune"; "hq";
    "-b:v"; pretty (bitrate a) +:+ "k";
    "-movflags"; "+faststart";
    "-y";
    "recordings/timelapse_" +:+ strftime now +:+ ".mkv" ].

(** [RecorderApp.start_recording] *)
Definition start_recording : Py unit :=
  a ← get_self;
  match process a with
  | Some _ => mret tt
  | None =>
      '(settb, setpts) ← pure (filter_args (record_fps a) (target_fps a));
      now ← datetime_now;
      set_cmd (build_cmd a settb setpts now);;
      argv ← get_cmd;
      proc ← Popen_new argv;
      set_process (Some proc);;
      set_PID (Zpos (pid proc))
  end.

(** [RecorderApp.stop_recording] *)
Definition stop_recording : Py unit :=
  a ← get_self;
  match process a with
  | None => mret tt
  | Some proc =>
      send_signal proc CTRL_BREAK_EVENT;;
      set_process None;;
      set_PID 0;;
      sleep 3;;
      recompose
  end.

(** [RecorderApp.cancel_recording] *)
Definition cancel_recording : Py unit :=
  a ← get_self;
  match process a with
  | None => mret tt
  | Some proc =>
      send_signal proc SIGTERM;;
      set_process None;;
      set_PID 0;;
      sleep 3;;
      recompose;;
      argv ← get_cmd;
      file ← pure (index_last argv);
      unlink file
  end.

(** [sys.exit(status)] *)
Definition sys_exit {A} (status : Z) : Py A :=
  raise (mk_exn (SystemExit status) (pretty status)).

(** The [except Exception:] block of [__main__] (lines 419 to 429),
    entered with the exception [e] that escaped [app.run()]: it ends
    in [sys.exit(PID)] or in the bare [raise]. *)
Definition crash_handler (e : exn) : Py unit :=
  p ← get_PID;
  (if decide (p = 0) then mret tt
   else
     try_except (os_kill_call p CTRL_BREAK_EVENT)
       (λ e', print ("Stopping ffmpeg with PID=" +:+ pretty p
                     +:+ " result in an error " +:+ exn_str e'));;
     sleep 5;;
     try_except (os_kill_call p SIGTERM) (λ _, mret tt);;
     sys_exit p);;
  raise e.

(** [Path("recordings").mkdir(exist_ok=True)] unless it is a
    directory; a file of that name makes [mkdir] fail. *)
Definition ensure_recordings : Py unit := λ s,
  let w := world s in
  if decide ("recordings" ∈ dirs w) then (Return tt, s)
  else
    let s' := mk_State (self s) (PID s) (log w (EvMkdir "recordings")) in
    if decide ("recordings" ∈ files w)
    then (Raise (mk_exn OSError "[Errno 17] File exists: 'recordings'"), s')
    else
      (Return tt,
       mk_State (self s) (PID s)
         (mk_World (trace w ++ [EvMkdir "recordings"]) (files w)
            (dirs w ∪ {["recordings"]}))).

(** The [__main__] block; [run] stands for [RecorderApp().run()], the
    event loop of the UI toolkit. *)
Definition main (run : Py unit) (w : World) : Outcome unit * State :=
  (ensure_recordings;; try_except run crash_handler) (State_init w).

End Recorder.

(** How the host process ends, and what the interpreter makes of the
    outcome of the main module. *)
Inductive Ending :=
  | Finished
  | Exited (status : Z)
  | Uncaught (e : exn).

Definition ending (o : Outcome unit) : Ending :=
  match o with
  | Return _ => Finished
  | Raise e =>
      match exn_cls e with
      | SystemExit status => Exited status
      | _ => Uncaught e
      end
  end.

(** ** Reading fractions *)

(** Lowest terms, positive denominator. *)
Definition reduced (f : Fraction) : Prop :=
  0 < denominator f ∧ Z.gcd (numerator f) (denominator f) = 1.

(** [r] is at least as near to [f] as [y] is: |r - f| ≤ |y - f|, with
    the (positive) denominators multiplied out. *)
Definition nearer (f r y : Fraction) : Prop :=
  Z.abs (numerator r * denominator f - numerator f * denominator r)
  * denominator y
  ≤ Z.abs (numerator y * denominator f - numerator f * denominator y)
    * denominator r.

(** ** Reading traces and command lines *)

(** [argv] carries the option [flag] with the value [v]. *)
Definition has_option (argv : list string) (flag v : string) : Prop :=
  ∃ i : nat, argv !! i = Some flag ∧ argv !! S i = Some v.

(** The calls made between two states. *)
Definition events_between (s s' : State) (evs : list Event) : Prop :=
  trace (world s') = trace (world s) ++ evs.

Definition is_signal (sig : Signal) (e : Event) : bool :=
  match e, sig with
  | EvSignal _ CTRL_BREAK_EVENT _, CTRL_BREAK_EVENT => true
  | EvSignal _ SIGTERM _, SIGTERM => true
  | _, _ => false
  end.

Definition is_unlink (e : Event) : bool :=
  match e with EvUnlink _ => true | _ => false end.

(** How often the signal [sig] was attempted, delivered or not. *)
Definition attempts (sig : Signal) (evs : list Event) : nat :=
  length (filter (λ e, is_signal sig e = true) evs).

(** What the exception handler prints when the first signal could not
    be delivered: nothing if [os.kill] returned ([None]). *)
Definition report (p : Z) (failure : option string) : list Event :=
  match failure with
  | None => []
  | Some msg =>
      [EvPrint ("Stopping ffmpeg with PID=" +:+ pretty p
                +:+ " result in an error " +:+ msg)]
  end.

(** The children the host has created and not yet signalled, oldest
    first: a successful [Popen] adds one, a delivered signal takes the
    signalled one away. *)
Fixpoint drop_child (p : Z) (l : list Z) : list Z :=
  match l with
  | [] => []
  | q :: l' => if decide (p = q) then l' else q :: drop_child p l'
  end.

Definition track (l : list Z) (e : Event) : list Z :=
  match e with
  | EvPopen _ (Some p) => l ++ [Zpos p]
  | EvSignal p _ true => drop_child p l
  | _ => l
  end.

Definition children (tr : list Event) : list Z := fold_left track tr [].

(** The command line of the most recent [Popen] call, if any. *)
Definition built (o : option (list string)) (e : Event) : option (list string) :=
  match e with
  | EvPopen argv _ => Some argv
  | _ => o
  end.

Definition last_built (tr : list Event) : option (list string) :=
  fold_left built tr None.

(** The handle as a list of process ids. *)
Definition handle_pids (a : RecorderApp) : list Z :=
  match process a with
  | Some proc => [Zpos (pid proc)]
  | None => []
  end.

(** The state invariant: the tracked [PID] is the handle's (0 without
    one), the host's children are exactly the handle's, and the handle
    belongs to the command line in [self.cmd]. *)
Record Inv (s : State) : Prop := mk_Inv {
  Inv_PID : PID s = match process (self s) with
                    | Some proc => Zpos (pid proc)
                    | None => 0
                    end;
  Inv_children : children (trace (world s)) = handle_pids (self s);
  Inv_cmd : cmd (self s) = last_built (trace (world s));
  Inv_args : ∀ proc, process (self s) = Some proc →
             cmd (self s) = Some (args proc) ∧ args proc ≠ []
}.

Section Reachable.
Context `{Platform}.

(** One step of the application: one of the three recorder methods
    runs to its end (returning or raising), the UI handlers
    ([select_changed], [update_win_dimensions], [input_update] and the
    action wrappers) overwrite the settings they own, or other
    processes change the disk between two handlers. *)
Inductive step : State → State → Prop :=
  | step_start s : step s (start_recording s).2
  | step_stop s : step s (stop_recording s).2
  | step_cancel s : step s (cancel_recording s).2
  | step_settings s b h st r t br :
      step s (mk_State
                (mk_RecorderApp b h (process (self s)) st r t br (cmd (self s)))
                (PID s) (world s))
  | step_disk s fs ds :
      step s (mk_State (self s) (PID s) (mk_World (trace (world s)) fs ds)).

(** The states the application can be in, from a fresh instance in a
    world where nothing has been called yet. *)
Definition reachable (s : State) : Prop :=
  ∃ fs ds, rtc step (State_init (mk_World [] fs ds)) s.

End Reachable.

(** ** Sample platforms *)

(** The output paths of the encoders started so far. *)
Definition outputs (tr : list Event) : list string :=
  omap (λ e, match e with
             | EvPopen argv (Some _) => last argv
             | _ => None
             end) tr.

(** A 1920x1080 screen on which every call succeeds and every encoder
    has written its output file by the time the host wakes up.  Floats
    are shown by mantissa and binary exponent. *)
Definition sample_platform : Platform := {|
  WINDOW_MAX_WIDTH := 1920;
  WINDOW_MAX_HEIGHT := 1080;
  repr_float := λ f,
    match f with
    | S754_finite false m e => pretty (Zpos m) +:+ "p" +:+ pretty e
    | S754_finite true m e => "-" +:+ pretty (Zpos m) +:+ "p" +:+ pretty e
    | S754_zero _ => "0.0"
    | S754_infinity s => if s then "-inf" else "inf"
    | S754_nan => "nan"
    end;
  os_now := λ _, mk_datetime 2024 3 9 17 5 42;
  os_create_process := λ _ _, inr 4242%positive;
  os_kill := λ _ _ _, None;
  os_unlink := λ _ _, None;
  os_elapse := λ w _, files w ∪ list_to_set (outputs (trace w));
  os_elapse_dirs := λ w _, dirs w
|}.

(** The same, but no signal can be delivered. *)
Definition deaf_platform : Platform := {|
  WINDOW_MAX_WIDTH := 1920;
  WINDOW_MAX_HEIGHT := 1080;
  repr_float := @repr_float sample_platform;
  os_now := @os_now sample_platform;
  os_create_process := @os_create_process sample_platform;
  os_kill := λ _ _ _, Some "[WinError 5] Access is denied";
  os_unlink := @os_unlink sample_platform;
  os_elapse := @os_elapse sample_platform;
  os_elapse_dirs := @os_elapse_dirs sample_platform
|}.

(** The sample platform again, but the encoder still holds its output
    file open when the host wakes up: the file cannot be removed. *)
Definition locked_platform : Platform := {|
  WINDOW_MAX_WIDTH := 1920;
  WINDOW_MAX_HEIGHT := 1080;
  repr_float := @repr_float sample_platform;
  os_now := @os_now sample_platform;
  os_create_process := @os_create_process sample_platform;
  os_kill := @os_kill sample_platform;
  os_unlink := λ _ _, Some "[WinError 32] The file is in use by another process";
  os_elapse := @os_elapse sample_platform;
  os_elapse_dirs := @os_elapse_dirs sample_platform
|}.

Definition empty_world : World := mk_World [] ∅ ∅.

(** The state after one [start_recording] on a fresh instance. *)
Definition recording (P : Platform) : State :=
  (@start_recording P (State_init empty_world)).2.

Definition sample_output : string :=
  "recordings/timelapse_2024.03.09_17.05.42.mkv".

Definition sample_child : Popen :=
  mk_Popen 4242
    (@build_cmd sample_platform RecorderApp_init "1/60" "60"
       (mk_datetime 2024 3 9 17 5 42)).

(** A window that hangs over all four edges of the screen, and float
    rates: a quarter of a frame per second played at thirty. *)
Definition oversize : State :=
  mk_State
    (mk_RecorderApp (-8, -8, 1928, 1088) 1312 None false
       (PyFloat (S754_finite false 4503599627370496 (-54)))
       (PyFloat (float_of_int 30)) 8000 None)
    0 empty_world.

(** An event loop that starts a recording and then fails. *)
Definition crashing_run (P : Platform) : Py unit :=
  @start_recording P;; raise (mk_exn ValueError "widget not found").

(** ** The user interface *)

(** The calls the handlers make on the [TimeDisplayWidget]: [start()]
    and [stop()]. *)
Inductive TimerCall := TimerStart | TimerStop.

(** What the handlers write on the widgets: the [started] class of the
    app, [Select.disabled], the [disabled] of the Start button, the
    box shown by [BoxSize], and the calls made on the time display
    on screen.
    [generation] tells the widgets of one [compose] from those of the
    next: a widget looked up before a recomposition is no longer on
    screen after it. *)
Record Widgets := mk_Widgets {
  generation : nat;
  class_started : bool;
  select_disabled : bool;
  start_disabled : bool;
  win_box : Z * Z * Z * Z;
  timer_calls : list TimerCall
}.

(** The widgets that [compose] yields: [Select(...)], [BoxSize()],
    [TimeDisplayWidget()], [Button("Start", disabled=True)].  The
    classes of the app are not the work of [compose]. *)
Definition compose (w : Widgets) : Widgets :=
  mk_Widgets (S (generation w)) (class_started w) false true (0, 0, 1, 1) [].

Definition Widgets_init : Widgets :=
  mk_Widgets 0 false false true (0, 0, 1, 1) [].

(** The recorder together with its widgets. *)
Record Ui := mk_Ui { recorder : State; widgets : Widgets }.

Definition Ui_init (w : World) : Ui := mk_Ui (State_init w) Widgets_init.

(** A handler: runs on the recorder and the widgets. *)
Definition Tk (A : Type) : Type := Ui → Outcome A * Ui.

#[global] Instance Tk_ret : MRet Tk := λ A a u, (Return a, u).
#[global] Instance Tk_bind : MBind Tk := λ A B k m u,
  match m u with
  | (Return a, u') => k a u'
  | (Raise e, u') => (Raise e, u')
  end.

Definition is_recompose (e : Event) : bool :=
  match e with EvRecompose => true | _ => false end.

(** Whether [self.recompose()] was called between two states. *)
Definition recomposed (s s' : State) : bool :=
  existsb is_recompose (drop (length (trace (world s))) (trace (world s'))).

(** A method of the recorder called from a handler.  [recompose]
    replaces the widgets by those of [compose]. *)
Definition call {A} (m : Py A) : Tk A := λ u,
  let '(o, s') := m (recorder u) in
  (o, mk_Ui s' (if recomposed (recorder u) s' then compose (widgets u)
                else widgets u)).

Definition get_app : Tk RecorderApp := λ u, (Return (self (recorder u)), u).

Definition tk_raise {A} (e : exn) : Tk A := λ u, (Raise e, u).

(** Assignments to the attributes of the instance. *)
Definition with_started (v : bool) (a : RecorderApp) : RecorderApp :=
  mk_RecorderApp (box a) (hwid a) (process a) v (record_fps a)
    (target_fps a) (bitrate a) (cmd a).

Definition with_hwid (v : Z) (a : RecorderApp) : RecorderApp :=
  mk_RecorderApp (box a) v (process a) (started a) (record_fps a)
    (target_fps a) (bitrate a) (cmd a).

Definition with_box (v : Z * Z * Z * Z) (a : RecorderApp) : RecorderApp :=
  mk_RecorderApp v (hwid a) (process a) (started a) (record_fps a)
    (target_fps a) (bitrate a) (cmd a).

Definition with_record_fps (v : PyNum) (a : RecorderApp) : RecorderApp :=
  mk_RecorderApp (box a) (hwid a) (process a) (started a) v
    (target_fps a) (bitrate a) (cmd a).

Definition with_target_fps (v : PyNum) (a : RecorderApp) : RecorderApp :=
  mk_RecorderApp (box a) (hwid a) (process a) (started a) (record_fps a)
    v (bitrate a) (cmd a).

Definition with_bitrate (v : Z) (a : RecorderApp) : RecorderApp :=
  mk_RecorderApp (box a) (hwid a) (process a) (started a) (record_fps a)
    (target_fps a) v (cmd a).

Definition set_attr (f : RecorderApp → RecorderApp) : Tk unit := λ u,
  let s := recorder u in
  (Return tt, mk_Ui (mk_State (f (self s)) (PID s) (world s)) (widgets u)).

Definition set_widgets (f : Widgets → Widgets) : Tk unit := λ u,
  (Return tt, mk_Ui (recorder u) (f (widgets u))).

(** [self.add_class("started")], [self.remove_class("started")] *)
Definition set_class (v : bool) : Tk unit :=
  set_widgets (λ w, mk_Widgets (generation w) v (select_disabled w)
                      (start_disabled w) (win_box w) (timer_calls w)).

(** [self.query_one(Select)], [self.query_one(TimeDisplayWidget)]: the
    widget on screen, known by its generation. *)
Definition query_one : Tk nat := λ u, (Return (generation (widgets u)), u).

(** [select.disabled = v] on a [Select] that was looked up earlier: a
    write on a widget that has been replaced does not show. *)
Definition set_select_disabled (select : nat) (v : bool) : Tk unit :=
  set_widgets (λ w,
    if decide (select = generation w)
    then mk_Widgets (generation w) (class_started w) v (start_disabled w)
           (win_box w) (timer_calls w)
    else w).

(** [time_display.start()] and [time_display.stop()], likewise. *)
Definition timer (time_display_widget : nat) (c : TimerCall) : Tk unit :=
  set_widgets (λ w,
    if decide (time_display_widget = generation w)
    then mk_Widgets (generation w) (class_started w) (select_disabled w)
           (start_disabled w) (win_box w) (timer_calls w ++ [c])
    else w).

(** [self.query_one("#start").disabled = v] *)
Definition set_start_disabled (v : bool) : Tk unit :=
  set_widgets (λ w, mk_Widgets (generation w) (class_started w)
                      (select_disabled w) v (win_box w) (timer_calls w)).

(** [self.query_one(BoxSize).box = v] *)
Definition set_win_box (v : Z * Z * Z * Z) : Tk unit :=
  set_widgets (λ w, mk_Widgets (generation w) (class_started w)
                      (select_disabled w) (start_disabled w) v (timer_calls w)).

(** [all(v < 0 for v in box)] *)
Definition all_negative (b : Z * Z * Z * Z) : bool :=
  let '(b0, b1, b2, b3) := b in
  bool_decide (b0 < 0) && bool_decide (b1 < 0)
  && bool_decide (b2 < 0) && bool_decide (b3 < 0).

(** The window manager and the parsers of the runtime, as the handlers
    see them: [win32gui] and the builtins [float], [int] and
    [str.lower].  A parser answers [None] where Python raises
    [ValueError]. *)
Class Desktop := {
  GetWindowRect : World → Z → Z * Z * Z * Z;
  EnumWindows : World → list Z;
  IsWindowVisible : World → Z → bool;
  GetWindowText : World → Z → string;
  str_lower : string → string;
  float_of_str : string → option float;
  int_of_str : string → option Z
}.

(** The [Input.Changed] event: whether there is a validation result
    and it is valid, the text, and the id of the input. *)
Record InputChanged := mk_InputChanged {
  validation_result : option bool;
  value : string;
  input_id : string
}.

Section Handlers.
Context `{Platform} `{Desktop}.

(** [RecorderApp.action_start_recording] *)
Definition action_start_recording : Tk unit :=
  a ← get_app;
  if started a || bool_decide (hwid a = 0) || all_negative (box a)
  then mret tt
  else
    set_class true;;
    call start_recording;;
    time_display ← query_one;
    timer time_display TimerStart;;
    select ← query_one;
    set_select_disabled select true;;
    set_attr (with_started true).

(** [RecorderApp.action_stop_recording] *)
Definition action_stop_recording : Tk unit :=
  a ← get_app;
  if negb (started a) then mret tt
  else
    time_display ← query_one;
    timer time_display TimerStop;;
    call stop_recording;;
    set_class false;;
    select ← query_one;
    set_select_disabled select false;;
    set_attr (with_started false).

(** [RecorderApp.action_cancel_recording] *)
Definition action_cancel_recording : Tk unit :=
  a ← get_app;
  if negb (started a) then mret tt
  else
    time_display ← query_one;
    timer time_display TimerStop;;
    call cancel_recording;;
    set_class false;;
    select ← query_one;
    set_select_disabled select false;;
    set_attr (with_started false).

(** [RecorderApp.action_exit]: [sys.exit()] is exit status 0. *)
Definition action_exit : Tk unit :=
  action_stop_recording;;
  tk_raise (mk_exn (SystemExit 0) "").

(** [RecorderApp.on_button_pressed]: the time display and the [Select]
    are looked up once, before the branch. *)
Definition on_button_pressed (button_id : string) : Tk unit :=
  time_display ← query_one;
  select ← query_one;
  a ← get_app;
  if String.eqb button_id "start" && negb (all_negative (box a)) then
    set_class true;;
    call start_recording;;
    timer time_display TimerStart;;
    set_select_disabled select true;;
    set_attr (with_started true)
  else if String.eqb button_id "stop" then
    timer time_display TimerStop;;
    call stop_recording;;
    set_class false;;
    set_select_disabled select false;;
    set_attr (with_started false)
  else if String.eqb button_id "cancel" then
    timer time_display TimerStop;;
    call cancel_recording;;
    set_class false;;
    set_select_disabled select false;;
    set_attr (with_started false)
  else mret tt.

(** [GetWindowRect(hwnd)] *)
Definition win32_GetWindowRect (hwnd : Z) : Tk (Z * Z * Z * Z) := λ u,
  (Return (GetWindowRect (world (recorder u)) hwnd), u).

(** [RecorderApp.update_win_dimensions] *)
Definition update_win_dimensions : Tk unit :=
  a ← get_app;
  if bool_decide (hwid a = 0) then mret tt
  else
    rect ← win32_GetWindowRect (hwid a);
    set_attr (with_box rect);;
    a ← get_app;
    let '(b0, b1, b2, b3) := box a in
    (if bool_decide (b0 = -8) || bool_decide (b1 = -8)
        || bool_decide (b2 = WINDOW_MAX_WIDTH + 8)
        || bool_decide (b3 = WINDOW_MAX_HEIGHT + 8)
     then set_attr (with_box (b0 + 8, b1 + 8, b2 - 8, b3 - 8))
     else mret tt);;
    a ← get_app;
    set_win_box (box a).

(** [RecorderApp.select_changed]; the value is a window handle, or
    [None] for [Select.BLANK]. *)
Definition select_changed (v : option Z) : Tk unit :=
  match v with
  | Some h =>
      if bool_decide (h = 0) then
        set_attr (with_hwid 0);;
        set_attr (with_box (0, 0, 1, 1));;
        set_win_box (0, 0, 1, 1);;
        set_start_disabled true
      else
        set_attr (with_hwid h);;
        update_win_dimensions;;
        set_start_disabled false
  | None =>
      set_attr (with_hwid 0);;
      set_attr (with_box (0, 0, 1, 1));;
      set_win_box (0, 0, 1, 1);;
      set_start_disabled true
  end.

(** [float(text)] and [int(text)] *)
Definition py_float (text : string) : Tk float :=
  match float_of_str text with
  | Some f => mret f
  | None =>
      tk_raise (mk_exn ValueError
                  ("could not convert string to float: '" +:+ text +:+ "'"))
  end.

Definition py_int (text : string) : Tk Z :=
  match int_of_str text with
  | Some z => mret z
  | None =>
      tk_raise (mk_exn ValueError
                  ("invalid literal for int() with base 10: '" +:+ text +:+ "'"))
  end.

(** [RecorderApp.input_update] *)
Definition input_update (event : InputChanged) : Tk unit :=
  if negb (default false (validation_result event))
     || bool_decide (value event = "")
  then mret tt
  else if String.eqb (input_id event) "record_fps"
  then f ← py_float (value event); set_attr (with_record_fps (PyFloat f))
  else if String.eqb (input_id event) "target_fps"
  then f ← py_float (value event); set_attr (with_target_fps (PyFloat f))
  else if String.eqb (input_id event) "bitrate"
  then z ← py_int (value event); set_attr (with_bitrate z)
  else mret tt.

(** What the user and the toolkit can make the application do. *)
Inductive UiEvent :=
  | KeyStart | KeyStop | KeyCancel | KeyExit
  | Pressed (button_id : string)
  | Selected (v : option Z)
  | Typed (event : InputChanged).

Definition handle (ev : UiEvent) : Tk unit :=
  match ev with
  | KeyStart => action_start_recording
  | KeyStop => action_stop_recording
  | KeyCancel => action_cancel_recording
  | KeyExit => action_exit
  | Pressed button_id => on_button_pressed button_id
  | Selected v => select_changed v
  | Typed event => input_update event
  end.

(** One step of the interface: a handler runs to its end, or other
    processes change the disk. *)
Inductive ui_step : Ui → Ui → Prop :=
  | ui_handle u ev : ui_step u (handle ev u).2
  | ui_disk u fs ds :
      ui_step u (mk_Ui (mk_State (self (recorder u)) (PID (recorder u))
                          (mk_World (trace (world (recorder u))) fs ds))
                   (widgets u)).

Definition ui_reachable (u : Ui) : Prop :=
  ∃ fs ds, rtc ui_step (Ui_init (mk_World [] fs ds)) u.

End Handlers.

(** ** The window list *)

(** [d[k] = v] on a [dict], which keeps its keys in insertion order. *)
Fixpoint dict_set (k : Z) (v : string) (d : list (Z * string))
    : list (Z * string) :=
  match d with
  | [] => [(k, v)]
  | (k', v') :: d' =>
      if decide (k = k') then (k, v) :: d' else (k', v') :: dict_set k v d'
  end.

(** [sorted(items, key=key)]: a stable sort that compares keys with
    [<].  Each item goes behind the items whose key is not greater. *)
Fixpoint insert_sorted {A} (key : A → string) (x : A) (l : list A) : list A :=
  match l with
  | [] => [x]
  | y :: l' =>
      if String.ltb (key x) (key y) then x :: y :: l'
      else y :: insert_sorted key x l'
  end.

Definition sorted {A} (key : A → string) (l : list A) : list A :=
  fold_left (λ acc x, insert_sorted key x acc) l [].

Section Windows.
Context `{Desktop}.

(** [RecorderApp.get_windows_callback], on the class attribute
    [WINDOWS]. *)
Definition get_windows_callback (w : World) (WINDOWS : list (Z * string))
    (hwnd : Z) : list (Z * string) :=
  if IsWindowVisible w hwnd then
    let text := GetWindowText w hwnd in
    if bool_decide (text = "") then WINDOWS else dict_set hwnd text WINDOWS
  else WINDOWS.

(** [RecorderApp.get_windows_titles]: the options of the [Select] and
    the [WINDOWS] it leaves behind. *)
Definition get_windows_titles (w : World) (WINDOWS : list (Z * string))
    : list (string * Z) * list (Z * string) :=
  let WINDOWS := [] in
  let WINDOWS := fold_left (get_windows_callback w) (EnumWindows w) WINDOWS in
  ((λ '(hwid, text), (text +:+ " (" +:+ pretty hwid +:+ ")", hwid))
     <$> sorted (λ x, str_lower x.2) WINDOWS,
   WINDOWS).

End Windows.

(** ** Reading the interface *)

(** No removal of a file fails on this platform. *)
Definition unlink_never_fails `{Platform} : Prop :=
  ∀ w path, os_unlink w path = None.

(** What the [started] flag says of the child process handle: a
    handle is held only while the flag is set, and, on a platform
    where no removal fails, the flag is set only while a handle is
    held. *)
Definition started_tracks_handle `{Platform} (s : State) : Prop :=
  (is_Some (process (self s)) → started (self s) = true)
  ∧ (unlink_never_fails →
     started (self s) = true → is_Some (process (self s))).

(** The [started] class and the lock on the [Select] say what the
    [started] flag says. *)
Definition coherent (u : Ui) : Prop :=
  class_started (widgets u) = started (self (recorder u))
  ∧ select_disabled (widgets u) = started (self (recorder u)).

(** A rate is the class default or a [float]. *)
Definition default_or_float (default : Z) (x : PyNum) : Prop :=
  x = PyInt default ∨ ∃ f, x = PyFloat f.

(** ** Reading settings, digits and orders *)

(** The settings of two instances are the same. *)
Definition same_settings (a a' : RecorderApp) : Prop :=
  box a' = box a ∧ hwid a' = hwid a ∧ started a' = started a
  ∧ record_fps a' = record_fps a ∧ target_fps a' = target_fps a
  ∧ bitrate a' = bitrate a.

(** The recorder after a method called from a handler that goes on to
    assign [self.started] if the method returns. *)
Definition finish (v : bool) (r : Outcome unit * State) : State :=
  match r.1 with
  | Return _ => mk_State (with_started v (self r.2)) (PID r.2) (world r.2)
  | Raise _ => r.2
  end.

(** What every handler keeps: the invariant of the recorder, the
    meaning of [started], rates that are defaults or floats, and a
    Start button that is enabled only with a window selected. *)
Record UiInv `{Platform} (u : Ui) : Prop := mk_UiInv {
  UiInv_recorder : Inv (recorder u);
  UiInv_started : started_tracks_handle (recorder u);
  UiInv_record_fps : default_or_float 1 (record_fps (self (recorder u)));
  UiInv_target_fps : default_or_float 60 (target_fps (self (recorder u)));
  UiInv_start_button :
    start_disabled (widgets u) = false → hwid (self (recorder u)) ≠ 0
}.

(** A decimal digit. *)
Definition is_digit (c : ascii) : bool :=
  bool_decide (48 ≤ N_of_ascii c ≤ 57)%N.

Fixpoint all_digits (s : string) : bool :=
  match s with
  | EmptyString => true
  | String c r => is_digit c && all_digits r
  end.

(** The order that [sorted] establishes. *)
Definition key_le {A} (key : A → string) (a b : A) : Prop :=
  String.leb (key a) (key b) = true.


(** ** A sample desktop *)

(** A desktop with four windows, one of them maximised on the sample
    platform's screen (77), one hidden (30) and one without a title
    (5); the enumeration names window 12 twice.  The parsers know the
    two texts the samples type. *)
Definition sample_desktop : Desktop := {|
  GetWindowRect := λ _ h,
    if decide (h = 77) then (-8, -8, 1928, 1088) else (100, 100, 740, 580);
  EnumWindows := λ _, [77; 12; 30; 12; 5];
  IsWindowVisible := λ _ h, bool_decide (h ≠ 30);
  GetWindowText := λ _ h,
    if decide (h = 77) then "notes"
    else if decide (h = 12) then "Editor"
    else if decide (h = 30) then "daemon"
    else "";
  str_lower := λ s, if decide (s = "Editor") then "editor" else s;
  float_of_str := λ s,
    if decide (s = "0.25") then Some (S754_finite false 4503599627370496 (-54))
    else None;
  int_of_str := λ s, if decide (s = "8000") then Some 8000 else None
|}.

(** The interface after a sequence of events on the sample platform
    and desktop, from a fresh application. *)
Definition ui_after (evs : list UiEvent) : Ui :=
  fold_left (λ u ev, (@handle sample_platform sample_desktop ev u).2) evs
    (Ui_init empty_world).

(** The maximised window is selected and the [r] key pressed. *)
Definition ui_recording : Ui := ui_after [Selected (Some 77); KeyStart].

(** The same two events where the output file cannot be removed. *)
Definition ui_locked : Ui :=
  fold_left (λ u ev, (@handle locked_platform sample_desktop ev u).2)
    [Selected (Some 77); KeyStart] (Ui_init empty_world).

(** The sample platform with a clock that moves: each call the program
    makes takes a second. *)
Definition ticking_platform : Platform := {|
  WINDOW_MAX_WIDTH := 1920;
  WINDOW_MAX_HEIGHT := 1080;
  repr_float := @repr_float sample_platform;
  os_now := λ w, mk_datetime 2024 3 9 17 5 (N.of_nat (length (trace w)));
  os_create_process := @os_create_process sample_platform;
  os_kill := @os_kill sample_platform;
  os_unlink := @os_unlink sample_platform;
  os_elapse := @os_elapse sample_platform;
  os_elapse_dirs := @os_elapse_dirs sample_platform
|}.

(** A recorder whose target rate has been set to zero. *)
Definition zero_rate : State :=
  mk_State
    (mk_RecorderApp (0, 0, 1, 1) 77 None false
       (PyFloat (S754_finite false 4503599627370496 (-54)))
       (PyFloat (S754_zero false)) 4000 None)
    0 empty_world.

(** * Properties *)

(** ** The exact effect of the three methods *)

Ltac run_py :=
  unfold mbind, mret, Py_bind, Py_ret, pure, raise, get_self, get_PID,
    get_cmd, set_process, set_PID, set_cmd, send_signal, os_kill_call,
    sleep, recompose, print, emit, unlink, datetime_now, Popen_new; simpl.

Section Effects.
Context `{Platform}.

Lemma start_recording_busy s proc :
  process (self s) = Some proc → start_recording s = (Return tt, s).
Proof. intros Hp. unfold start_recording. run_py. by rewrite Hp. Qed.

(** Where the filter strings cannot be computed nothing is built. *)
Lemma start_recording_no_filter s e :
  process (self s) = None →
  filter_args (record_fps (self s)) (target_fps (self s)) = Raise e →
  start_recording s = (Raise e, s).
Proof.
  intros Hp Hf. unfold start_recording. run_py. by rewrite Hp, Hf.
Qed.

Lemma start_recording_spawned s settb setpts p :
  let argv := build_cmd (self s) settb setpts (os_now (world s)) in
  process (self s) = None →
  filter_args (record_fps (self s)) (target_fps (self s)) = Return (settb, setpts) →
  os_create_process (world s) argv = inr p →
  start_recording s =
    (Return tt,
     mk_State (with_process (Some (mk_Popen p argv)) (with_cmd argv (self s)))
       (Zpos p) (log (world s) (EvPopen argv (Some p)))).
Proof.
  intros argv Hp Hf Hc. unfold start_recording. run_py.
  rewrite Hp, Hf. simpl. fold argv. by rewrite Hc.
Qed.

Lemma start_recording_not_spawned s settb setpts msg :
  let argv := build_cmd (self s) settb setpts (os_now (world s)) in
  process (self s) = None →
  filter_args (record_fps (self s)) (target_fps (self s)) = Return (settb, setpts) →
  os_create_process (world s) argv = inl msg →
  start_recording s =
    (Raise (mk_exn OSError msg),
     mk_State (with_cmd argv (self s)) (PID s)
       (log (world s) (EvPopen argv None))).
Proof.
  intros argv Hp Hf Hc. unfold start_recording. run_py.
  rewrite Hp, Hf. simpl. fold argv. by rewrite Hc.
Qed.

Lemma stop_recording_idle s :
  process (self s) = None → stop_recording s = (Return tt, s).
Proof. intros Hp. unfold stop_recording. run_py. by rewrite Hp. Qed.

Lemma stop_recording_delivered s proc :
  let child := Zpos (pid proc) in
  process (self s) = Some proc →
  os_kill (world s) child CTRL_BREAK_EVENT = None →
  stop_recording s =
    (Return tt,
     mk_State (with_process None (self s)) 0
       (log (asleep (log (world s) (EvSignal child CTRL_BREAK_EVENT true)) 3)
          EvRecompose)).
Proof.
  intros child Hp Hk. unfold stop_recording. run_py.
  rewrite Hp. simpl. fold child. by rewrite Hk.
Qed.

Lemma stop_recording_refused s proc msg :
  let child := Zpos (pid proc) in
  process (self s) = Some proc →
  os_kill (world s) child CTRL_BREAK_EVENT = Some msg →
  stop_recording s =
    (Raise (mk_exn OSError msg),
     mk_State (self s) (PID s)
       (log (world s) (EvSignal child CTRL_BREAK_EVENT false))).
Proof.
  intros child Hp Hk. unfold stop_recording. run_py.
  rewrite Hp. simpl. fold child. by rewrite Hk.
Qed.

Lemma cancel_recording_idle s :
  process (self s) = None → cancel_recording s = (Return tt, s).
Proof. intros Hp. unfold cancel_recording. run_py. by rewrite Hp. Qed.

Lemma cancel_recording_delivered s proc argv file :
  let child := Zpos (pid proc) in
  process (self s) = Some proc →
  cmd (self s) = Some argv →
  last argv = Some file →
  os_kill (world s) child SIGTERM = None →
  os_unlink (cancelled (world s) child) file = None →
  cancel_recording s =
    (Return tt,
     mk_State (with_process None (self s)) 0
       (unlinked (cancelled (world s) child) file)).
Proof.
  intros child Hp Hc Hl Hk Hu. unfold cancel_recording. run_py.
  rewrite Hp. simpl. fold child. rewrite Hk. simpl. rewrite Hc.
  unfold index_last. rewrite Hl. simpl.
  match goal with
  | |- context [os_unlink ?w file] =>
      change w with (cancelled (world s) child)
  end.
  by rewrite Hu.
Qed.

(** Where the file cannot be removed the [OSError] of [unlink] leaves
    the method, after the handle and the tracked [PID] were cleared. *)
Lemma cancel_recording_undeleted s proc argv file msg :
  let child := Zpos (pid proc) in
  process (self s) = Some proc →
  cmd (self s) = Some argv →
  last argv = Some file →
  os_kill (world s) child SIGTERM = None →
  os_unlink (cancelled (world s) child) file = Some msg →
  cancel_recording s =
    (Raise (mk_exn OSError msg),
     mk_State (with_process None (self s)) 0
       (log (cancelled (world s) child) (EvUnlink file))).
Proof.
  intros child Hp Hc Hl Hk Hu. unfold cancel_recording. run_py.
  rewrite Hp. simpl. fold child. rewrite Hk. simpl. rewrite Hc.
  unfold index_last. rewrite Hl. simpl.
  match goal with
  | |- context [os_unlink ?w file] =>
      change w with (cancelled (world s) child)
  end.
  by rewrite Hu.
Qed.

Lemma cancel_recording_refused s proc msg :
  let child := Zpos (pid proc) in
  process (self s) = Some proc →
  os_kill (world s) child SIGTERM = Some msg →
  cancel_recording s =
    (Raise (mk_exn OSError msg),
     mk_State (self s) (PID s) (log (world s) (EvSignal child SIGTERM false))).
Proof.
  intros child Hp Hk. unfold cancel_recording. run_py.
  rewrite Hp. simpl. fold child. by rewrite Hk.
Qed.

End Effects.

(** ** The invariant *)

Lemma children_snoc tr e : children (tr ++ [e]) = track (children tr) e.
Proof. unfold children. by rewrite fold_left_app. Qed.

Lemma last_built_snoc tr e : last_built (tr ++ [e]) = built (last_built tr) e.
Proof. unfold last_built. by rewrite fold_left_app. Qed.

Lemma build_cmd_last `{Platform} a settb setpts now :
  last (build_cmd a settb setpts now)
  = Some ("recordings/timelapse_" +:+ strftime now +:+ ".mkv").
Proof. unfold build_cmd. by destruct (box a) as [[[? ?] ?] ?]. Qed.

Lemma build_cmd_nonempty `{Platform} a settb setpts now :
  build_cmd a settb setpts now ≠ [].
Proof.
  intros Hnil. pose proof (build_cmd_last a settb setpts now) as Hl.
  by rewrite Hnil in Hl.
Qed.

Lemma Inv_init fs ds : Inv (State_init (mk_World [] fs ds)).
Proof. by split. Qed.

Section Invariant.
Context `{Platform}.

Ltac inv_goal :=
  split; simpl;
  rewrite ?app_assoc, ?children_snoc, ?last_built_snoc; simpl.

Lemma Inv_start_recording s : Inv s → Inv (start_recording s).2.
Proof.
  intros HI. pose proof HI as [HP Hch Hcmd Hargs].
  destruct (process (self s)) as [proc|] eqn:Hp.
  { by rewrite (start_recording_busy s proc Hp). }
  destruct (filter_args (record_fps (self s)) (target_fps (self s)))
    as [[settb setpts]|e] eqn:Hf.
  2:{ by rewrite (start_recording_no_filter s e Hp Hf). }
  set (argv := build_cmd (self s) settb setpts (os_now (world s))).
  unfold handle_pids in Hch. rewrite Hp in Hch.
  destruct (os_create_process (world s) argv) as [msg|p] eqn:Hc.
  - rewrite (start_recording_not_spawned s settb setpts msg Hp Hf Hc).
    inv_goal; unfold handle_pids; simpl; rewrite ?Hp; try done.
  - rewrite (start_recording_spawned s settb setpts p Hp Hf Hc).
    inv_goal; unfold handle_pids; simpl; try done.
    + by rewrite Hch.
    + intros proc [= <-]. split; [done|]. apply build_cmd_nonempty.
Qed.

Lemma Inv_stop_recording s : Inv s → Inv (stop_recording s).2.
Proof.
  intros HI. pose proof HI as [HP Hch Hcmd Hargs].
  destruct (process (self s)) as [proc|] eqn:Hp.
  2:{ by rewrite (stop_recording_idle s Hp). }
  unfold handle_pids in Hch. rewrite Hp in Hch.
  destruct (os_kill (world s) (Zpos (pid proc)) CTRL_BREAK_EVENT)
    as [msg|] eqn:Hk.
  - rewrite (stop_recording_refused s proc msg Hp Hk).
    inv_goal; unfold handle_pids; rewrite ?Hp; try done.
  - rewrite (stop_recording_delivered s proc Hp Hk).
    inv_goal; unfold handle_pids; simpl; try done.
    rewrite Hch. simpl. by rewrite decide_True.
Qed.

Lemma Inv_cancel_recording s : Inv s → Inv (cancel_recording s).2.
Proof.
  intros HI. pose proof HI as [HP Hch Hcmd Hargs].
  destruct (process (self s)) as [proc|] eqn:Hp.
  2:{ by rewrite (cancel_recording_idle s Hp). }
  unfold handle_pids in Hch. rewrite Hp in Hch.
  destruct (Hargs proc eq_refl) as [Hc Hne].
  destruct (last (args proc)) as [file|] eqn:Hl.
  2:{ by apply last_None in Hl. }
  destruct (os_kill (world s) (Zpos (pid proc)) SIGTERM) as [msg|] eqn:Hk.
  - rewrite (cancel_recording_refused s proc msg Hp Hk).
    inv_goal; unfold handle_pids; rewrite ?Hp; try done.
  - destruct (os_unlink (cancelled (world s) (Zpos (pid proc))) file)
      as [msg|] eqn:Hu.
    + rewrite (cancel_recording_undeleted s proc _ file msg Hp Hc Hl Hk Hu).
      inv_goal; unfold handle_pids; simpl; try done.
      rewrite Hch. simpl. by rewrite decide_True.
    + rewrite (cancel_recording_delivered s proc _ file Hp Hc Hl Hk Hu).
      inv_goal; unfold handle_pids; simpl; try done.
      rewrite Hch. simpl. by rewrite decide_True.
Qed.

Lemma Inv_step s s' : step s s' → Inv s → Inv s'.
Proof.
  destruct 1; intros HI.
  - by apply Inv_start_recording.
  - by apply Inv_stop_recording.
  - by apply Inv_cancel_recording.
  - by destruct HI.
  - by destruct HI.
Qed.

Lemma reachable_Inv s : reachable s → Inv s.
Proof.
  intros (fs & ds & Hr).
  pose proof (Inv_init fs ds) as H0.
  induction Hr as [|s0 s1 s2 Hs _ IH]; [done|].
  apply IH. by eapply Inv_step.
Qed.

Lemma reachable_step s s' : reachable s → step s s' → reachable s'.
Proof. intros (fs & ds & Hr) Hs. exists fs, ds. by eapply rtc_r. Qed.

End Invariant.

(** ** Fractions never fail on a float that has a value *)

Lemma Fraction_new_pos p q :
  0 < q →
  ∃ r, Fraction_new p q = Return r ∧ reduced r ∧ denominator r ≤ q.
Proof.
  intros Hq. unfold Fraction_new.
  rewrite decide_False, decide_False by lia.
  set (g := Z.gcd p q).
  assert (0 < g) as Hg.
  { pose proof (Z.gcd_nonneg p q). pose proof (Z.gcd_eq_0 p q). lia. }
  destruct (Z.gcd_divide_r p q) as [c Hc]. fold g in Hc.
  eexists. split; [done|]. unfold reduced. simpl.
  assert (q `div` g = c) as ->.
  { rewrite Hc. by apply Z.div_mul, Z.neq_sym, Z.lt_neq. }
  split_and!.
  - nia.
  - assert (c = q `div` g) as ->.
    { rewrite Hc. symmetry. by apply Z.div_mul, Z.neq_sym, Z.lt_neq. }
    apply Z.gcd_div_gcd; [lia|done].
  - nia.
Qed.

Lemma limit_loop_returns M D :
  1 ≤ M → M < D →
  ∀ d (acc : Acc abs_lt d) p0 q0 p1 q1 n,
    q1 * n + q0 * d = D →
    Z.gcd n d = 1 →
    (q0 = 1 ∧ q1 = 0 ∧ 0 < d) ∨ (0 ≤ q0 ≤ M ∧ 0 < q1 ≤ M ∧ 0 ≤ d < n) →
    ∃ st, limit_loop M p0 q0 p1 q1 n d acc = Return st
          ∧ 0 ≤ cf_q0 st ≤ M ∧ 0 < cf_q1 st ≤ M.
Proof.
  intros HM HD. fix IH 2.
  intros d [acc] p0 q0 p1 q1 n Hlin Hgcd Hcase. simpl.
  destruct (decide (d = 0)) as [->|Hd].
  { exfalso. rewrite Z.gcd_0_r in Hgcd. destruct Hcase as [?|?]; nia. }
  destruct (decide (q0 + n `div` d * q1 > M)) as [Hbrk|Hgo].
  { eexists. split; [done|]. simpl. destruct Hcase as [?|?]; lia. }
  assert (0 < d) as Hdpos by (destruct Hcase as [?|?]; lia).
  pose proof (Z_div_mod_eq_full n d) as Hdiv.
  pose proof (Z.mod_pos_bound n d Hdpos) as Hmod.
  apply IH.
  - nia.
  - replace (n - n `div` d * d) with (n + (- (n `div` d)) * d) by lia.
    rewrite Z.gcd_add_mult_diag_r. by rewrite Z.gcd_comm.
  - right. destruct Hcase as [(-> & -> & _)|(Hq0 & Hq1 & Hn)].
    + lia.
    + assert (0 < n `div` d) by (apply Z.div_str_pos; lia). nia.
Qed.

Lemma limit_denominator_reduced f M :
  reduced f → 1 ≤ M →
  ∃ r, limit_denominator f M = Return r ∧ reduced r ∧ denominator r ≤ M
       ∧ (denominator f ≤ M → r = f).
Proof.
  intros [Hden Hgcd] HM. unfold limit_denominator.
  rewrite decide_False by lia.
  destruct (decide (denominator f ≤ M)) as [Hle|Hgt].
  { by exists f. }
  destruct (limit_loop_returns M (denominator f) HM ltac:(lia)
              (denominator f) (wf_guard 32 abs_lt_wf (denominator f))
              0 1 1 0 (numerator f)) as (st & -> & Hq0 & Hq1); [lia|done|lia|].
  destruct st as [p0 q0 p1 q1 n d]. simpl in *.
  unfold py_floordiv. rewrite decide_False by lia. simpl.
  set (k := (M - q0) `div` q1).
  assert (0 ≤ k) as Hk by (apply Z.div_pos; lia).
  assert (M - q0 - q1 < k * q1 ≤ M - q0) as Hkq.
  { pose proof (Z_div_mod_eq_full (M - q0) q1).
    pose proof (Z.mod_pos_bound (M - q0) q1). fold k in H. nia. }
  destruct (Fraction_new_pos (p0 + k * p1) (q0 + k * q1)) as (b1 & -> & Hb1 & Hb1M);
    [lia|]. simpl.
  destruct (Fraction_new_pos p1 q1) as (b2 & -> & Hb2 & Hb2M); [lia|]. simpl.
  unfold Fraction_sub.
  destruct (Fraction_new_pos
              (numerator b2 * denominator f - numerator f * denominator b2)
              (denominator b2 * denominator f)) as (d2 & -> & _ & _).
  { destruct Hb2. nia. }
  simpl.
  destruct (Fraction_new_pos
              (numerator b1 * denominator f - numerator f * denominator b1)
              (denominator b1 * denominator f)) as (d1 & -> & _ & _).
  { destruct Hb1. nia. }
  simpl.
  destruct (Fraction_le (Fraction_abs d2) (Fraction_abs d1)).
  - exists b2. split_and!; [done|done|lia|lia].
  - exists b1. split_and!; [done|done|lia|lia].
Qed.

Lemma Fraction_of_reduced x f : Fraction_of x = Return f → reduced f.
Proof.
  destruct x as [z|[s|s| |s m e]]; simpl; try done.
  - intros [= <-]. split; simpl; [lia|apply Z.gcd_1_r].
  - intros [= <-]. split; simpl; [lia|done].
  - destruct (decide (0 ≤ e)) as [He|He]; simpl; intros [= <-].
    + split; simpl; [lia|apply Z.gcd_1_r].
    + set (n := cond_Zopp s (Z.pos m)). set (d := 2 ^ (- e)).
      assert (0 < d) as Hd by (apply Z.pow_pos_nonneg; lia).
      destruct (Fraction_new_pos n d Hd) as (r & Hr & Hred & _).
      unfold Fraction_new in Hr. rewrite decide_False, decide_False in Hr by lia.
      by injection Hr as <-.
Qed.

(** ** The nearest fraction *)

(** What [Fraction(p, q)] divides out. *)
Lemma Fraction_new_value p q :
  0 < q →
  ∃ r g, Fraction_new p q = Return r ∧ 0 < g
         ∧ p = g * numerator r ∧ q = g * denominator r
         ∧ 0 < denominator r.
Proof.
  intros Hq. unfold Fraction_new.
  rewrite decide_False, decide_False by lia.
  set (g := Z.gcd p q).
  assert (0 < g) as Hg.
  { pose proof (Z.gcd_nonneg p q). pose proof (Z.gcd_eq_0 p q). lia. }
  destruct (Z.gcd_divide_l p q) as [a Ha]. fold g in Ha.
  destruct (Z.gcd_divide_r p q) as [b Hb]. fold g in Hb.
  eexists _, g. split; [done|]. simpl.
  assert (p `div` g = a) as -> by (rewrite Ha; apply Z.div_mul; lia).
  assert (q `div` g = b) as -> by (rewrite Hb; apply Z.div_mul; lia).
  split_and!; [done|lia|lia|nia].
Qed.

Lemma Fraction_new_coprime p q ε :
  0 < q → (ε = 1 ∨ ε = -1) → (∃ a b, a * p + b * q = ε) →
  Fraction_new p q = Return (mk_Fraction p q).
Proof.
  intros Hq Hε (a & b & Hab).
  assert (Z.gcd p q = 1) as Hg.
  { pose proof (Z.gcd_nonneg p q) as Hnn.
    destruct (Z.gcd_divide_l p q) as [c Hc].
    destruct (Z.gcd_divide_r p q) as [e He].
    set (g := Z.gcd p q) in *.
    assert (g * (a * c + b * e) = ε) as Hmul by nia.
    destruct Hε as [-> | ->].
    - by apply Z.eq_mul_1_nonneg in Hmul as [? _].
    - assert (g * - (a * c + b * e) = 1) as Hneg by lia.
      by apply Z.eq_mul_1_nonneg in Hneg as [? _]. }
  unfold Fraction_new. rewrite decide_False, decide_False by lia.
  rewrite Hg. by rewrite !Z.div_1_r.
Qed.

(** No fraction with a smaller denominator lies strictly between two
    neighbours. *)
Lemma between_neighbours P1 Q1 P2 Q2 u v M :
  0 < Q1 → 0 < Q2 → P2 * Q1 - P1 * Q2 = 1 → M < Q1 + Q2 → 0 < v ≤ M →
  u * Q1 ≤ P1 * v ∨ P2 * v ≤ u * Q2.
Proof.
  intros HQ1 HQ2 Hdet HM Hv.
  destruct (decide (u * Q1 ≤ P1 * v)) as [|Hlo]; [by left|].
  destruct (decide (P2 * v ≤ u * Q2)) as [|Hhi]; [by right|].
  exfalso.
  assert (v = Q1 * (P2 * v - u * Q2) + Q2 * (u * Q1 - P1 * v)) as Hid by nia.
  assert (1 ≤ P2 * v - u * Q2) by lia.
  assert (1 ≤ u * Q1 - P1 * v) by lia.
  nia.
Qed.

(** The loop of [limit_denominator] on [N/D]: at [break] the state
    holds two neighbouring convergents that take [N/D] between them. *)
Lemma limit_loop_spec M N D :
  1 ≤ M → M < D →
  ∀ d (acc : Acc abs_lt d) p0 q0 p1 q1 n ε,
    (ε = 1 ∨ ε = -1) →
    p1 * n + p0 * d = N →
    q1 * n + q0 * d = D →
    p1 * q0 - p0 * q1 = ε →
    Z.gcd n d = 1 →
    (q0 = 1 ∧ q1 = 0 ∧ 0 < d) ∨ (0 ≤ q0 ≤ M ∧ 0 < q1 ≤ M ∧ 0 ≤ d < n) →
    ∃ st ε',
      limit_loop M p0 q0 p1 q1 n d acc = Return st
      ∧ (ε' = 1 ∨ ε' = -1)
      ∧ cf_p1 st * cf_n st + cf_p0 st * cf_d st = N
      ∧ cf_q1 st * cf_n st + cf_q0 st * cf_d st = D
      ∧ cf_p1 st * cf_q0 st - cf_p0 st * cf_q1 st = ε'
      ∧ 0 ≤ cf_q0 st ≤ M ∧ 0 < cf_q1 st ≤ M
      ∧ 0 < cf_d st
      ∧ M < cf_q0 st + cf_n st `div` cf_d st * cf_q1 st.
Proof.
  intros HM HD. fix IH 2.
  intros d [acc] p0 q0 p1 q1 n ε Hε HN Hlin Hdet Hgcd Hcase. simpl.
  destruct (decide (d = 0)) as [->|Hd].
  { exfalso. rewrite Z.gcd_0_r in Hgcd. destruct Hcase as [?|?]; nia. }
  destruct (decide (q0 + n `div` d * q1 > M)) as [Hbrk|Hgo].
  { exists (mk_cf p0 q0 p1 q1 n d), ε. simpl.
    split_and!; try done; destruct Hcase as [?|?]; lia. }
  assert (0 < d) as Hdpos by (destruct Hcase as [?|?]; lia).
  pose proof (Z_div_mod_eq_full n d) as Hdiv.
  pose proof (Z.mod_pos_bound n d Hdpos) as Hmod.
  apply (IH _ _ _ _ _ _ _ (- ε)).
  - lia.
  - nia.
  - nia.
  - nia.
  - replace (n - n `div` d * d) with (n + (- (n `div` d)) * d) by lia.
    rewrite Z.gcd_add_mult_diag_r. by rewrite Z.gcd_comm.
  - right. destruct Hcase as [(-> & -> & _)|(Hq0 & Hq1 & Hn)].
    + lia.
    + assert (0 < n `div` d) by (apply Z.div_str_pos; lia). nia.
Qed.

(** Comparing the absolute values of two fractions that [Fraction]
    has normalised is comparing them as they were given. *)
Lemma Fraction_le_abs_new p q p' q' r r' :
  0 < q → 0 < q' →
  Fraction_new p q = Return r → Fraction_new p' q' = Return r' →
  Fraction_le (Fraction_abs r) (Fraction_abs r')
  = bool_decide (Z.abs p * q' ≤ Z.abs p' * q).
Proof.
  intros Hq Hq' Hr Hr'.
  destruct (Fraction_new_value p q Hq) as (r1 & g & Hr1 & Hg & Hp & Hq1 & Hd).
  destruct (Fraction_new_value p' q' Hq')
    as (r2 & g' & Hr2 & Hg' & Hp' & Hq2 & Hd').
  rewrite Hr in Hr1. rewrite Hr' in Hr2.
  injection Hr1 as <-. injection Hr2 as <-. subst p q p' q'.
  unfold Fraction_le, Fraction_abs. simpl.
  apply bool_decide_ext.
  rewrite !Z.abs_mul, !(Z.abs_eq g), !(Z.abs_eq g') by lia.
  set (a := Z.abs (numerator r)). set (a' := Z.abs (numerator r')).
  assert (0 ≤ a) by apply Z.abs_nonneg.
  assert (0 ≤ a') by apply Z.abs_nonneg.
  split; intros Hle.
  - assert (g * g' * (a * denominator r') ≤ g * g' * (a' * denominator r))
      by (apply Z.mul_le_mono_nonneg_l; nia).
    nia.
  - assert (g * g' * (a * denominator r') ≤ g * g' * (a' * denominator r))
      as Hmul by nia.
    apply Z.mul_le_mono_pos_l in Hmul; [done|nia].
Qed.

(** A fraction [u/v] outside two neighbours that take [N/D] between
    them is no nearer to [N/D] than the neighbour on its side. *)
Lemma nearer_side lo_n lo_d hi_n hi_d N D u v M :
  0 < D → 0 < lo_d → 0 < hi_d →
  hi_n * lo_d - lo_n * hi_d = 1 → M < lo_d + hi_d → 0 < v ≤ M →
  (N * lo_d - lo_n * D) * v ≤ Z.abs (u * D - N * v) * lo_d
  ∨ (hi_n * D - N * hi_d) * v ≤ Z.abs (u * D - N * v) * hi_d.
Proof.
  intros HD Hlo Hhi Hdet HM Hv.
  set (W := u * D - N * v).
  destruct (between_neighbours lo_n lo_d hi_n hi_d u v M) as [Hl|Hh];
    [done..| |].
  - left.
    assert (D * (u * lo_d) ≤ D * (lo_n * v)) as Hmul
      by (apply Z.mul_le_mono_nonneg_l; lia).
    assert (- W * lo_d ≤ Z.abs W * lo_d) as Habs
      by (apply Z.mul_le_mono_nonneg_r; lia).
    unfold W in *. lia.
  - right.
    assert (D * (hi_n * v) ≤ D * (u * hi_d)) as Hmul
      by (apply Z.mul_le_mono_nonneg_l; lia).
    assert (W * hi_d ≤ Z.abs W * hi_d) as Habs
      by (apply Z.mul_le_mono_nonneg_r; lia).
    unfold W in *. lia.
Qed.

Lemma nearer_transfer a b A B v w :
  0 < A → 0 < B → 0 ≤ v → 0 ≤ w →
  a * A ≤ b * B → b * v ≤ w * A → a * v ≤ w * B.
Proof.
  intros HA HB Hv Hw Hab Hbv.
  assert (a * A * v ≤ b * B * v) as H1
    by (apply Z.mul_le_mono_nonneg_r; lia).
  assert (B * (b * v) ≤ B * (w * A)) as H2
    by (apply Z.mul_le_mono_nonneg_l; lia).
  assert (A * (a * v) ≤ A * (w * B)) as H3 by lia.
  by apply Z.mul_le_mono_pos_l in H3.
Qed.

(** [limit_denominator] returns a fraction nearest to [f] among all
    fractions whose denominator is at most [M]. *)
Lemma limit_denominator_nearest f M r :
  reduced f → 1 ≤ M →
  limit_denominator f M = Return r →
  ∀ y, 0 < denominator y ≤ M → nearer f r y.
Proof.
  intros [Hden Hgcd] HM Hlim [u v] Hv. simpl in Hv.
  unfold limit_denominator in Hlim.
  rewrite decide_False in Hlim by lia.
  destruct (decide (denominator f ≤ M)) as [Hle|Hgt].
  { injection Hlim as <-. unfold nearer. simpl.
    rewrite Z.sub_diag. simpl.
    pose proof (Z.abs_nonneg (u * denominator f - numerator f * v)). nia. }
  destruct (limit_loop_spec M (numerator f) (denominator f) HM ltac:(lia)
              (denominator f) (wf_guard 32 abs_lt_wf (denominator f))
              0 1 1 0 (numerator f) 1)
    as (st & ε & Hloop & Hε & HN & HD & Hdet & Hq0 & Hq1 & Hd & Hbrk);
    [by left|lia|lia|lia|done|left; lia|].
  rewrite Hloop in Hlim. clear Hloop.
  destruct f as [N D]. destruct st as [p0 q0 p1 q1 n d]. simpl in *.
  clear Hgcd Hgt.
  unfold py_floordiv in Hlim. rewrite decide_False in Hlim by lia.
  simpl in Hlim.
  set (k := (M - q0) `div` q1) in *.
  assert (0 ≤ k) as Hk by (apply Z.div_pos; lia).
  assert (M - q0 - q1 < k * q1 ≤ M - q0) as Hkq.
  { pose proof (Z_div_mod_eq_full (M - q0) q1) as Hdm.
    pose proof (Z.mod_pos_bound (M - q0) q1) as Hmb. fold k in Hdm. nia. }
  clearbody k.
  assert (k < n `div` d) as Hka by nia.
  assert (0 < n - k * d) as Hm.
  { pose proof (Z_div_mod_eq_full n d) as Hdm.
    pose proof (Z.mod_pos_bound n d Hd) as Hmb. nia. }
  clear Hka Hbrk.
  assert (p1 * D - N * q1 = ε * d) as HA.
  { rewrite <- HN, <- HD, <- Hdet. ring. }
  assert ((p0 + k * p1) * D - N * (q0 + k * q1) = - ε * (n - k * d)) as HB.
  { rewrite <- HN, <- HD, <- Hdet. ring. }
  assert (p1 * (q0 + k * q1) - (p0 + k * p1) * q1 = ε) as Hnb.
  { rewrite <- Hdet. ring. }
  assert (0 < q0 + k * q1) as HQ1 by lia.
  assert (M < (q0 + k * q1) + q1) as Hsum by lia.
  clear HN HD Hdet Hkq Hq0.
  set (P1 := p0 + k * p1) in *. set (Q1 := q0 + k * q1) in *.
  set (m := n - k * d) in *.
  clearbody P1 Q1 m.
  rewrite (Fraction_new_coprime P1 Q1 ε HQ1 Hε) in Hlim.
  2:{ exists (- q1), p1. lia. }
  simpl in Hlim.
  rewrite (Fraction_new_coprime p1 q1 ε) in Hlim; [|lia|done|].
  2:{ exists Q1, (- P1). lia. }
  simpl in Hlim. unfold Fraction_sub in Hlim. simpl in Hlim.
  assert (0 < q1 * D) as Hpos2 by (apply Z.mul_pos_pos; lia).
  assert (0 < Q1 * D) as Hpos1 by (apply Z.mul_pos_pos; lia).
  destruct (Fraction_new_value (p1 * D - N * q1) (q1 * D) Hpos2)
    as (d2 & g2 & Hd2 & _).
  destruct (Fraction_new_value (P1 * D - N * Q1) (Q1 * D) Hpos1)
    as (d1 & g1 & Hd1 & _).
  rewrite Hd2 in Hlim. simpl in Hlim. rewrite Hd1 in Hlim. simpl in Hlim.
  rewrite (Fraction_le_abs_new _ _ _ _ _ _ Hpos2 Hpos1 Hd2 Hd1) in Hlim.
  clear Hd1 Hd2 d1 d2 g1 g2.
  assert (Z.abs (p1 * D - N * q1) = d) as Had
    by (destruct Hε as [-> | ->]; lia).
  assert (Z.abs (P1 * D - N * Q1) = m) as Hbm
    by (destruct Hε as [-> | ->]; lia).
  rewrite Had, Hbm in Hlim.
  pose proof (Z.abs_nonneg (u * D - N * v)) as HW.
  assert (m * v ≤ Z.abs (u * D - N * v) * Q1
          ∨ d * v ≤ Z.abs (u * D - N * v) * q1) as Hside.
  { destruct Hε as [-> | ->].
    - destruct (nearer_side P1 Q1 p1 q1 N D u v M) as [Hs|Hs];
        [lia..| |]; [left|right]; lia.
    - destruct (nearer_side p1 q1 P1 Q1 N D u v M) as [Hs|Hs];
        [lia..| |]; [right|left]; lia. }
  unfold nearer. simpl.
  case_bool_decide as Hcmp; injection Hlim as <-; simpl.
  - rewrite Had. destruct Hside as [Hs|Hs]; [|done].
    apply (nearer_transfer d m Q1 q1); try lia.
    assert (d * Q1 * D ≤ m * q1 * D) as Hc by lia.
    by apply Z.mul_le_mono_pos_r in Hc.
  - rewrite Hbm. destruct Hside as [Hs|Hs]; [done|].
    apply (nearer_transfer m d q1 Q1); try lia.
    assert (m * q1 * D < d * Q1 * D) as Hc by lia.
    apply Z.mul_lt_mono_pos_r in Hc; lia.
Qed.

(** ** Traces of the teardown methods *)

Lemma events_between_unique s s' evs1 evs2 :
  events_between s s' evs1 → events_between s s' evs2 → evs1 = evs2.
Proof.
  unfold events_between. intros H1 H2. rewrite H1 in H2.
  by apply app_inv_head in H2.
Qed.

Lemma recording_reachable (P : Platform) : @reachable P (recording P).
Proof.
  exists ∅, ∅. eapply rtc_l; [apply step_start|]. apply rtc_refl.
Qed.

Section Teardown.
Context `{Platform}.

(** A reachable state with a handle has the handle's command line in
    [self.cmd], and its last element is the output path. *)
Lemma reachable_output s proc :
  reachable s → process (self s) = Some proc →
  ∃ argv file,
    last_built (trace (world s)) = Some argv
    ∧ cmd (self s) = Some argv ∧ args proc = argv ∧ last argv = Some file.
Proof.
  intros Hr Hp. destruct (reachable_Inv s Hr) as [_ _ Hcmd Hargs].
  destruct (Hargs proc Hp) as [Hc Hne].
  destruct (last (args proc)) as [file|] eqn:Hl.
  2:{ by apply last_None in Hl. }
  exists (args proc), file. by rewrite <- Hcmd.
Qed.

(** C8: without a child process handle, [stop_recording] and
    [cancel_recording] do nothing: both return at once in the state
    they were called in, so no signal is sent, no file is deleted
    and the handle and the tracked [PID] are as before. *)
Theorem teardown_without_handle_is_noop s :
  process (self s) = None →
  stop_recording s = (Return tt, s)
  ∧ cancel_recording s = (Return tt, s)
  ∧ events_between s (stop_recording s).2 []
  ∧ events_between s (cancel_recording s).2 []
  ∧ files (world (cancel_recording s).2) = files (world s).
Proof.
  intros Hp.
  rewrite (stop_recording_idle s Hp), (cancel_recording_idle s Hp).
  unfold events_between. simpl. by rewrite app_nil_r.
Qed.

(** C1: with a child process handle, [stop_recording] first signals
    [CTRL_BREAK_EVENT] to that child.  Once the call is back it waits
    three seconds and recomposes the UI, and that is all it does: no
    file is deleted, and the files on disk when the wait ended are
    the files on disk when [stop_recording] returns.  Where the
    signal call raises, the method ends there, and the disk is as it
    was. *)
Theorem stop_recording_leaves_output s proc :
  process (self s) = Some proc →
  let child := Zpos (pid proc) in
  let s' := (stop_recording s).2 in
  ∃ delivered rest,
    events_between s s' (EvSignal child CTRL_BREAK_EVENT delivered :: rest)
    ∧ Forall (λ e, is_unlink e = false) rest
    ∧ if delivered
      then (stop_recording s).1 = Return tt
           ∧ rest = [EvSleep 3; EvRecompose]
           ∧ files (world s')
             = os_elapse
                 (log (log (world s) (EvSignal child CTRL_BREAK_EVENT true))
                    (EvSleep 3)) 3
      else (∃ msg, (stop_recording s).1 = Raise (mk_exn OSError msg))
           ∧ rest = []
           ∧ files (world s') = files (world s).
Proof.
  intros Hp child s'. subst s'.
  destruct (os_kill (world s) child CTRL_BREAK_EVENT) as [msg|] eqn:Hk.
  - exists false, []. rewrite (stop_recording_refused s proc msg Hp Hk).
    unfold events_between. simpl. split_and!; eauto.
  - exists true, [EvSleep 3; EvRecompose].
    rewrite (stop_recording_delivered s proc Hp Hk).
    unfold events_between. simpl. rewrite <- !app_assoc. simpl.
    split_and!; try done. by repeat constructor.
Qed.


(** C6: after the signal, [stop_recording] and [cancel_recording]
    wait the same three seconds before anything else; in
    [cancel_recording] the deletion is the last call, after the
    signal, the wait and the recomposition, and there is no other
    deletion.  (Where the signal call raises, neither method waits
    or deletes.) *)
Theorem teardown_waits_then_deletes s proc :
  reachable s →
  process (self s) = Some proc →
  let child := Zpos (pid proc) in
  (∃ evs, events_between s (stop_recording s).2 evs
          ∧ (evs = [EvSignal child CTRL_BREAK_EVENT true; EvSleep 3; EvRecompose]
             ∨ evs = [EvSignal child CTRL_BREAK_EVENT false]))
  ∧ (∃ evs file, events_between s (cancel_recording s).2 evs
          ∧ (evs = [EvSignal child SIGTERM true; EvSleep 3; EvRecompose;
                    EvUnlink file]
             ∨ evs = [EvSignal child SIGTERM false])).
Proof.
  intros Hr Hp child.
  destruct (reachable_output s proc Hr Hp) as (argv & file & Hb & Hc & _ & Hl).
  split.
  - destruct (os_kill (world s) child CTRL_BREAK_EVENT) as [msg|] eqn:Hk.
    + eexists. rewrite (stop_recording_refused s proc msg Hp Hk).
      unfold events_between. simpl. eauto.
    + eexists. rewrite (stop_recording_delivered s proc Hp Hk).
      unfold events_between. simpl. rewrite <- !app_assoc. simpl. eauto.
  - destruct (os_kill (world s) child SIGTERM) as [msg|] eqn:Hk.
    + eexists _, file. rewrite (cancel_recording_refused s proc msg Hp Hk).
      unfold events_between. simpl. eauto.
    + eexists _, file.
      destruct (os_unlink (cancelled (world s) child) file) as [msg|] eqn:Hu.
      * rewrite (cancel_recording_undeleted s proc argv file msg
                   Hp Hc Hl Hk Hu).
        unfold events_between. simpl. rewrite <- !app_assoc. simpl. eauto.
      * rewrite (cancel_recording_delivered s proc argv file Hp Hc Hl Hk Hu).
        unfold events_between. simpl. rewrite <- !app_assoc. simpl. eauto.
Qed.

End Teardown.

(** ** The exception handler of [__main__] *)

Section Crash.
Context `{Platform}.

Lemma crash_handler_unarmed e s :
  PID s = 0 → crash_handler e s = (Raise e, s).
Proof.
  intros Hp. unfold crash_handler. run_py. by rewrite decide_True.
Qed.

(** With a recorded [PID] the handler signals twice, whatever comes
    of either call, and leaves through [sys.exit(PID)]. *)
Lemma crash_handler_armed e s :
  PID s ≠ 0 →
  let p := PID s in
  let failure := os_kill (world s) p CTRL_BREAK_EVENT in
  ∃ d2 w',
    crash_handler e s
    = (Raise (mk_exn (SystemExit p) (pretty p)), mk_State (self s) p w')
    ∧ trace w'
      = trace (world s)
        ++ [EvSignal p CTRL_BREAK_EVENT (bool_decide (failure = None))]
        ++ report p failure
        ++ [EvSleep 5; EvSignal p SIGTERM d2].
Proof.
  intros Hp p failure. subst failure.
  unfold crash_handler, try_except, sys_exit. run_py.
  rewrite decide_False by done. fold p.
  destruct (os_kill (world s) p CTRL_BREAK_EVENT) as [msg|]; simpl;
    match goal with
    | |- context [os_kill ?w p SIGTERM] =>
        destruct (os_kill w p SIGTERM) as [msg2|]
    end; simpl;
    eexists _, _; (split; [reflexivity|]); simpl;
    rewrite <- ?app_assoc; reflexivity.
Qed.

Lemma stop_recording_attempts s sig :
  ∃ evs, events_between s (stop_recording s).2 evs ∧ (attempts sig evs ≤ 1)%nat.
Proof.
  destruct (process (self s)) as [proc|] eqn:Hp.
  2:{ exists []. rewrite (stop_recording_idle s Hp).
      unfold events_between. simpl. rewrite app_nil_r. split; [done|].
      unfold attempts. simpl. lia. }
  destruct (os_kill (world s) (Zpos (pid proc)) CTRL_BREAK_EVENT)
    as [msg|] eqn:Hk.
  - eexists. rewrite (stop_recording_refused s proc msg Hp Hk).
    unfold events_between. simpl. split; [done|]. by destruct sig; compute; lia.
  - eexists. rewrite (stop_recording_delivered s proc Hp Hk).
    unfold events_between. simpl. rewrite <- !app_assoc. simpl.
    split; [done|]. by destruct sig; compute; lia.
Qed.

Lemma cancel_recording_attempts s sig :
  ∃ evs, events_between s (cancel_recording s).2 evs ∧ (attempts sig evs ≤ 1)%nat.
Proof.
  unfold cancel_recording, index_last, events_between. run_py.
  destruct (process (self s)) as [proc|].
  2:{ exists []. simpl. rewrite app_nil_r. split; [done|]. compute; lia. }
  destruct (os_kill (world s) (Zpos (pid proc)) SIGTERM) as [msg|]; simpl.
  { eexists. split; [done|]. by destruct sig; compute; lia. }
  destruct (cmd (self s)) as [argv|]; simpl.
  2:{ eexists. rewrite <- !app_assoc. simpl. split; [done|].
      by destruct sig; compute; lia. }
  destruct (last argv) as [file|]; simpl.
  - destruct (os_unlink _ file); simpl;
      eexists; rewrite <- !app_assoc; simpl; (split; [done|]);
      by destruct sig; compute; lia.
  - eexists. rewrite <- !app_assoc. simpl. split; [done|].
    by destruct sig; compute; lia.
Qed.

End Crash.

Section Supervision.
Context `{Platform}.

(** C7: no teardown path retries.  In [stop_recording], in
    [cancel_recording] and in the exception handler each of the two
    signals is attempted at most once, delivered or not.  With a
    recorded [PID] the handler makes exactly the two attempts: a
    failed [CTRL_BREAK_EVENT] is printed and followed by the wait
    and the one [SIGTERM], a failed [SIGTERM] is swallowed, and the
    handler goes on to [sys.exit(PID)] either way. *)
Theorem teardown_never_retries s e sig :
  (∃ evs, events_between s (stop_recording s).2 evs
          ∧ (attempts sig evs ≤ 1)%nat)
  ∧ (∃ evs, events_between s (cancel_recording s).2 evs
            ∧ (attempts sig evs ≤ 1)%nat)
  ∧ (∃ evs, events_between s (crash_handler e s).2 evs
            ∧ (attempts sig evs ≤ 1)%nat
            ∧ (PID s ≠ 0 →
               let failure := os_kill (world s) (PID s) CTRL_BREAK_EVENT in
               ∃ d2,
                 evs = [EvSignal (PID s) CTRL_BREAK_EVENT
                          (bool_decide (failure = None))]
                       ++ report (PID s) failure
                       ++ [EvSleep 5; EvSignal (PID s) SIGTERM d2]
                 ∧ (crash_handler e s).1
                   = Raise (mk_exn (SystemExit (PID s)) (pretty (PID s))))).
Proof.
  split_and!.
  - apply stop_recording_attempts.
  - apply cancel_recording_attempts.
  - destruct (decide (PID s = 0)) as [Hp|Hp].
    { exists []. rewrite (crash_handler_unarmed e s Hp).
      unfold events_between. simpl. rewrite app_nil_r.
      split_and!; [done|compute; lia|done]. }
    destruct (crash_handler_armed e s Hp) as (d2 & w' & -> & Htr).
    eexists. unfold events_between. simpl. split; [exact Htr|]. split.
    + unfold attempts, report.
      destruct (os_kill (world s) (PID s) CTRL_BREAK_EVENT);
        by destruct sig; compute; lia.
    + intros _. by exists d2.
Qed.

(** C5: when an exception [e] escapes the application, the
    [__main__] block looks at the recorded [PID].  If it is not
    zero, the block attempts [CTRL_BREAK_EVENT] on that process id
    (printing the error if the attempt fails), waits five seconds,
    attempts [SIGTERM], and the host exits with the process id as
    its status.  If it is zero, nothing is called and [e]
    propagates.  An exception that is not an [Exception] passes the
    block untouched. *)
Theorem crash_signals_child_then_exits run w s0 e s1 :
  ensure_recordings (State_init w) = (Return tt, s0) →
  run s0 = (Raise e, s1) →
  let end_state := (main run w).2 in
  (is_Exception e = true → PID s1 ≠ 0 →
     let failure := os_kill (world s1) (PID s1) CTRL_BREAK_EVENT in
     ∃ d2,
       events_between s1 end_state
         ([EvSignal (PID s1) CTRL_BREAK_EVENT (bool_decide (failure = None))]
          ++ report (PID s1) failure
          ++ [EvSleep 5; EvSignal (PID s1) SIGTERM d2])
       ∧ ending (main run w).1 = Exited (PID s1))
  ∧ (is_Exception e = true → PID s1 = 0 →
       main run w = (Raise e, s1) ∧ ending (main run w).1 = Uncaught e)
  ∧ (is_Exception e = false → main run w = (Raise e, s1)).
Proof.
  intros Hdir Hrun end_state. subst end_state.
  assert (main run w
          = if is_Exception e then crash_handler e s1 else (Raise e, s1)) as Hmain.
  { unfold main, try_except. run_py. by rewrite Hdir, Hrun. }
  rewrite Hmain. split_and!.
  - intros -> Hp failure.
    destruct (crash_handler_armed e s1 Hp) as (d2 & w' & -> & Htr).
    exists d2. by split.
  - intros Hex Hp. rewrite Hex, (crash_handler_unarmed e s1 Hp).
    split; [done|]. unfold ending. simpl. unfold is_Exception in Hex.
    by destruct (exn_cls e).
  - by intros ->.
Qed.

(** C3: one child at a time.  In any state, so in every reachable
    one, that holds a child process handle, [start_recording] returns
    at once in the same state, having created no process.  Every
    reachable state satisfies the invariant; each of
    [start_recording], [stop_recording] and [cancel_recording]
    preserves it; and under it the host has at most one unsignalled
    child, the one behind the handle, and the tracked [PID] is nonzero
    exactly when there is a handle. *)
Theorem one_child_at_a_time s :
  (∀ proc, process (self s) = Some proc →
     start_recording s = (Return tt, s)
     ∧ events_between s (start_recording s).2 [])
  ∧ (reachable s → Inv s)
  ∧ (Inv s →
     Inv (start_recording s).2
     ∧ Inv (stop_recording s).2
     ∧ Inv (cancel_recording s).2
     ∧ (length (children (trace (world s))) ≤ 1)%nat
     ∧ children (trace (world s)) = handle_pids (self s)
     ∧ (PID s ≠ 0 ↔ is_Some (process (self s)))).
Proof.
  split_and!.
  - intros proc Hp. rewrite (start_recording_busy s proc Hp).
    unfold events_between. simpl. by rewrite app_nil_r.
  - apply reachable_Inv.
  - intros HI. split_and!.
    + by apply Inv_start_recording.
    + by apply Inv_stop_recording.
    + by apply Inv_cancel_recording.
    + rewrite (Inv_children s HI). unfold handle_pids.
      destruct (process (self s)); simpl; lia.
    + apply HI.
    + rewrite (Inv_PID s HI). destruct (process (self s)) as [proc|].
      * split; [by eexists|done].
      * split; [done|]. by intros [? ?].
Qed.

End Supervision.

(** ** The command line *)

Section CommandLine.
Context `{Platform}.

Lemma build_cmd_options a settb setpts now l t r b :
  box a = (l, t, r, b) →
  let argv := build_cmd a settb setpts now in
  has_option argv "-framerate" (format_num (record_fps a))
  ∧ has_option argv "-offset_x" (pretty (Z.max l 0))
  ∧ has_option argv "-offset_y" (pretty (Z.max t 0))
  ∧ has_option argv "-video_size"
      (pretty (Z.min r WINDOW_MAX_WIDTH) +:+ "x" +:+ pretty (Z.min b WINDOW_MAX_HEIGHT))
  ∧ has_option argv "-filter_complex"
      ("settb=" +:+ settb +:+ ",setpts=N/TB/" +:+ setpts)
  ∧ has_option argv "-r" (format_num (target_fps a))
  ∧ has_option argv "-b:v" (pretty (bitrate a) +:+ "k").
Proof.
  intros Hbox argv. subst argv. unfold build_cmd, has_option. rewrite Hbox.
  split_and!;
    [by exists 10%nat|by exists 12%nat|by exists 14%nat|by exists 16%nat
    |by exists 22%nat|by exists 26%nat|by exists 32%nat].
Qed.

(** The command line depends on the instance through four
    attributes only. *)
Lemma build_cmd_ext a1 a2 settb setpts now :
  box a1 = box a2 → record_fps a1 = record_fps a2 →
  target_fps a1 = target_fps a2 → bitrate a1 = bitrate a2 →
  build_cmd a1 settb setpts now = build_cmd a2 settb setpts now.
Proof. unfold build_cmd. by intros -> -> -> ->. Qed.

(** Whether or not the process can be created, [start_recording]
    leaves the command line in [self.cmd] and has passed it to
    [Popen]. *)
Lemma start_recording_builds s settb setpts :
  process (self s) = None →
  filter_args (record_fps (self s)) (target_fps (self s)) = Return (settb, setpts) →
  let argv := build_cmd (self s) settb setpts (os_now (world s)) in
  cmd (self (start_recording s).2) = Some argv
  ∧ ∃ child, events_between s (start_recording s).2 [EvPopen argv child].
Proof.
  intros Hp Hf argv.
  destruct (os_create_process (world s) argv) as [msg|p] eqn:Hc.
  - rewrite (start_recording_not_spawned s settb setpts msg Hp Hf Hc).
    split; [done|]. by exists None.
  - rewrite (start_recording_spawned s settb setpts p Hp Hf Hc).
    split; [done|]. by exists (Some p).
Qed.

(** C4: a [start_recording] that builds a command line (there is
    no child yet and the filter strings can be computed) builds it
    from the capture box, [record_fps], [target_fps], [bitrate] and
    the clock reading of the call, and from nothing else in the
    state: the box gives [-offset_x], [-offset_y] and [-video_size]
    (as they are, where the box lies on the screen), [record_fps]
    gives [-framerate], [target_fps] gives [-r] (an [int] rate in
    decimal, a [float] rate as [repr] shows it), [bitrate] gives
    [-b:v], both rates give the filter, and the last argument is the
    output path with the timestamp of the call.  Any other call in a
    state that agrees on these five builds the same command line. *)
Theorem command_line_from_settings s settb setpts l t r b :
  process (self s) = None →
  filter_args (record_fps (self s)) (target_fps (self s)) = Return (settb, setpts) →
  box (self s) = (l, t, r, b) →
  ∃ argv child,
    cmd (self (start_recording s).2) = Some argv
    ∧ events_between s (start_recording s).2 [EvPopen argv child]
    ∧ has_option argv "-offset_x" (pretty (Z.max l 0))
    ∧ has_option argv "-offset_y" (pretty (Z.max t 0))
    ∧ has_option argv "-video_size"
        (pretty (Z.min r WINDOW_MAX_WIDTH) +:+ "x" +:+ pretty (Z.min b WINDOW_MAX_HEIGHT))
    ∧ (0 ≤ l → 0 ≤ t → r ≤ WINDOW_MAX_WIDTH → b ≤ WINDOW_MAX_HEIGHT →
         has_option argv "-offset_x" (pretty l)
         ∧ has_option argv "-offset_y" (pretty t)
         ∧ has_option argv "-video_size" (pretty r +:+ "x" +:+ pretty b))
    ∧ has_option argv "-framerate"
        (match record_fps (self s) with
         | PyInt z => pretty z
         | PyFloat f => repr_float f
         end)
    ∧ has_option argv "-r"
        (match target_fps (self s) with
         | PyInt z => pretty z
         | PyFloat f => repr_float f
         end)
    ∧ has_option argv "-b:v" (pretty (bitrate (self s)) +:+ "k")
    ∧ has_option argv "-filter_complex"
        ("settb=" +:+ settb +:+ ",setpts=N/TB/" +:+ setpts)
    ∧ last argv
      = Some ("recordings/timelapse_" +:+ strftime (os_now (world s)) +:+ ".mkv")
    ∧ ∀ s2,
        process (self s2) = None →
        box (self s2) = box (self s) →
        record_fps (self s2) = record_fps (self s) →
        target_fps (self s2) = target_fps (self s) →
        bitrate (self s2) = bitrate (self s) →
        os_now (world s2) = os_now (world s) →
        cmd (self (start_recording s2).2) = Some argv.
Proof.
  intros Hp Hf Hbox.
  destruct (start_recording_builds s settb setpts Hp Hf) as (Hcmd & child & Hev).
  destruct (build_cmd_options (self s) settb setpts (os_now (world s))
              l t r b Hbox) as (Hfr & Hx & Hy & Hsz & Hfc & Hr & Hbv).
  eexists _, child. split_and!; try done.
  - intros Hl Ht Hright Hb.
    rewrite Z.max_l in Hx by done. rewrite Z.max_l in Hy by done.
    rewrite !Z.min_l in Hsz by done. done.
  - apply build_cmd_last.
  - intros s2 Hp2 Eb Er Et Ebr Enow.
    rewrite <- Er, <- Et in Hf.
    destruct (start_recording_builds s2 settb setpts Hp2 Hf) as (-> & _).
    rewrite Enow. f_equal. by apply build_cmd_ext.
Qed.

(** C9: in the command line that [start_recording] builds, the
    capture offsets are the box's left and top raised to zero where
    negative, and the capture size is the box's right and bottom
    lowered to the screen's width and height where larger. *)
Theorem capture_region_is_clamped s settb setpts l t r b :
  process (self s) = None →
  filter_args (record_fps (self s)) (target_fps (self s)) = Return (settb, setpts) →
  box (self s) = (l, t, r, b) →
  ∃ argv x y w h,
    cmd (self (start_recording s).2) = Some argv
    ∧ x = Z.max l 0 ∧ y = Z.max t 0
    ∧ w = Z.min r WINDOW_MAX_WIDTH ∧ h = Z.min b WINDOW_MAX_HEIGHT
    ∧ has_option argv "-offset_x" (pretty x)
    ∧ has_option argv "-offset_y" (pretty y)
    ∧ has_option argv "-video_size" (pretty w +:+ "x" +:+ pretty h)
    ∧ 0 ≤ x ∧ 0 ≤ y ∧ w ≤ WINDOW_MAX_WIDTH ∧ h ≤ WINDOW_MAX_HEIGHT.
Proof.
  intros Hp Hf Hbox.
  destruct (start_recording_builds s settb setpts Hp Hf) as (Hcmd & _).
  destruct (build_cmd_options (self s) settb setpts (os_now (world s))
              l t r b Hbox) as (_ & Hx & Hy & Hsz & _).
  eexists _, _, _, _, _. split_and!; try done; lia.
Qed.

End CommandLine.

(** ** What the recorder methods leave alone *)

Section Frame.
Context `{Platform}.

Lemma start_recording_frame s :
  same_settings (self s) (self (start_recording s).2).
Proof.
  unfold start_recording. run_py.
  destruct (process (self s)); [done|].
  destruct (filter_args _ _) as [[settb setpts]|e]; simpl; [|done].
  by destruct (os_create_process _ _).
Qed.

Lemma stop_recording_frame s :
  same_settings (self s) (self (stop_recording s).2).
Proof.
  unfold stop_recording. run_py.
  destruct (process (self s)); [|done].
  by destruct (os_kill _ _ _).
Qed.

Lemma cancel_recording_frame s :
  same_settings (self s) (self (cancel_recording s).2).
Proof.
  unfold cancel_recording, index_last. run_py.
  destruct (process (self s)); [|done].
  destruct (os_kill _ _ _); [done|]. simpl.
  destruct (cmd (self s)) as [argv|]; [|done]. simpl.
  destruct (last argv) as [file|]; [|done]. simpl.
  by destruct (os_unlink _ file).
Qed.

(** Whether a handle is left, by outcome. *)
Lemma start_recording_handle s :
  process (self s) = None →
  match (start_recording s).1 with
  | Return _ => is_Some (process (self (start_recording s).2))
  | Raise _ => process (self (start_recording s).2) = None
  end.
Proof.
  intros Hp. unfold start_recording. run_py. rewrite Hp.
  destruct (filter_args _ _) as [[settb setpts]|e]; simpl; [|done].
  destruct (os_create_process _ _); simpl; [done|by eexists].
Qed.

Lemma stop_recording_handle s :
  match (stop_recording s).1 with
  | Return _ => process (self (stop_recording s).2) = None
  | Raise _ => process (self (stop_recording s).2) = process (self s)
  end.
Proof.
  unfold stop_recording. run_py.
  destruct (process (self s)) eqn:Hp; [|done].
  by destruct (os_kill _ _ _).
Qed.

Lemma cancel_recording_handle s :
  Inv s →
  match (cancel_recording s).1 with
  | Return _ => process (self (cancel_recording s).2) = None
  | Raise _ =>
      process (self (cancel_recording s).2) = process (self s)
      ∨ (process (self (cancel_recording s).2) = None
         ∧ ¬ unlink_never_fails)
  end.
Proof.
  intros HI.
  destruct (process (self s)) as [proc|] eqn:Hp.
  2:{ by rewrite (cancel_recording_idle s Hp). }
  destruct (Inv_args s HI proc Hp) as [Hc Hne].
  destruct (last (args proc)) as [file|] eqn:Hl.
  2:{ by apply last_None in Hl. }
  destruct (os_kill (world s) (Zpos (pid proc)) SIGTERM) as [msg|] eqn:Hk.
  { rewrite (cancel_recording_refused s proc msg Hp Hk). by left. }
  destruct (os_unlink (cancelled (world s) (Zpos (pid proc))) file)
    as [msg|] eqn:Hu.
  - rewrite (cancel_recording_undeleted s proc _ file msg Hp Hc Hl Hk Hu).
    right. split; [done|]. intros Hnever. by rewrite Hnever in Hu.
  - by rewrite (cancel_recording_delivered s proc _ file Hp Hc Hl Hk Hu).
Qed.

(** [start_recording] never recomposes. *)
Lemma start_recording_no_recompose s :
  recomposed s (start_recording s).2 = false.
Proof.
  unfold recomposed, start_recording. run_py.
  destruct (process (self s)); simpl.
  { by rewrite drop_all. }
  destruct (filter_args _ _) as [[settb setpts]|e]; simpl.
  2:{ by rewrite drop_all. }
  destruct (os_create_process _ _); simpl; by rewrite drop_app_length.
Qed.

(** A state that differs in the settings only is one step away. *)
Lemma settings_step s s' :
  process (self s') = process (self s) → cmd (self s') = cmd (self s) →
  PID s' = PID s → world s' = world s → step s s'.
Proof.
  destruct s' as [[b h p st r t br c] P w]. simpl. intros -> -> -> ->.
  apply step_settings.
Qed.

End Frame.

(** ** The recorder under the handlers *)

Ltac run_tk :=
  unfold mbind, mret, Tk_bind, Tk_ret, call, get_app, set_attr, set_widgets,
    set_class, query_one, set_select_disabled, timer, set_start_disabled,
    set_win_box, tk_raise, win32_GetWindowRect, py_float, py_int; simpl.

(** The same, past a method of the recorder: its outcome and its
    state stay folded. *)
Ltac run_handler :=
  unfold mbind, mret, Tk_bind, Tk_ret, get_app, set_attr, set_widgets,
    set_class, query_one, set_select_disabled, timer, set_start_disabled,
    set_win_box, tk_raise; simpl.

Section Projection.
Context `{Platform} `{Desktop}.

Lemma recorder_action_start_recording u :
  recorder (action_start_recording u).2
  = if started (self (recorder u)) || bool_decide (hwid (self (recorder u)) = 0)
       || all_negative (box (self (recorder u)))
    then recorder u
    else finish true (start_recording (recorder u)).
Proof.
  unfold action_start_recording, finish. run_tk.
  destruct (_ || _ || _); [done|].
  by destruct (start_recording (recorder u)) as [[[]|e] s'].
Qed.

Lemma recorder_action_stop_recording u :
  recorder (action_stop_recording u).2
  = if started (self (recorder u))
    then finish false (stop_recording (recorder u))
    else recorder u.
Proof.
  unfold action_stop_recording, finish. run_tk.
  destruct (started _); [|done]. simpl.
  by destruct (stop_recording (recorder u)) as [[[]|e] s'].
Qed.

Lemma recorder_action_cancel_recording u :
  recorder (action_cancel_recording u).2
  = if started (self (recorder u))
    then finish false (cancel_recording (recorder u))
    else recorder u.
Proof.
  unfold action_cancel_recording, finish. run_tk.
  destruct (started _); [|done]. simpl.
  by destruct (cancel_recording (recorder u)) as [[[]|e] s'].
Qed.

Lemma recorder_action_exit u :
  recorder (action_exit u).2 = recorder (action_stop_recording u).2.
Proof.
  unfold action_exit. run_tk.
  by destruct (action_stop_recording u) as [[[]|e] u'].
Qed.

Lemma recorder_on_button_pressed button_id u :
  recorder (on_button_pressed button_id u).2
  = if String.eqb button_id "start"
       && negb (all_negative (box (self (recorder u))))
    then finish true (start_recording (recorder u))
    else if String.eqb button_id "stop"
    then finish false (stop_recording (recorder u))
    else if String.eqb button_id "cancel"
    then finish false (cancel_recording (recorder u))
    else recorder u.
Proof.
  unfold on_button_pressed, finish. run_tk.
  destruct (_ && _).
  { by destruct (start_recording (recorder u)) as [[[]|e] s']. }
  destruct (String.eqb button_id "stop").
  { by destruct (stop_recording (recorder u)) as [[[]|e] s']. }
  destruct (String.eqb button_id "cancel"); [|done].
  by destruct (cancel_recording (recorder u)) as [[[]|e] s'].
Qed.

(** [select_changed] and [input_update] write settings only. *)
Lemma select_changed_frame v u :
  let s := recorder u in
  let s' := recorder (select_changed v u).2 in
  process (self s') = process (self s) ∧ cmd (self s') = cmd (self s)
  ∧ PID s' = PID s ∧ world s' = world s
  ∧ started (self s') = started (self s)
  ∧ record_fps (self s') = record_fps (self s)
  ∧ target_fps (self s') = target_fps (self s)
  ∧ bitrate (self s') = bitrate (self s).
Proof.
  unfold select_changed, update_win_dimensions. run_tk.
  destruct v as [h|]; [|done].
  destruct (bool_decide (h = 0)); simpl; [done|].
  destruct (GetWindowRect (world (recorder u)) h) as [[[b0 b1] b2] b3]. simpl.
  by destruct (_ || _ || _ || _); run_tk.
Qed.

Lemma input_update_frame event u :
  let s := recorder u in
  let s' := recorder (input_update event u).2 in
  process (self s') = process (self s) ∧ cmd (self s') = cmd (self s)
  ∧ PID s' = PID s ∧ world s' = world s
  ∧ started (self s') = started (self s)
  ∧ hwid (self s') = hwid (self s) ∧ box (self s') = box (self s).
Proof.
  unfold input_update. run_tk.
  destruct (_ || _); [done|].
  destruct (String.eqb (input_id event) "record_fps").
  { by destruct (float_of_str _). }
  destruct (String.eqb (input_id event) "target_fps").
  { by destruct (float_of_str _). }
  destruct (String.eqb (input_id event) "bitrate"); [|done].
  by destruct (int_of_str _).
Qed.

End Projection.

(** ** The invariant of the interface *)

Section UiInvariant.
Context `{Platform} `{Desktop}.

Lemma Inv_settings s s' :
  process (self s') = process (self s) → cmd (self s') = cmd (self s) →
  PID s' = PID s → world s' = world s → Inv s → Inv s'.
Proof. intros. eapply Inv_step; [by apply settings_step|done]. Qed.

Lemma Inv_with_started v s :
  Inv s → Inv (mk_State (with_started v (self s)) (PID s) (world s)).
Proof. by apply Inv_settings. Qed.

Lemma finish_start_recording s :
  Inv s → started_tracks_handle s →
  let s' := finish true (start_recording s) in
  Inv s' ∧ started_tracks_handle s'.
Proof.
  intros HI [Ht Hb] s'. subst s'. unfold finish, started_tracks_handle in *.
  pose proof (Inv_start_recording s HI) as HI'.
  pose proof (start_recording_frame s) as (_ & _ & Hst & _).
  destruct (process (self s)) as [proc|] eqn:Hp.
  { rewrite (start_recording_busy s proc Hp). simpl.
    split; [by apply Inv_with_started|]. rewrite Hp. split; [done|by eexists]. }
  pose proof (start_recording_handle s Hp) as Hh.
  destruct (start_recording s) as [[[]|e] s2]; simpl in *.
  - split; [by apply Inv_with_started|done].
  - split; [done|]. rewrite Hh, Hst. done.
Qed.

Lemma finish_stop_recording s :
  Inv s → started_tracks_handle s →
  let s' := finish false (stop_recording s) in
  Inv s' ∧ started_tracks_handle s'.
Proof.
  intros HI [Ht Hb] s'. subst s'. unfold finish, started_tracks_handle in *.
  pose proof (Inv_stop_recording s HI) as HI'.
  pose proof (stop_recording_frame s) as (_ & _ & Hst & _).
  pose proof (stop_recording_handle s) as Hh.
  destruct (stop_recording s) as [[[]|e] s2]; simpl in *.
  - split; [by apply Inv_with_started|]. rewrite Hh.
    split; [by intros [? ?]|done].
  - split; [done|]. by rewrite Hh, Hst.
Qed.

Lemma finish_cancel_recording s :
  Inv s → started_tracks_handle s →
  let s' := finish false (cancel_recording s) in
  Inv s' ∧ started_tracks_handle s'.
Proof.
  intros HI [Ht Hb] s'. subst s'. unfold finish, started_tracks_handle in *.
  pose proof (Inv_cancel_recording s HI) as HI'.
  pose proof (cancel_recording_frame s) as (_ & _ & Hst & _).
  pose proof (cancel_recording_handle s HI) as Hh.
  destruct (cancel_recording s) as [[[]|e] s2]; simpl in *.
  - split; [by apply Inv_with_started|]. rewrite Hh.
    split; [by intros [? ?]|done].
  - split; [done|]. destruct Hh as [Hh|[Hh Hfails]].
    + by rewrite Hh, Hst.
    + rewrite Hh. split; [by intros [? ?]|]. by intros Hnever.
Qed.

(** [finish] keeps every setting but [started]. *)
Lemma finish_frame v s m :
  same_settings (self s) (self (m s).2) →
  let s' := finish v (m s) in
  box (self s') = box (self s) ∧ hwid (self s') = hwid (self s)
  ∧ record_fps (self s') = record_fps (self s)
  ∧ target_fps (self s') = target_fps (self s)
  ∧ bitrate (self s') = bitrate (self s).
Proof.
  intros (Hb & Hh & _ & Hr & Ht & Hbr). unfold finish.
  by destruct (m s) as [[[]|e] s2].
Qed.

(** The recorder after a handler: its invariant, the meaning of
    [started], and, unless the handler is [select_changed] or
    [input_update], the settings. *)
Lemma handle_recorder ev u :
  Inv (recorder u) → started_tracks_handle (recorder u) →
  let s := recorder u in
  let s' := recorder (handle ev u).2 in
  Inv s' ∧ started_tracks_handle s'
  ∧ (match ev with
     | Selected _ => True
     | _ => hwid (self s') = hwid (self s) ∧ box (self s') = box (self s)
     end)
  ∧ (match ev with
     | Typed _ => True
     | _ => record_fps (self s') = record_fps (self s)
            ∧ target_fps (self s') = target_fps (self s)
            ∧ bitrate (self s') = bitrate (self s)
     end).
Proof.
  intros HI Ht s s'. subst s s'.
  pose proof (finish_start_recording _ HI Ht) as [HI1 Ht1].
  pose proof (finish_stop_recording _ HI Ht) as [HI2 Ht2].
  pose proof (finish_cancel_recording _ HI Ht) as [HI3 Ht3].
  pose proof (finish_frame true _ _ (start_recording_frame (recorder u)))
    as (Hb1 & Hh1 & Hr1 & Htg1 & Hbr1).
  pose proof (finish_frame false _ _ (stop_recording_frame (recorder u)))
    as (Hb2 & Hh2 & Hr2 & Htg2 & Hbr2).
  pose proof (finish_frame false _ _ (cancel_recording_frame (recorder u)))
    as (Hb3 & Hh3 & Hr3 & Htg3 & Hbr3).
  destruct ev as [| | | |button_id|v|event]; simpl.
  - rewrite recorder_action_start_recording. by destruct (_ || _ || _).
  - rewrite recorder_action_stop_recording. by destruct (started _).
  - rewrite recorder_action_cancel_recording. by destruct (started _).
  - rewrite recorder_action_exit, recorder_action_stop_recording.
    by destruct (started _).
  - rewrite recorder_on_button_pressed.
    destruct (_ && _); [done|].
    destruct (String.eqb button_id "stop"); [done|].
    by destruct (String.eqb button_id "cancel").
  - pose proof (select_changed_frame v u)
      as (Hp & Hc & HP & Hw & Hst & Hr & Htg & Hbr).
    split_and!; try done.
    + by apply (Inv_settings (recorder u)).
    + unfold started_tracks_handle in *. by rewrite Hp, Hst.
  - pose proof (input_update_frame event u)
      as (Hp & Hc & HP & Hw & Hst & Hh & Hb).
    split_and!; try done.
    + by apply (Inv_settings (recorder u)).
    + unfold started_tracks_handle in *. by rewrite Hp, Hst.
Qed.

(** [input_update] stores floats. *)
Lemma input_update_rates event u :
  default_or_float 1 (record_fps (self (recorder u))) →
  default_or_float 60 (target_fps (self (recorder u))) →
  default_or_float 1 (record_fps (self (recorder (input_update event u).2)))
  ∧ default_or_float 60 (target_fps (self (recorder (input_update event u).2))).
Proof.
  intros Hr Ht. unfold input_update. run_tk.
  destruct (_ || _); [done|].
  destruct (String.eqb (input_id event) "record_fps").
  { destruct (float_of_str _); simpl; [|done]. split; [right; by eexists|done]. }
  destruct (String.eqb (input_id event) "target_fps").
  { destruct (float_of_str _); simpl; [|done]. split; [done|right; by eexists]. }
  destruct (String.eqb (input_id event) "bitrate"); [|done].
  by destruct (int_of_str _).
Qed.

(** A method called from a handler leaves the Start button as it is
    or, recomposing, disables it. *)
Lemma call_start_button {A} (m : Py A) u :
  start_disabled (widgets (call m u).2) = false →
  start_disabled (widgets u) = false.
Proof.
  unfold call. destruct (m (recorder u)) as [o s']. simpl.
  by destruct (recomposed _ _).
Qed.

End UiInvariant.

Section UiWidgets.
Context `{Platform} `{Desktop}.

Ltac crush_widgets :=
  repeat match goal with
         | |- context [start_recording ?s] =>
             destruct (start_recording s) as [[[]|?] ?]; simpl
         | |- context [stop_recording ?s] =>
             destruct (stop_recording s) as [[[]|?] ?]; simpl
         | |- context [cancel_recording ?s] =>
             destruct (cancel_recording s) as [[[]|?] ?]; simpl
         | |- context [recomposed ?a ?b] => destruct (recomposed a b); simpl
         | |- context [decide ?P] => destruct (decide P); simpl
         | |- context [float_of_str ?t] => destruct (float_of_str t); simpl
         | |- context [int_of_str ?t] => destruct (int_of_str t); simpl
         end.

(** No handler but [select_changed] enables the Start button. *)
Lemma handle_start_button ev u :
  match ev with Selected _ => False | _ => True end →
  start_disabled (widgets (handle ev u).2) = false →
  start_disabled (widgets u) = false.
Proof.
  destruct ev as [| | | |button_id|v|event]; simpl; intros Hev; try done.
  - unfold action_start_recording. run_tk.
    destruct (_ || _ || _); [done|]. by crush_widgets.
  - unfold action_stop_recording. run_tk.
    destruct (started _); [|done]. simpl. by crush_widgets.
  - unfold action_cancel_recording. run_tk.
    destruct (started _); [|done]. simpl. by crush_widgets.
  - unfold action_exit, action_stop_recording. run_tk.
    destruct (started _); [|done]. simpl. by crush_widgets.
  - unfold on_button_pressed. run_tk.
    destruct (_ && _); [by crush_widgets|].
    destruct (String.eqb button_id "stop"); [by crush_widgets|].
    destruct (String.eqb button_id "cancel"); [by crush_widgets|done].
  - unfold input_update. run_tk.
    destruct (_ || _); [done|].
    destruct (String.eqb (input_id event) "record_fps"); [by crush_widgets|].
    destruct (String.eqb (input_id event) "target_fps"); [by crush_widgets|].
    destruct (String.eqb (input_id event) "bitrate"); [by crush_widgets|done].
Qed.

(** [select_changed] enables it for a window handle only. *)
Lemma select_changed_start_button v u :
  start_disabled (widgets (select_changed v u).2) = false →
  hwid (self (recorder (select_changed v u).2)) ≠ 0.
Proof.
  unfold select_changed, update_win_dimensions. run_tk.
  destruct v as [h|]; [|done].
  destruct (bool_decide (h = 0)) eqn:Hh; simpl; [done|].
  apply bool_decide_eq_false in Hh.
  destruct (GetWindowRect (world (recorder u)) h) as [[[b0 b1] b2] b3]. simpl.
  by destruct (_ || _ || _ || _); run_tk.
Qed.

Lemma UiInv_init fs ds : UiInv (Ui_init (mk_World [] fs ds)).
Proof.
  split.
  - apply Inv_init.
  - unfold started_tracks_handle. simpl. split; [by intros [? ?]|done].
  - by left.
  - by left.
  - done.
Qed.

Lemma UiInv_handle ev u : UiInv u → UiInv (handle ev u).2.
Proof.
  intros [HI Ht Hr Htg Hk].
  destruct (handle_recorder ev u HI Ht) as (HI' & Ht' & Hsel & Htyped).
  split; try done.
  - destruct ev; try (destruct Htyped as (Hrec & _ & _); by rewrite Hrec).
    by apply input_update_rates.
  - destruct ev; try (destruct Htyped as (_ & Htgt & _); by rewrite Htgt).
    by apply input_update_rates.
  - intros Hd.
    destruct ev as [| | | |button_id|v|event];
      [| | | | |by apply select_changed_start_button|];
      (destruct Hsel as [Hh _]; rewrite Hh; apply Hk;
       eapply handle_start_button; [|exact Hd]; exact I).
Qed.

Lemma UiInv_step u u' : ui_step u u' → UiInv u → UiInv u'.
Proof.
  destruct 1 as [u ev|u fs ds]; intros HU; [by apply UiInv_handle|].
  destruct HU as [HI Ht Hr Htg Hk]. split; simpl; try done.
  eapply Inv_step; [apply step_disk|done].
Qed.

Lemma ui_reachable_UiInv u : ui_reachable u → UiInv u.
Proof.
  intros (fs & ds & Hr).
  pose proof (UiInv_init fs ds) as H0'.
  induction Hr as [|u0 u1 u2 Hs _ IH]; [done|].
  apply IH. by eapply UiInv_step.
Qed.

(** Every handler moves the recorder by steps of the application. *)
Lemma handle_steps ev u : rtc step (recorder u) (recorder (handle ev u).2).
Proof.
  assert (∀ v (m : Py unit) s, step s (m s).2 → rtc step s (finish v (m s)))
    as Hfin.
  { intros v m s Hs. unfold finish.
    destruct (m s) as [[[]|e] s2]; simpl in *.
    - eapply rtc_l; [exact Hs|]. apply rtc_once. by apply settings_step.
    - by apply rtc_once. }
  destruct ev as [| | | |button_id|v|event]; simpl.
  - rewrite recorder_action_start_recording.
    destruct (_ || _ || _); [done|]. apply Hfin, step_start.
  - rewrite recorder_action_stop_recording.
    destruct (started _); [|done]. apply Hfin, step_stop.
  - rewrite recorder_action_cancel_recording.
    destruct (started _); [|done]. apply Hfin, step_cancel.
  - rewrite recorder_action_exit, recorder_action_stop_recording.
    destruct (started _); [|done]. apply Hfin, step_stop.
  - rewrite recorder_on_button_pressed.
    destruct (_ && _); [apply Hfin, step_start|].
    destruct (String.eqb button_id "stop"); [apply Hfin, step_stop|].
    destruct (String.eqb button_id "cancel"); [apply Hfin, step_cancel|done].
  - apply rtc_once.
    pose proof (select_changed_frame v u) as (Hp & Hc & HP & Hw & _).
    by apply settings_step.
  - apply rtc_once.
    pose proof (input_update_frame event u) as (Hp & Hc & HP & Hw & _).
    by apply settings_step.
Qed.

Lemma ui_reachable_recorder u : ui_reachable u → reachable (recorder u).
Proof.
  intros (fs & ds & Hr). exists fs, ds.
  change (State_init (mk_World [] fs ds))
    with (recorder (Ui_init (mk_World [] fs ds))).
  induction Hr as [|u0 u1 u2 Hs _ IH]; [done|].
  etrans; [|exact IH].
  destruct Hs as [u0 ev|u0 fs' ds']; [apply handle_steps|].
  apply rtc_once. simpl. apply step_disk.
Qed.

End UiWidgets.

(** ** Properties of the interface *)

Section Interface.
Context `{Platform} `{Desktop}.

Lemma call_start_recording u :
  call start_recording u
  = ((start_recording (recorder u)).1,
     mk_Ui (start_recording (recorder u)).2 (widgets u)).
Proof.
  unfold call. pose proof (start_recording_no_recompose (recorder u)) as Hn.
  destruct (start_recording (recorder u)) as [o s']. simpl in *. by rewrite Hn.
Qed.

Lemma call_outcome {A} (m : Py A) u :
  call m u
  = ((m (recorder u)).1,
     mk_Ui (m (recorder u)).2
       (if recomposed (recorder u) (m (recorder u)).2
        then compose (widgets u) else widgets u)).
Proof. unfold call. by destruct (m (recorder u)). Qed.

Ltac decides :=
  repeat match goal with
         | |- context [decide ?P] =>
             destruct (decide P); simpl in *; try lia; try congruence
         end.

(** X1: a handler that returns leaves the [started] class of the
    app and the lock on the window selector equal to the [started]
    flag, if they were before: the selector is locked exactly while
    the application takes itself to be recording. *)
Theorem handlers_keep_widgets_coherent ev u :
  coherent u →
  (handle ev u).1 = Return tt →
  coherent (handle ev u).2.
Proof.
  unfold coherent. intros [Hc Hs].
  destruct ev as [| | | |button_id|v|event]; simpl.
  - unfold action_start_recording. run_handler.
    destruct (_ || _ || _); [done|]. rewrite call_start_recording. simpl.
    destruct (start_recording (recorder u)) as [[[]|e] s']; simpl; [|done].
    by decides.
  - unfold action_stop_recording. run_handler.
    destruct (started _) eqn:Hst; simpl; [|by rewrite Hst in *].
    rewrite call_outcome. simpl.
    destruct (stop_recording (recorder u)) as [[[]|e] s']; simpl; [|done].
    by destruct (recomposed _ _); simpl; decides.
  - unfold action_cancel_recording. run_handler.
    destruct (started _) eqn:Hst; simpl; [|by rewrite Hst in *].
    rewrite call_outcome. simpl.
    destruct (cancel_recording (recorder u)) as [[[]|e] s']; simpl; [|done].
    by destruct (recomposed _ _); simpl; decides.
  - unfold action_exit. run_handler.
    by destruct (action_stop_recording u) as [[[]|e] u'].
  - unfold on_button_pressed. run_handler.
    destruct (_ && _).
    { rewrite call_start_recording. simpl.
      destruct (start_recording (recorder u)) as [[[]|e] s']; simpl; [|done].
      by decides. }
    destruct (String.eqb button_id "stop").
    { rewrite call_outcome. simpl.
      destruct (stop_recording (recorder u)) as [[[]|e] s']; simpl; [|done].
      by destruct (recomposed _ _); simpl; decides. }
    destruct (String.eqb button_id "cancel"); [|done].
    rewrite call_outcome. simpl.
    destruct (cancel_recording (recorder u)) as [[[]|e] s']; simpl; [|done].
    by destruct (recomposed _ _); simpl; decides.
  - pose proof (select_changed_frame v u) as (_ & _ & _ & _ & Hst & _).
    intros _. simpl in Hst. rewrite Hst.
    unfold select_changed, update_win_dimensions. run_tk.
    destruct v as [h|]; [|done].
    destruct (bool_decide (h = 0)); simpl; [done|].
    destruct (GetWindowRect (world (recorder u)) h) as [[[b0 b1] b2] b3]. simpl.
    by destruct (_ || _ || _ || _); run_tk.
  - pose proof (input_update_frame event u) as (_ & _ & _ & _ & Hst & _).
    intros _. simpl in Hst. rewrite Hst.
    unfold input_update. run_tk.
    destruct (_ || _); [done|].
    destruct (String.eqb (input_id event) "record_fps").
    { by destruct (float_of_str _). }
    destruct (String.eqb (input_id event) "target_fps").
    { by destruct (float_of_str _). }
    destruct (String.eqb (input_id event) "bitrate"); [|done].
    by destruct (int_of_str _).
Qed.

(** X2: the interface drives the recorder by steps of the
    application only.  Whatever keys are pressed, buttons clicked,
    windows selected and numbers typed, the recorder is in a
    reachable state: it satisfies its invariant and the host has at
    most one unsignalled child. *)
Theorem interface_refines_recorder u :
  ui_reachable u →
  reachable (recorder u)
  ∧ Inv (recorder u)
  ∧ (length (children (trace (world (recorder u)))) ≤ 1)%nat.
Proof.
  intros Hu. pose proof (ui_reachable_recorder u Hu) as Hr.
  pose proof (reachable_Inv _ Hr) as HI. split_and!; [done|done|].
  rewrite (Inv_children _ HI). unfold handle_pids.
  destruct (process _); simpl; lia.
Qed.

(** X3: in every state of the interface a child process handle is
    held only while the [started] flag is set, and there is a handle
    exactly when the tracked [PID] is not zero.  On a platform where
    no removal of a file fails the flag is, the other way round, set
    only while a handle is held.  That condition is needed: where
    the [c] key runs into an [unlink] that raises, the handler ends
    with that [OSError] after the handle was cleared and before
    [started] is, and leaves the flag set without a handle. *)
Theorem started_flag_tracks_handle u :
  ui_reachable u →
  (is_Some (process (self (recorder u))) → started (self (recorder u)) = true)
  ∧ (is_Some (process (self (recorder u))) ↔ PID (recorder u) ≠ 0)
  ∧ (unlink_never_fails →
     started (self (recorder u)) = true →
     is_Some (process (self (recorder u))))
  ∧ (∀ proc file msg,
       process (self (recorder u)) = Some proc →
       last (args proc) = Some file →
       os_kill (world (recorder u)) (Zpos (pid proc)) SIGTERM = None →
       os_unlink (cancelled (world (recorder u)) (Zpos (pid proc))) file
       = Some msg →
       let u' := (action_cancel_recording u).2 in
       (action_cancel_recording u).1 = Raise (mk_exn OSError msg)
       ∧ started (self (recorder u')) = true
       ∧ process (self (recorder u')) = None
       ∧ PID (recorder u') = 0).
Proof.
  intros Hu. destruct (ui_reachable_UiInv u Hu) as [HI [Ht Hb] _ _ _].
  split_and!; [exact Ht| |exact Hb|].
  - rewrite (Inv_PID _ HI).
    destruct (process _) as [proc|].
    + split; [done|by eexists].
    + split; [by intros [? ?]|done].
  - intros proc file msg Hp Hl Hk Hun u'. subst u'.
    assert (started (self (recorder u)) = true) as Hst.
    { apply Ht. by eexists. }
    destruct (Inv_args _ HI proc Hp) as [Hc _].
    unfold action_cancel_recording. run_handler. rewrite Hst. simpl.
    rewrite call_outcome. simpl.
    rewrite (cancel_recording_undeleted _ proc _ file msg Hp Hc Hl Hk Hun).
    simpl. by rewrite Hst.
Qed.

(** X4: in every state of the interface an enabled Start button
    means that a window is selected: [hwid] is not zero. *)
Theorem start_button_needs_window u :
  ui_reachable u →
  start_disabled (widgets u) = false →
  hwid (self (recorder u)) ≠ 0.
Proof. intros Hu. by destruct (ui_reachable_UiInv u Hu). Qed.

(** X5: keys and buttons do the same.  Where the [r] key starts a
    recording (none is running, a window is selected, its box is not
    all negative) the Start button leaves the same state with the
    same outcome, and while a recording is running so do the [s] key
    and the Stop button, and the [c] key and the Cancel button. *)
Theorem keys_agree_with_buttons u :
  (started (self (recorder u)) = false →
   hwid (self (recorder u)) ≠ 0 →
   all_negative (box (self (recorder u))) = false →
   on_button_pressed "start" u = action_start_recording u)
  ∧ (started (self (recorder u)) = true →
     on_button_pressed "stop" u = action_stop_recording u
     ∧ on_button_pressed "cancel" u = action_cancel_recording u).
Proof.
  split.
  - intros Hst Hh Hb.
    unfold on_button_pressed, action_start_recording. run_handler.
    rewrite Hst, Hb, bool_decide_eq_false_2 by done. simpl.
    rewrite call_start_recording. simpl.
    destruct (start_recording (recorder u)) as [[[]|e] s']; simpl; [|done].
    by decides.
  - intros Hst. split.
    + unfold on_button_pressed, action_stop_recording. run_handler.
      rewrite Hst. simpl. rewrite call_outcome. simpl.
      destruct (stop_recording (recorder u)) as [[[]|e] s']; simpl; [|done].
      by destruct (recomposed _ _); simpl; decides.
    + unfold on_button_pressed, action_cancel_recording. run_handler.
      rewrite Hst. simpl. rewrite call_outcome. simpl.
      destruct (cancel_recording (recorder u)) as [[[]|e] s']; simpl; [|done].
      by destruct (recomposed _ _); simpl; decides.
Qed.

(** X6: in every state of the interface each rate is its class
    default or a [float], so the [int] branch of the filter strings
    is taken with the defaults 1 and 60 only, where ["1/60"] is the
    ratio of the rates. *)
Theorem int_rates_are_the_defaults u :
  ui_reachable u →
  default_or_float 1 (record_fps (self (recorder u)))
  ∧ default_or_float 60 (target_fps (self (recorder u)))
  ∧ (isinstance_int (record_fps (self (recorder u)))
     && isinstance_int (target_fps (self (recorder u))) = true →
     record_fps (self (recorder u)) = PyInt 1
     ∧ target_fps (self (recorder u)) = PyInt 60
     ∧ filter_args (record_fps (self (recorder u)))
         (target_fps (self (recorder u)))
       = Return ("1/60", "60")).
Proof.
  intros Hu. destruct (ui_reachable_UiInv u Hu) as [_ _ Hr Ht _].
  split_and!; [done|done|].
  destruct Hr as [->|[f ->]]; [|done].
  destruct Ht as [->|[f ->]]; [|done]. done.
Qed.

End Interface.

Section Interface2.
Context `{Platform} `{Desktop}.

(** X7: the [x] key, in any state of the interface.  With a child
    process handle (the recording is then started) [action_exit]
    signals [CTRL_BREAK_EVENT] to the child; once that call is back
    it waits three seconds, recomposes, deletes nothing, clears the
    handle, the tracked [PID] and [started], and then raises
    [SystemExit] (status 0).  Where the signal call raises, that
    [OSError] leaves the handler instead and the recording is still
    on.  Without a handle it calls nothing and raises [SystemExit]
    (status 0) with [started] cleared; if [started] was not set the
    state is the one it was called in. *)
Theorem exit_stops_the_recording u :
  ui_reachable u →
  let s := recorder u in
  let s' := recorder (action_exit u).2 in
  match process (self s) with
  | Some proc =>
      started (self s) = true
      ∧ ∃ delivered : bool,
          if delivered
          then ending (action_exit u).1 = Exited 0
               ∧ events_between s s'
                   [EvSignal (Zpos (pid proc)) CTRL_BREAK_EVENT true;
                    EvSleep 3; EvRecompose]
               ∧ process (self s') = None ∧ PID s' = 0
               ∧ started (self s') = false
          else (∃ msg, (action_exit u).1 = Raise (mk_exn OSError msg))
               ∧ events_between s s'
                   [EvSignal (Zpos (pid proc)) CTRL_BREAK_EVENT false]
               ∧ process (self s') = Some proc
               ∧ started (self s') = true
  | None =>
      ending (action_exit u).1 = Exited 0
      ∧ events_between s s' []
      ∧ process (self s') = None ∧ PID s' = PID s
      ∧ started (self s') = false
      ∧ (started (self s) = false →
         action_exit u = (Raise (mk_exn (SystemExit 0) ""), u))
  end.
Proof.
  intros Hu s s'. subst s s'.
  destruct (ui_reachable_UiInv u Hu) as [HI [Ht _] _ _ _].
  destruct (process (self (recorder u))) as [proc|] eqn:Hp.
  - assert (started (self (recorder u)) = true) as Hst by (apply Ht; by eexists).
    split; [done|].
    unfold action_exit, action_stop_recording. run_handler.
    rewrite Hst. simpl. rewrite call_outcome. simpl.
    destruct (os_kill (world (recorder u)) (Zpos (pid proc)) CTRL_BREAK_EVENT)
      as [msg|] eqn:Hk.
    + exists false. rewrite (stop_recording_refused _ proc msg Hp Hk). simpl.
      unfold events_between. simpl. split_and!; eauto.
    + exists true. rewrite (stop_recording_delivered _ proc Hp Hk). simpl.
      unfold events_between. simpl. rewrite <- !app_assoc. simpl.
      by repeat (destruct (recomposed _ _) || destruct (decide _); simpl).
  - unfold action_exit, action_stop_recording. run_handler.
    destruct (started (self (recorder u))) eqn:Hst; simpl.
    + rewrite call_outcome. rewrite (stop_recording_idle _ Hp). simpl.
      unfold events_between. rewrite app_nil_r.
      by repeat (destruct (recomposed _ _) || destruct (decide _); simpl).
    + unfold events_between. by rewrite app_nil_r.
Qed.

(** X8: selecting a maximised window, whose rectangle reaches eight
    pixels past every edge of the screen, stores the screen itself as
    the box, shows it and enables the Start button; the command line
    then built asks for the whole screen. *)
Theorem maximised_window_is_the_screen u h :
  h ≠ 0 →
  GetWindowRect (world (recorder u)) h
  = (-8, -8, WINDOW_MAX_WIDTH + 8, WINDOW_MAX_HEIGHT + 8) →
  let u' := (select_changed (Some h) u).2 in
  (select_changed (Some h) u).1 = Return tt
  ∧ hwid (self (recorder u')) = h
  ∧ box (self (recorder u')) = (0, 0, WINDOW_MAX_WIDTH, WINDOW_MAX_HEIGHT)
  ∧ win_box (widgets u') = (0, 0, WINDOW_MAX_WIDTH, WINDOW_MAX_HEIGHT)
  ∧ start_disabled (widgets u') = false
  ∧ ∀ settb setpts now,
      let argv := build_cmd (self (recorder u')) settb setpts now in
      has_option argv "-offset_x" "0"
      ∧ has_option argv "-offset_y" "0"
      ∧ has_option argv "-video_size"
          (pretty WINDOW_MAX_WIDTH +:+ "x" +:+ pretty WINDOW_MAX_HEIGHT).
Proof.
  intros Hh Hrect u'. subst u'.
  assert (box (self (recorder (select_changed (Some h) u).2))
          = (0, 0, WINDOW_MAX_WIDTH, WINDOW_MAX_HEIGHT)
          ∧ (select_changed (Some h) u).1 = Return tt
          ∧ hwid (self (recorder (select_changed (Some h) u).2)) = h
          ∧ win_box (widgets (select_changed (Some h) u).2)
            = (0, 0, WINDOW_MAX_WIDTH, WINDOW_MAX_HEIGHT)
          ∧ start_disabled (widgets (select_changed (Some h) u).2) = false)
    as (Hbox & Hret & Hhwid & Hwin & Hstart).
  { unfold select_changed, update_win_dimensions. run_tk.
    rewrite !bool_decide_eq_false_2 by done. simpl.
    rewrite Hrect. simpl.
    replace (WINDOW_MAX_WIDTH + 8 - 8) with WINDOW_MAX_WIDTH by lia.
    replace (WINDOW_MAX_HEIGHT + 8 - 8) with WINDOW_MAX_HEIGHT by lia.
    done. }
  split_and!; try done.
  intros settb setpts now argv.
  destruct (build_cmd_options _ settb setpts now _ _ _ _ Hbox)
    as (_ & Hx & Hy & Hsz & _).
  rewrite !Z.min_id in Hsz. done.
Qed.

(** X9: [input_update].  An event without a valid validation result
    or with an empty text changes nothing, and neither does an input
    with another id.  A text that the parser refuses raises
    [ValueError] and changes nothing.  A valid bitrate [n] is stored
    and changes nothing else, and the next command line built
    carries [-b:v] with [n] followed by [k]. *)
Theorem typed_bitrate_reaches_the_command_line event u :
  (validation_result event ≠ Some true ∨ value event = "" →
   input_update event u = (Return tt, u))
  ∧ (input_id event ≠ "record_fps" → input_id event ≠ "target_fps" →
     input_id event ≠ "bitrate" →
     input_update event u = (Return tt, u))
  ∧ (validation_result event = Some true → value event ≠ "" →
     input_id event = "bitrate" →
     match int_of_str (value event) with
     | None =>
         ∃ e, input_update event u = (Raise e, u) ∧ exn_cls e = ValueError
     | Some n =>
         let u' := (input_update event u).2 in
         (input_update event u).1 = Return tt
         ∧ widgets u' = widgets u
         ∧ recorder u'
           = mk_State (with_bitrate n (self (recorder u))) (PID (recorder u))
               (world (recorder u))
         ∧ ∀ settb setpts,
             process (self (recorder u)) = None →
             filter_args (record_fps (self (recorder u)))
               (target_fps (self (recorder u))) = Return (settb, setpts) →
             ∃ argv,
               cmd (self (start_recording (recorder u')).2) = Some argv
               ∧ has_option argv "-b:v" (pretty n +:+ "k")
     end).
Proof.
  split_and!.
  - intros Hbad. unfold input_update.
    destruct (validation_result event) as [[]|]; simpl;
      destruct Hbad as [Hv|Hv]; try done;
      by rewrite Hv.
  - intros H1 H2 H3. unfold input_update.
    apply String.eqb_neq in H1, H2, H3. rewrite H1, H2, H3.
    by destruct (_ || _).
  - intros Hv Hne Hid. unfold input_update. rewrite Hv, Hid. simpl.
    rewrite bool_decide_eq_false_2 by done. simpl. run_tk.
    destruct (int_of_str (value event)) as [n|]; simpl.
    2:{ by eexists. }
    split_and!; try done.
    intros settb setpts Hp Hf.
    set (s1 := mk_State (with_bitrate n (self (recorder u))) (PID (recorder u))
                 (world (recorder u))).
    destruct (start_recording_builds s1 settb setpts Hp Hf) as (Hcmd & _).
    eexists. split; [exact Hcmd|].
    destruct (box (self (recorder u))) as [[[l t] r] b] eqn:Hbox.
    by destruct (build_cmd_options (self s1) settb setpts (os_now (world s1))
                   l t r b Hbox) as (_ & _ & _ & _ & _ & _ & Hbv).
Qed.

End Interface2.

(** ** More on the recorder *)

Section Recorder2.
Context `{Platform}.

(** X10: the three recorder methods never touch the settings: the
    box, the window handle, the [started] flag, the two rates and the
    bitrate are after each of them what they were before, whether it
    returns or raises. *)
Theorem recorder_methods_keep_settings s :
  same_settings (self s) (self (start_recording s).2)
  ∧ same_settings (self s) (self (stop_recording s).2)
  ∧ same_settings (self s) (self (cancel_recording s).2).
Proof.
  split_and!;
    [apply start_recording_frame|apply stop_recording_frame
    |apply cancel_recording_frame].
Qed.

(** X11: [cancel_recording] touches the output file and nothing
    else.  When the signal has been delivered, the one call on the
    disk is the [unlink] of the last element of the child's command
    line, made after the wait and the recomposition: every other
    path is on disk afterwards exactly if it was at that call, and
    so is every directory.  Where [unlink] returns, the files are
    those of that moment without the output file; where it raises,
    [cancel_recording] raises that [OSError] and the files are those
    of that moment, the output file among them if it was there. *)
Theorem cancel_deletes_only_the_output s proc :
  reachable s →
  process (self s) = Some proc →
  os_kill (world s) (Zpos (pid proc)) SIGTERM = None →
  let before := cancelled (world s) (Zpos (pid proc)) in
  let s' := (cancel_recording s).2 in
  ∃ file,
    last (args proc) = Some file
    ∧ events_between s s'
        [EvSignal (Zpos (pid proc)) SIGTERM true; EvSleep 3; EvRecompose;
         EvUnlink file]
    ∧ (∀ path, path ≠ file →
         (path ∈ files (world s') ↔ path ∈ files before))
    ∧ dirs (world s') = dirs before
    ∧ match os_unlink before file with
      | None =>
          (cancel_recording s).1 = Return tt
          ∧ files (world s') = files before ∖ {[file]}
      | Some msg =>
          (cancel_recording s).1 = Raise (mk_exn OSError msg)
          ∧ files (world s') = files before
      end.
Proof.
  intros Hr Hp Hk before s'. subst s'.
  destruct (reachable_Inv s Hr) as [_ _ _ Hargs].
  destruct (Hargs proc Hp) as [Hc Hne].
  destruct (last (args proc)) as [file|] eqn:Hl.
  2:{ by apply last_None in Hl. }
  exists file. fold before.
  destruct (os_unlink before file) as [msg|] eqn:Hu.
  - rewrite (cancel_recording_undeleted s proc _ file msg Hp Hc Hl Hk Hu).
    unfold events_between. simpl. rewrite <- !app_assoc. simpl.
    by split_and!.
  - rewrite (cancel_recording_delivered s proc _ file Hp Hc Hl Hk Hu).
    unfold events_between. simpl. rewrite <- !app_assoc. simpl.
    split_and!; try done.
    intros path Hpath.
    rewrite elem_of_difference, elem_of_singleton. tauto.
Qed.

(** X12: after a stop whose signal was delivered the recorder is
    idle again.  A second stop does nothing, and a cancel does
    nothing either, so a stopped recording can no longer be deleted;
    a start builds a new command line and, if the process can be
    created, holds the new child as the host's only one. *)
Theorem stopped_recorder_is_idle s proc :
  reachable s →
  process (self s) = Some proc →
  os_kill (world s) (Zpos (pid proc)) CTRL_BREAK_EVENT = None →
  let s1 := (stop_recording s).2 in
  process (self s1) = None
  ∧ PID s1 = 0
  ∧ stop_recording s1 = (Return tt, s1)
  ∧ cancel_recording s1 = (Return tt, s1)
  ∧ ∀ settb setpts p,
      filter_args (record_fps (self s)) (target_fps (self s))
      = Return (settb, setpts) →
      let argv := build_cmd (self s) settb setpts (os_now (world s1)) in
      os_create_process (world s1) argv = inr p →
      let s2 := (start_recording s1).2 in
      (start_recording s1).1 = Return tt
      ∧ process (self s2) = Some (mk_Popen p argv)
      ∧ PID s2 = Zpos p
      ∧ children (trace (world s2)) = [Zpos p]
      ∧ events_between s1 s2 [EvPopen argv (Some p)].
Proof.
  intros Hr Hp Hk s1.
  assert (reachable s1) as Hr1 by (eapply reachable_step; [done|apply step_stop]).
  assert (process (self s1) = None ∧ PID s1 = 0) as [Hp1 HP1].
  { subst s1. by rewrite (stop_recording_delivered s proc Hp Hk). }
  pose proof (stop_recording_frame s) as (Hb & _ & _ & Hrf & Htf & Hbr).
  fold s1 in Hb, Hrf, Htf, Hbr. clearbody s1.
  split_and!; [done|done|by apply stop_recording_idle
               |by apply cancel_recording_idle|].
  intros settb setpts p Hf argv Hc s2. subst s2.
  assert (build_cmd (self s1) settb setpts (os_now (world s1)) = argv) as Ha
    by (by apply build_cmd_ext).
  rewrite <- Ha in Hc. rewrite <- Hrf, <- Htf in Hf.
  rewrite (start_recording_spawned s1 settb setpts p Hp1 Hf Hc). simpl.
  rewrite Ha. split_and!; try done.
  pose proof (Inv_children _ (reachable_Inv _ Hr1)) as Hch.
  unfold handle_pids in Hch. rewrite Hp1 in Hch.
  rewrite children_snoc. simpl. by rewrite Hch.
Qed.

(** X13: the directory of the recordings.  Where it exists
    nothing is called; where [ensure_recordings] returns it exists
    afterwards and no file has changed; and where [mkdir] fails the
    [__main__] block ends with that error whatever the application
    would have done: the application does not run without the
    directory. *)
Theorem recordings_directory_comes_first s :
  ("recordings" ∈ dirs (world s) → ensure_recordings s = (Return tt, s))
  ∧ ((ensure_recordings s).1 = Return tt →
     "recordings" ∈ dirs (world (ensure_recordings s).2)
     ∧ files (world (ensure_recordings s).2) = files (world s)
     ∧ ensure_recordings (ensure_recordings s).2
       = (Return tt, (ensure_recordings s).2))
  ∧ (∀ e w run1 run2,
       (ensure_recordings (State_init w)).1 = Raise e →
       main run1 w = main run2 w ∧ (main run1 w).1 = Raise e).
Proof.
  split_and!.
  - intros Hd. unfold ensure_recordings. by rewrite decide_True.
  - unfold ensure_recordings.
    destruct (decide ("recordings" ∈ dirs (world s))) as [Hd|Hd]; simpl.
    { intros _. by rewrite decide_True. }
    destruct (decide ("recordings" ∈ files (world s))); simpl; [done|].
    intros _. split_and!; [set_solver|done|].
    rewrite decide_True; [done|set_solver].
  - intros e w run1 run2 He. unfold main. run_py.
    by destruct (ensure_recordings (State_init w)) as [[[]|e'] s0];
      simpl in *; simplify_eq.
Qed.

End Recorder2.

(** ** Output paths *)

Lemma pretty_N_char_digit x : is_digit (pretty_N_char x) = true.
Proof. unfold pretty_N_char. by repeat case_match. Qed.

Lemma pretty_N_go_digits x s :
  all_digits s = true → all_digits (pretty_N_go x s) = true.
Proof.
  revert s. induction (N.lt_wf_0 x) as [x _ IH]. intros s Hs.
  destruct (decide (x = 0)%N) as [->|Hx]; [done|].
  rewrite pretty_N_go_step by lia. apply IH.
  - apply N.div_lt; lia.
  - simpl. by rewrite pretty_N_char_digit.
Qed.

Lemma pretty_N_digits (n : N) : all_digits (pretty n) = true.
Proof.
  unfold pretty, pretty_N. case_decide; [done|]. by apply pretty_N_go_digits.
Qed.

(** A positive number does not start with a zero. *)
Lemma pretty_N_go_leading x s :
  (0 < x)%N → ∃ c r, pretty_N_go x s = String c r ∧ c ≠ "0"%char.
Proof.
  revert s. induction (N.lt_wf_0 x) as [x _ IH]. intros s Hx.
  rewrite pretty_N_go_step by done.
  destruct (decide (x < 10)%N) as [Hlt|Hge].
  - rewrite N.div_small, pretty_N_go_0 by done.
    rewrite N.mod_small by done. eexists _, _. split; [done|].
    assert (x = 1 ∨ x = 2 ∨ x = 3 ∨ x = 4 ∨ x = 5 ∨ x = 6
            ∨ x = 7 ∨ x = 8 ∨ x = 9)%N as Hc by lia.
    by repeat (destruct Hc as [->|Hc]; [done|]); subst.
  - apply IH.
    + apply N.div_lt; lia.
    + apply N.div_str_pos; lia.
Qed.

Lemma pretty_N_leading (n : N) r : (0 < n)%N → pretty n ≠ String "0" r.
Proof.
  intros Hn. unfold pretty, pretty_N. rewrite decide_False by lia.
  destruct (pretty_N_go_leading n "" Hn) as (c & r' & -> & Hc). congruence.
Qed.

Lemma pad2_digits n : all_digits (pad2 n) = true.
Proof. unfold pad2. case_decide; simpl; apply pretty_N_digits. Qed.

Lemma pad4_digits n : all_digits (pad4 n) = true.
Proof. unfold pad4. repeat case_decide; simpl; apply pretty_N_digits. Qed.

Lemma pad2_inj n m : pad2 n = pad2 m → n = m.
Proof.
  unfold pad2. repeat case_decide; simpl; intros Heq.
  - injection Heq as Heq. by apply (inj pretty).
  - symmetry in Heq. apply pretty_N_leading in Heq; [done|lia].
  - apply pretty_N_leading in Heq; [done|lia].
  - by apply (inj pretty).
Qed.

Lemma pad4_inj n m : pad4 n = pad4 m → n = m.
Proof.
  unfold pad4. repeat case_decide; intros Heq;
    repeat (injection Heq as Heq);
    try (by apply (inj pretty));
    try (apply pretty_N_leading in Heq; [done|lia]);
    try (symmetry in Heq; apply pretty_N_leading in Heq; [done|lia]).
Qed.

(** Digits up to a separator can be read back in one way only. *)
Lemma digits_then_separator a a' c r r' :
  all_digits a = true → all_digits a' = true → is_digit c = false →
  a +:+ String c r = a' +:+ String c r' → a = a' ∧ r = r'.
Proof.
  revert a'. induction a as [|x a IH]; intros [|y a'] Ha Ha' Hc; simpl in *.
  - by intros [= ->].
  - intros [= -> _]. apply andb_prop in Ha' as [Ha' _]. congruence.
  - intros [= -> _]. apply andb_prop in Ha as [Ha _]. congruence.
  - intros [= -> Heq]. apply andb_prop in Ha as [_ Ha].
    apply andb_prop in Ha' as [_ Ha'].
    destruct (IH a' Ha Ha' Hc Heq) as [-> ->]. done.
Qed.

Lemma strftime_inj now1 now2 : strftime now1 = strftime now2 → now1 = now2.
Proof.
  destruct now1 as [y1 mo1 d1 h1 mi1 s1], now2 as [y2 mo2 d2 h2 mi2 s2].
  unfold strftime. simpl. intros Heq.
  apply digits_then_separator in Heq as [Hy Heq];
    [|apply pad4_digits|apply pad4_digits|done].
  apply digits_then_separator in Heq as [Hmo Heq];
    [|apply pad2_digits|apply pad2_digits|done].
  apply digits_then_separator in Heq as [Hd Heq];
    [|apply pad2_digits|apply pad2_digits|done].
  apply digits_then_separator in Heq as [Hh Heq];
    [|apply pad2_digits|apply pad2_digits|done].
  apply digits_then_separator in Heq as [Hmi Hs];
    [|apply pad2_digits|apply pad2_digits|done].
  apply pad4_inj in Hy. apply pad2_inj in Hmo, Hd, Hh, Hmi, Hs. by subst.
Qed.

Section Paths.
Context `{Platform}.

(** X14: the output path tells the clock reading of its start.
    Two calls of [start_recording] that build a command line at
    different clock readings name different output files, so a
    recording overwrites or (cancelled) deletes an earlier one's file
    only if both began in the same second. *)
Theorem output_path_tells_the_time s1 s2 settb1 setpts1 settb2 setpts2 :
  process (self s1) = None →
  process (self s2) = None →
  filter_args (record_fps (self s1)) (target_fps (self s1))
  = Return (settb1, setpts1) →
  filter_args (record_fps (self s2)) (target_fps (self s2))
  = Return (settb2, setpts2) →
  ∃ argv1 argv2 out1 out2,
    cmd (self (start_recording s1).2) = Some argv1
    ∧ cmd (self (start_recording s2).2) = Some argv2
    ∧ last argv1 = Some out1 ∧ last argv2 = Some out2
    ∧ (out1 = out2 ↔ os_now (world s1) = os_now (world s2)).
Proof.
  intros Hp1 Hp2 Hf1 Hf2.
  destruct (start_recording_builds s1 settb1 setpts1 Hp1 Hf1) as (Hc1 & _).
  destruct (start_recording_builds s2 settb2 setpts2 Hp2 Hf2) as (Hc2 & _).
  eexists _, _, _, _.
  split_and!; [exact Hc1|exact Hc2|apply build_cmd_last|apply build_cmd_last|].
  split; [|by intros ->].
  simpl. intros [= Heq].
  apply strftime_inj.
  revert Heq. generalize (strftime (os_now (world s1))) as a.
  generalize (strftime (os_now (world s2))) as b.
  intros b a. revert b.
  induction a as [|x a IH]; intros [|y b]; simpl; try done.
  - intros [= -> Heq]. destruct b as [|? [|? [|? [|? ?]]]]; done.
  - intros [= -> Heq]. destruct a as [|? [|? [|? [|? ?]]]]; done.
  - intros [= -> Heq]. f_equal. by apply IH.
Qed.

End Paths.

(** ** The filter strings *)

(** The [settb] string of a fraction is the one of the [int] branch
    for the unit fraction only. *)
Lemma settb_unit_fraction (na da tgt : Z) :
  pretty na +:+ "/" +:+ pretty da = "1/" +:+ pretty tgt
  ↔ na = 1 ∧ da = tgt.
Proof.
  split; [|by intros [-> ->]].
  destruct na as [|x|x]; [done| |done].
  change (pretty (Z.pos x)) with (pretty (N.pos x)).
  change ("1/" +:+ pretty tgt) with ("1" +:+ String "/" (pretty tgt)).
  change ("/" +:+ pretty da) with (String "/" (pretty da)).
  intros Heq.
  apply digits_then_separator in Heq as [Hn Hd];
    [|apply pretty_N_digits|done|done].
  change "1" with (pretty 1%N) in Hn.
  apply (inj pretty) in Hn. apply (inj pretty) in Hd. split; [lia|done].
Qed.

Section Filter.
Context `{Platform}.

(** C10: the filter strings.  With two [int] rates, [settb] is
    ["1/"] followed by [target_fps], whatever [record_fps] is, and
    the [setpts] divisor is [target_fps].  Otherwise [settb] is the
    quotient [record_fps / target_fps], a [float], as a fraction and
    the divisor is [target_fps] as a fraction, both as
    [limit_denominator] returns them: in lowest terms, with a
    denominator of at most one million, as near to the value as any
    fraction with such a denominator is, and the value itself where
    it has such a denominator.  The two branches give the same
    [settb] where that fraction is one over the [int] target rate
    and only there: 1 and 60, the class defaults, give ["1/60"] as
    [int]s and as [float]s, 2 and 60 give ["1/60"] as [int]s and
    ["1/30"] as [float]s. *)
Theorem filter_args_by_type :
  (∀ rec tgt : Z,
     filter_args (PyInt rec) (PyInt tgt)
     = Return ("1/" +:+ pretty tgt, pretty tgt))
  ∧ (∀ rec tgt q fq ft,
       isinstance_int rec && isinstance_int tgt = false →
       py_truediv rec tgt = Return q →
       Fraction_of (PyFloat q) = Return fq →
       Fraction_of tgt = Return ft →
       ∃ a b,
         limit_denominator fq default_max_denominator = Return a
         ∧ limit_denominator ft default_max_denominator = Return b
         ∧ reduced a ∧ denominator a ≤ 1000000
         ∧ reduced b ∧ denominator b ≤ 1000000
         ∧ (∀ y, 0 < denominator y ≤ 1000000 → nearer fq a y)
         ∧ (∀ y, 0 < denominator y ≤ 1000000 → nearer ft b y)
         ∧ (denominator fq ≤ 1000000 → a = fq)
         ∧ (denominator ft ≤ 1000000 → b = ft)
         ∧ filter_args rec tgt
           = Return (pretty (numerator a) +:+ "/" +:+ pretty (denominator a),
                     "(" +:+ pretty (numerator b) +:+ "/"
                     +:+ pretty (denominator b) +:+ ")")
         ∧ (∀ tgt' : Z,
              pretty (numerator a) +:+ "/" +:+ pretty (denominator a)
              = "1/" +:+ pretty tgt'
              ↔ numerator a = 1 ∧ denominator a = tgt'))
  ∧ filter_args (PyInt 1) (PyInt 60) = Return ("1/60", "60")
  ∧ filter_args (PyFloat (float_of_int 1)) (PyFloat (float_of_int 60))
    = Return ("1/60", "(60/1)")
  ∧ filter_args (PyInt 2) (PyInt 60) = Return ("1/60", "60")
  ∧ filter_args (PyFloat (float_of_int 2)) (PyFloat (float_of_int 60))
    = Return ("1/30", "(60/1)").
Proof.
  split_and!.
  - done.
  - intros rec tgt q fq ft Hty Hq Hfq Hft.
    assert (reduced fq) as Hrq by (by eapply Fraction_of_reduced).
    assert (reduced ft) as Hrt by (by eapply Fraction_of_reduced).
    destruct (limit_denominator_reduced fq default_max_denominator)
      as (a & Ha & Hra & Hda & Hea); [done|done|].
    destruct (limit_denominator_reduced ft default_max_denominator)
      as (b & Hb & Hrb & Hdb & Heb); [done|done|].
    exists a, b. split_and!; try done.
    + by apply limit_denominator_nearest.
    + by apply limit_denominator_nearest.
    + unfold filter_args. rewrite Hty, Hq. simpl.
      unfold mbind, Outcome_bind in Hfq. simpl in Hfq.
      unfold mbind at 1. unfold Outcome_bind at 1.
      change (Fraction_of (PyFloat q)) with
        ('(n, d) ← as_integer_ratio q; Return (mk_Fraction n d)) in Hfq.
      rewrite Hfq. simpl. rewrite Ha. simpl. rewrite Hft. simpl.
      by rewrite Hb.
    + intros tgt'. apply settb_unit_fraction.
  - done.
  - by vm_compute.
  - done.
  - by vm_compute.
Qed.

End Filter.

(** ** The window list *)

Lemma dict_set_spec k v d :
  NoDup d.*1 →
  NoDup (dict_set k v d).*1
  ∧ ∀ k' v', (k', v') ∈ dict_set k v d
             ↔ (k' = k ∧ v' = v) ∨ (k' ≠ k ∧ (k', v') ∈ d).
Proof.
  induction d as [|[k0 v0] d IH]; simpl; intros Hnd.
  - split; [apply NoDup_singleton|]. intros k' v'.
    rewrite list_elem_of_singleton. split.
    + intros [= -> ->]. by left.
    + intros [[-> ->]|[_ Hin]]; [done|]. by apply elem_of_nil in Hin.
  - apply NoDup_cons in Hnd as [Hk0 Hnd].
    destruct (decide (k = k0)) as [->|Hne]; simpl.
    + split; [by apply NoDup_cons|]. intros k' v'.
      rewrite !elem_of_cons. split.
      * intros [[= -> ->]|Hin]; [by left|]. right.
        split; [|by right]. intros ->. apply Hk0.
        apply list_elem_of_fmap. by exists (k0, v').
      * intros [[-> ->]|[Hk [[= -> ->]|Hin]]]; [by left|done|by right].
    + destruct (IH Hnd) as [Hnd' Hin']. split.
      * apply NoDup_cons. split; [|done].
        intros Hin. apply list_elem_of_fmap in Hin as ([k1 v1] & -> & Hin).
        simpl in *. apply Hin' in Hin as [[-> _]|[_ Hin]]; [done|].
        apply Hk0. apply list_elem_of_fmap. by exists (k1, v1).
      * intros k' v'. rewrite !elem_of_cons, Hin'. split.
        -- intros [[= -> ->]|[[-> ->]|[Hk Hin]]].
           ++ right. split; [done|by left].
           ++ by left.
           ++ right. split; [done|by right].
        -- intros [[-> ->]|[Hk [[= -> ->]|Hin]]].
           ++ right. by left.
           ++ by left.
           ++ right. right. done.
Qed.

Lemma ltb_leb a b : String.ltb a b = true → String.leb a b = true.
Proof. unfold String.ltb, String.leb. by destruct (String.compare a b). Qed.

Lemma not_ltb_leb a b : String.ltb a b = false → String.leb b a = true.
Proof.
  unfold String.ltb, String.leb. rewrite (String.compare_antisym a b).
  by destruct (String.compare b a).
Qed.

Section Sorted.
Context {A : Type} (key : A → string).

Lemma insert_sorted_Permutation x l : insert_sorted key x l ≡ₚ x :: l.
Proof.
  induction l as [|y l IH]; simpl; [done|].
  destruct (String.ltb (key x) (key y)); [done|].
  rewrite IH. apply Permutation_swap.
Qed.

Lemma insert_sorted_HdRel x y l :
  key_le key y x → HdRel (key_le key) y l →
  HdRel (key_le key) y (insert_sorted key x l).
Proof.
  intros Hyx Hhd. destruct l as [|z l]; simpl; [by constructor|].
  destruct (String.ltb (key x) (key z)); constructor; [done|].
  by inversion Hhd.
Qed.

Lemma insert_sorted_Sorted x l :
  Sorted (key_le key) l → Sorted (key_le key) (insert_sorted key x l).
Proof.
  induction 1 as [|y l Hs IH Hhd]; simpl.
  - by repeat constructor.
  - destruct (String.ltb (key x) (key y)) eqn:Hlt.
    + constructor; [by constructor|]. constructor. by apply ltb_leb.
    + constructor; [done|]. apply insert_sorted_HdRel; [|done].
      by apply not_ltb_leb.
Qed.

Lemma sorted_spec l : sorted key l ≡ₚ l ∧ Sorted (key_le key) (sorted key l).
Proof.
  unfold sorted.
  cut (∀ acc, Sorted (key_le key) acc →
         fold_left (λ acc x, insert_sorted key x acc) l acc ≡ₚ acc ++ l
         ∧ Sorted (key_le key)
             (fold_left (λ acc x, insert_sorted key x acc) l acc)).
  { intros Hcut. destruct (Hcut [] (Sorted_nil _)) as [Hp Hs]. by split. }
  induction l as [|x l IH]; intros acc Hacc; simpl.
  - by rewrite app_nil_r.
  - destruct (IH (insert_sorted key x acc)) as [Hp Hs].
    { by apply insert_sorted_Sorted. }
    split; [|done]. rewrite Hp, insert_sorted_Permutation. simpl.
    apply Permutation_middle.
Qed.

End Sorted.

Section WindowList.
Context `{Desktop}.

(** What [WINDOWS] holds after the enumeration: one entry for each
    visible window with a title. *)
Lemma enumerated_windows w l d0 :
  NoDup d0.*1 →
  (∀ k v, (k, v) ∈ d0 → v = GetWindowText w k) →
  let d := fold_left (get_windows_callback w) l d0 in
  NoDup d.*1
  ∧ ∀ k v, (k, v) ∈ d
           ↔ (k, v) ∈ d0
             ∨ (k ∈ l ∧ IsWindowVisible w k = true
                ∧ v = GetWindowText w k ∧ v ≠ "").
Proof.
  revert d0. induction l as [|h l IH]; intros d0 Hnd Htxt; simpl.
  { split; [done|]. intros k v. split; [by left|].
    intros [Hkv|(Hk & _)]; [done|]. by apply elem_of_nil in Hk. }
  unfold get_windows_callback at 2 4.
  destruct (IsWindowVisible w h) eqn:Hvis.
  2:{ destruct (IH d0 Hnd Htxt) as [Hnd' Hin]. split; [done|].
      intros k v. rewrite Hin. split.
      - intros [Hkv|(Hk & Hv & Ht & Hb)]; [by left|].
        right. split_and!; try done. by right.
      - intros [Hkv|(Hk & Hv & Ht & Hb)]; [by left|].
        apply elem_of_cons in Hk as [->|Hk]; [congruence|].
        right. by split_and!. }
  destruct (bool_decide (GetWindowText w h = "")) eqn:Hblank.
  { apply bool_decide_eq_true in Hblank.
    destruct (IH d0 Hnd Htxt) as [Hnd' Hin]. split; [done|].
    intros k v. rewrite Hin. split.
    - intros [Hkv|(Hk & Hv & Ht & Hb)]; [by left|].
      right. split_and!; try done. by right.
    - intros [Hkv|(Hk & Hv & Ht & Hb)]; [by left|].
      apply elem_of_cons in Hk as [->|Hk]; [congruence|].
      right. by split_and!. }
  apply bool_decide_eq_false in Hblank.
  destruct (dict_set_spec h (GetWindowText w h) d0 Hnd) as [Hnd1 Hin1].
  destruct (IH (dict_set h (GetWindowText w h) d0) Hnd1) as [Hnd' Hin].
  { intros k v Hkv. apply Hin1 in Hkv as [[-> ->]|[_ Hkv]]; [done|by apply Htxt]. }
  split; [done|]. intros k v. rewrite Hin, Hin1. split.
  - intros [[[-> ->]|[Hne Hkv]]|(Hk & Hv & Ht & Hb)].
    + right. split_and!; try done. by left.
    + by left.
    + right. split_and!; try done. by right.
  - intros [Hkv|(Hk & Hv & Ht & Hb)].
    + left. destruct (decide (k = h)) as [->|Hne]; [|by right].
      left. split; [done|]. by apply Htxt.
    + apply elem_of_cons in Hk as [->|Hk].
      * left. left. done.
      * right. by split_and!.
Qed.

(** X15: the options of the window selector.  [get_windows_titles]
    offers each enumerated window that is visible and has a title,
    and no other; each once, however often the enumeration names it
    and whatever [WINDOWS] held before; labelled with the title and
    the handle, with the handle as the value; in the order of the
    lower-cased titles. *)
Theorem window_list_is_sorted_and_complete w WINDOWS :
  let options := (get_windows_titles w WINDOWS).1 in
  (∀ label h,
     (label, h) ∈ options
     ↔ h ∈ EnumWindows w ∧ IsWindowVisible w h = true
       ∧ GetWindowText w h ≠ ""
       ∧ label = GetWindowText w h +:+ " (" +:+ pretty h +:+ ")")
  ∧ NoDup options.*2
  ∧ Sorted (λ h1 h2,
              String.leb (str_lower (GetWindowText w h1))
                (str_lower (GetWindowText w h2)) = true)
      options.*2.
Proof.
  intros options. subst options. unfold get_windows_titles. simpl.
  set (d := fold_left (get_windows_callback w) (EnumWindows w) []).
  destruct (enumerated_windows w (EnumWindows w) []) as [Hnd Hin].
  { constructor. }
  { intros k v Hkv. by apply elem_of_nil in Hkv. }
  fold d in Hnd, Hin.
  destruct (sorted_spec (λ x : Z * string, str_lower x.2) d) as [Hperm Hsorted].
  set (l := sorted (λ x : Z * string, str_lower x.2) d) in *.
  assert (∀ k v, (k, v) ∈ l → v = GetWindowText w k) as Htxt.
  { intros k v Hkv. rewrite Hperm in Hkv. apply Hin in Hkv.
    destruct Hkv as [Hkv|(_ & _ & Ht & _)]; [|done].
    by apply elem_of_nil in Hkv. }
  assert (((λ '(hwid, text), (text +:+ " (" +:+ pretty hwid +:+ ")", hwid))
             <$> l).*2 = l.*1) as Hvals.
  { rewrite <- list_fmap_compose. apply list_fmap_ext. by intros i [k v]. }
  split_and!.
  - intros label h. rewrite list_elem_of_fmap. split.
    + intros ([k v] & [= -> ->] & Hkv). rewrite Hperm in Hkv.
      apply Hin in Hkv.
      destruct Hkv as [Hkv|(Hk & Hv & -> & Hb)]; [|done].
      by apply elem_of_nil in Hkv.
    + intros (Hh & Hv & Hb & ->). exists (h, GetWindowText w h).
      split; [done|]. rewrite Hperm. apply Hin. right. done.
  - rewrite Hvals, Hperm. done.
  - rewrite Hvals. clear Hvals Hperm.
    induction Hsorted as [|[k v] l' Hs IH Hhd]; simpl; [constructor|].
    constructor.
    + apply IH. intros k' v' Hkv. apply Htxt. by right.
    + destruct Hhd as [|[k2 v2] l2 Hle]; simpl; constructor.
      unfold key_le in Hle. simpl in Hle.
      rewrite <- (Htxt k v) by by left.
      rewrite <- (Htxt k2 v2) by (right; by left). done.
Qed.

End WindowList.

Section Edges.
Context `{Platform} `{Desktop}.

(** X16: a target rate of zero.  With a [float] record rate and a
    target rate that is zero, as a [float] of either sign or as the
    [int] 0, [start_recording] raises [ZeroDivisionError] before it
    builds anything: no command line, no process, no change of
    state. *)
Theorem zero_target_rate_stops_the_start s f tgt :
  process (self s) = None →
  record_fps (self s) = PyFloat f →
  target_fps (self s) = tgt →
  tgt = PyInt 0 ∨ (∃ sign, tgt = PyFloat (S754_zero sign)) →
  ∃ e, start_recording s = (Raise e, s) ∧ exn_cls e = ZeroDivisionError.
Proof.
  intros Hp Hr Ht Hz. eexists. split.
  - apply start_recording_no_filter; [done|]. rewrite Hr, Ht.
    destruct Hz as [->|[sign ->]]; reflexivity.
  - done.
Qed.

(** X17: taking the selection back.  After [select_changed] with
    [Select.BLANK], or with a handle of zero, no window is selected,
    the box and its display are back at (0, 0, 1, 1), the Start button
    is disabled, and the [r] key does nothing. *)
Theorem blank_selection_disarms_the_start u v :
  v = None ∨ v = Some 0 →
  let u' := (select_changed v u).2 in
  (select_changed v u).1 = Return tt
  ∧ hwid (self (recorder u')) = 0
  ∧ box (self (recorder u')) = (0, 0, 1, 1)
  ∧ win_box (widgets u') = (0, 0, 1, 1)
  ∧ start_disabled (widgets u') = true
  ∧ action_start_recording u' = (Return tt, u').
Proof.
  intros Hv u'. subst u'.
  assert (hwid (self (recorder (select_changed v u).2)) = 0) as Hh.
  { by destruct Hv as [->| ->]. }
  split_and!; try by destruct Hv as [->| ->].
  unfold action_start_recording. run_handler. rewrite Hh. simpl.
  by rewrite orb_true_r.
Qed.

End Edges.

(** ** The theorems at work on the sample platforms *)

Lemma teardown_without_handle_is_noop_witness :
  process (self (State_init empty_world)) = None
  ∧ @stop_recording sample_platform (State_init empty_world)
    = (Return tt, State_init empty_world)
  ∧ @cancel_recording sample_platform (State_init empty_world)
    = (Return tt, State_init empty_world).
Proof.
  split; [reflexivity|].
  destruct (@teardown_without_handle_is_noop sample_platform
              (State_init empty_world) eq_refl) as (Hs & Hc & _).
  exact (conj Hs Hc).
Defined.

Lemma stop_recording_leaves_output_witness :
  process (self (recording sample_platform)) = Some sample_child
  ∧ events_between (recording sample_platform)
      (@stop_recording sample_platform (recording sample_platform)).2
      [EvSignal 4242 CTRL_BREAK_EVENT true; EvSleep 3; EvRecompose]
  ∧ sample_output
    ∈ files (world (@stop_recording sample_platform (recording sample_platform)).2).
Proof.
  split; [reflexivity|].
  destruct (@stop_recording_leaves_output sample_platform
              (recording sample_platform) sample_child eq_refl)
    as (delivered & rest & Hev & _ & Hres).
  assert (delivered = true) as ->.
  { unfold events_between in Hev. vm_compute in Hev. by simplify_eq. }
  destruct Hres as (_ & -> & Hfiles). split; [exact Hev|].
  rewrite Hfiles. vm_compute. reflexivity.
Defined.


Lemma teardown_waits_then_deletes_witness :
  @reachable sample_platform (recording sample_platform)
  ∧ process (self (recording sample_platform)) = Some sample_child
  ∧ events_between (recording sample_platform)
      (@cancel_recording sample_platform (recording sample_platform)).2
      [EvSignal 4242 SIGTERM true; EvSleep 3; EvRecompose; EvUnlink sample_output].
Proof.
  split; [apply recording_reachable|]. split; [reflexivity|].
  destruct (@teardown_waits_then_deletes sample_platform
              (recording sample_platform) sample_child
              (recording_reachable sample_platform) eq_refl)
    as (_ & evs & file & Hev & [->| ->]).
  - unfold events_between in Hev. vm_compute in Hev.
    assert (file = sample_output) as -> by (by simplify_eq). reflexivity.
  - unfold events_between in Hev. vm_compute in Hev. by simplify_eq.
Defined.

Lemma teardown_never_retries_witness :
  ∃ evs,
    events_between (recording deaf_platform)
      (@crash_handler deaf_platform (mk_exn ValueError "widget not found")
         (recording deaf_platform)).2 evs
    ∧ evs = [EvSignal 4242 CTRL_BREAK_EVENT false;
             EvPrint "Stopping ffmpeg with PID=4242 result in an error [WinError 5] Access is denied";
             EvSleep 5;
             EvSignal 4242 SIGTERM false]
    ∧ attempts CTRL_BREAK_EVENT evs = 1%nat
    ∧ attempts SIGTERM evs = 1%nat.
Proof.
  destruct (@teardown_never_retries deaf_platform (recording deaf_platform)
              (mk_exn ValueError "widget not found") SIGTERM)
    as (_ & _ & evs & Hev & _ & Harmed).
  destruct Harmed as (d2 & -> & _); [by vm_compute|].
  exists ([EvSignal 4242 CTRL_BREAK_EVENT false]
          ++ report 4242 (Some "[WinError 5] Access is denied")
          ++ [EvSleep 5; EvSignal 4242 SIGTERM d2]).
  split; [exact Hev|].
  assert (d2 = false) as ->.
  { unfold events_between in Hev. vm_compute in Hev. by simplify_eq. }
  by vm_compute.
Defined.

Lemma crash_signals_child_then_exits_witness :
  let s0 := (@ensure_recordings (State_init empty_world)).2 in
  @ensure_recordings (State_init empty_world) = (Return tt, s0)
  ∧ crashing_run sample_platform s0
    = (Raise (mk_exn ValueError "widget not found"),
       (crashing_run sample_platform s0).2)
  ∧ PID (crashing_run sample_platform s0).2 = 4242
  ∧ ending (@main sample_platform (crashing_run sample_platform) empty_world).1
    = Exited 4242.
Proof.
  intros s0.
  assert (@ensure_recordings (State_init empty_world) = (Return tt, s0)) as Hdir
    by (by vm_compute).
  assert (crashing_run sample_platform s0
          = (Raise (mk_exn ValueError "widget not found"),
             (crashing_run sample_platform s0).2)) as Hrun
    by (by vm_compute).
  split; [exact Hdir|]. split; [exact Hrun|]. split; [reflexivity|].
  destruct (@crash_signals_child_then_exits sample_platform
              (crashing_run sample_platform) empty_world _ _ _ Hdir Hrun)
    as (Harmed & _).
  destruct Harmed as (d2 & _ & Hend); [reflexivity|by vm_compute|].
  exact Hend.
Defined.

Lemma one_child_at_a_time_witness :
  @reachable sample_platform (recording sample_platform)
  ∧ @start_recording sample_platform (recording sample_platform)
    = (Return tt, recording sample_platform)
  ∧ children (trace (world (recording sample_platform))) = [4242]
  ∧ PID (recording sample_platform) = 4242.
Proof.
  split; [apply recording_reachable|].
  destruct (@one_child_at_a_time sample_platform (recording sample_platform))
    as (Hbusy & Hinv & Hall).
  destruct (Hall (Hinv (recording_reachable sample_platform)))
    as (_ & _ & _ & _ & Hch & _).
  destruct (Hbusy sample_child eq_refl) as (Hsame & _).
  split; [exact Hsame|]. split; [exact Hch|reflexivity].
Defined.

Lemma command_line_from_settings_witness :
  (process (self oversize) = None
   ∧ @filter_args sample_platform (record_fps (self oversize))
       (target_fps (self oversize))
     = Return ("1/120", "(30/1)")
   ∧ box (self oversize) = (-8, -8, 1928, 1088)
   ∧ ∃ argv,
       cmd (self (@start_recording sample_platform oversize).2) = Some argv
       ∧ has_option argv "-framerate" "4503599627370496p-54"
       ∧ has_option argv "-r" "8444249301319680p-48"
       ∧ has_option argv "-b:v" "8000k"
       ∧ has_option argv "-filter_complex" "settb=1/120,setpts=N/TB/(30/1)"
       ∧ last argv = Some sample_output)
  ∧ (process (self (State_init empty_world)) = None
     ∧ ∃ argv,
         cmd (self (@start_recording sample_platform
                      (State_init empty_world)).2) = Some argv
         ∧ has_option argv "-offset_x" "0"
         ∧ has_option argv "-offset_y" "0"
         ∧ has_option argv "-video_size" "1x1"
         ∧ has_option argv "-framerate" "1"
         ∧ has_option argv "-r" "60"
         ∧ has_option argv "-b:v" "4000k"
         ∧ has_option argv "-filter_complex" "settb=1/60,setpts=N/TB/60").
Proof.
  split.
  - split; [reflexivity|]. split; [by vm_compute|]. split; [reflexivity|].
    destruct (@command_line_from_settings sample_platform oversize
                "1/120" "(30/1)" (-8) (-8) 1928 1088 eq_refl
                ltac:(by vm_compute) eq_refl)
      as (argv & child & Hcmd & _ & _ & _ & _ & _ & Hfr & Hr & Hbv & Hfc
          & Hlast & _).
    exists argv.
    split_and!; [exact Hcmd|exact Hfr|exact Hr|exact Hbv|exact Hfc|exact Hlast].
  - split; [reflexivity|].
    destruct (@command_line_from_settings sample_platform
                (State_init empty_world) "1/60" "60" 0 0 1 1 eq_refl
                eq_refl eq_refl)
      as (argv & child & Hcmd & _ & _ & _ & _ & Hon & Hfr & Hr & Hbv & Hfc
          & _).
    destruct Hon as (Hx & Hy & Hsz); [lia|lia|simpl; lia|simpl; lia|].
    exists argv.
    split_and!;
      [exact Hcmd|exact Hx|exact Hy|exact Hsz|exact Hfr|exact Hr|exact Hbv
      |exact Hfc].
Defined.

Lemma capture_region_is_clamped_witness :
  process (self oversize) = None
  ∧ box (self oversize) = (-8, -8, 1928, 1088)
  ∧ ∃ argv,
      cmd (self (@start_recording sample_platform oversize).2) = Some argv
      ∧ has_option argv "-offset_x" "0"
      ∧ has_option argv "-offset_y" "0"
      ∧ has_option argv "-video_size" "1920x1080".
Proof.
  split; [reflexivity|]. split; [reflexivity|].
  destruct (@capture_region_is_clamped sample_platform oversize
              "1/120" "(30/1)" (-8) (-8) 1928 1088 eq_refl
              ltac:(by vm_compute) eq_refl)
    as (argv & x & y & w & h & Hcmd & -> & -> & -> & -> & Hx & Hy & Hsz & _).
  exists argv. split_and!; [exact Hcmd|exact Hx|exact Hy|exact Hsz].
Defined.

Lemma filter_args_by_type_witness :
  py_truediv (PyFloat (float_of_int 2)) (PyInt 60)
  = Return (S754_finite false 4803839602528529 (-57))
  ∧ @filter_args sample_platform (PyFloat (float_of_int 2)) (PyInt 60)
    = Return ("1/30", "(60/1)")
  ∧ nearer (mk_Fraction 4803839602528529 144115188075855872)
      (mk_Fraction 1 30) (mk_Fraction 33333 1000000).
Proof.
  split; [by vm_compute|].
  destruct (@filter_args_by_type sample_platform) as (_ & Hfloat & _).
  destruct (Hfloat (PyFloat (float_of_int 2)) (PyInt 60)
              (S754_finite false 4803839602528529 (-57))
              (mk_Fraction 4803839602528529 144115188075855872)
              (mk_Fraction 60 1) eq_refl ltac:(by vm_compute)
              ltac:(by vm_compute) eq_refl)
    as (a & b & Ha & Hb & _ & _ & _ & _ & Hnear & _ & _ & _ & -> & _).
  vm_compute in Ha. vm_compute in Hb.
  injection Ha as <-. injection Hb as <-.
  split; [reflexivity|].
  apply (Hnear (mk_Fraction 33333 1000000)). simpl. lia.
Defined.

(** At the class defaults both branches give the same [settb]. *)
Lemma filter_paths_agree_at_defaults :
  ∃ settb setpts setpts',
    @filter_args sample_platform (PyInt 1) (PyInt 60)
    = Return (settb, setpts)
    ∧ @filter_args sample_platform (PyFloat (float_of_int 1))
        (PyFloat (float_of_int 60))
      = Return (settb, setpts').
Proof.
  exists "1/60", "60", "(60/1)". split; [reflexivity|by vm_compute].
Qed.

(** ** The interface at work on the sample desktop *)

Lemma ui_after_reachable evs :
  @ui_reachable sample_platform sample_desktop (ui_after evs).
Proof.
  exists ∅, ∅. unfold ui_after. fold empty_world.
  assert (∀ u,
            rtc (@ui_step sample_platform sample_desktop)
              (Ui_init empty_world) u →
            rtc (@ui_step sample_platform sample_desktop)
              (Ui_init empty_world)
              (fold_left
                 (λ u ev, (@handle sample_platform sample_desktop ev u).2)
                 evs u)) as Hgen.
  { induction evs as [|ev evs IH]; intros u Hu; simpl; [done|].
    apply IH. eapply rtc_r; [exact Hu|]. apply ui_handle. }
  apply Hgen. apply rtc_refl.
Qed.

Lemma interface_refines_recorder_witness :
  @ui_reachable sample_platform sample_desktop ui_recording
  ∧ @reachable sample_platform (recorder ui_recording)
  ∧ (length (children (trace (world (recorder ui_recording)))) ≤ 1)%nat.
Proof.
  split; [apply ui_after_reachable|].
  destruct (@interface_refines_recorder sample_platform sample_desktop
              ui_recording (ui_after_reachable _)) as (Hr & _ & Hlen).
  exact (conj Hr Hlen).
Defined.

Lemma ui_locked_reachable :
  @ui_reachable locked_platform sample_desktop ui_locked.
Proof.
  exists ∅, ∅. fold empty_world. unfold ui_locked. simpl.
  eapply rtc_l; [apply (@ui_handle _ _ _ (Selected (Some 77)))|].
  eapply rtc_l; [apply (@ui_handle _ _ _ KeyStart)|].
  apply rtc_refl.
Qed.

Lemma started_flag_tracks_handle_witness :
  let u' := (@action_cancel_recording locked_platform ui_locked).2 in
  @ui_reachable locked_platform sample_desktop ui_locked
  ∧ started (self (recorder ui_locked)) = true
  ∧ PID (recorder ui_locked) ≠ 0
  ∧ started (self (recorder u')) = true
  ∧ process (self (recorder u')) = None.
Proof.
  intros u'. subst u'. split; [apply ui_locked_reachable|].
  destruct (@started_flag_tracks_handle locked_platform sample_desktop
              ui_locked ui_locked_reachable) as (Hs & HP & _ & Hstuck).
  assert (is_Some (process (self (recorder ui_locked)))) as Hsome.
  { eexists. reflexivity. }
  split; [exact (Hs Hsome)|]. split; [exact (proj1 HP Hsome)|].
  edestruct Hstuck as (_ & Hst & Hp & _);
    [reflexivity|reflexivity|reflexivity|reflexivity|].
  exact (conj Hst Hp).
Defined.

Lemma handlers_keep_widgets_coherent_witness :
  coherent ui_recording
  ∧ (@handle sample_platform sample_desktop (Pressed "stop") ui_recording).1
    = Return tt
  ∧ coherent
      (@handle sample_platform sample_desktop (Pressed "stop") ui_recording).2.
Proof.
  assert (coherent ui_recording) as Hc by (split; reflexivity).
  assert ((@handle sample_platform sample_desktop (Pressed "stop")
             ui_recording).1 = Return tt) as Hr by (by vm_compute).
  split; [exact Hc|]. split; [exact Hr|].
  exact (@handlers_keep_widgets_coherent sample_platform sample_desktop
           (Pressed "stop") ui_recording Hc Hr).
Defined.

Lemma start_button_needs_window_witness :
  @ui_reachable sample_platform sample_desktop (ui_after [Selected (Some 77)])
  ∧ start_disabled (widgets (ui_after [Selected (Some 77)])) = false
  ∧ hwid (self (recorder (ui_after [Selected (Some 77)]))) ≠ 0.
Proof.
  split; [apply ui_after_reachable|]. split; [reflexivity|].
  exact (@start_button_needs_window sample_platform sample_desktop
           (ui_after [Selected (Some 77)]) (ui_after_reachable _) eq_refl).
Defined.

Lemma keys_agree_with_buttons_witness :
  started (self (recorder ui_recording)) = true
  ∧ @on_button_pressed sample_platform "cancel" ui_recording
    = @action_cancel_recording sample_platform ui_recording.
Proof.
  split; [reflexivity|].
  destruct (@keys_agree_with_buttons sample_platform ui_recording)
    as (_ & Hrun).
  destruct (Hrun eq_refl) as (_ & Hcancel). exact Hcancel.
Defined.

Lemma int_rates_are_the_defaults_witness :
  let u := ui_after [Typed (mk_InputChanged (Some true) "0.25" "record_fps")] in
  @ui_reachable sample_platform sample_desktop u
  ∧ default_or_float 1 (record_fps (self (recorder u)))
  ∧ default_or_float 60 (target_fps (self (recorder u))).
Proof.
  intros u. split; [apply ui_after_reachable|].
  destruct (@int_rates_are_the_defaults sample_platform sample_desktop u
              (ui_after_reachable _)) as (Hr & Ht & _).
  exact (conj Hr Ht).
Defined.

Lemma exit_stops_the_recording_witness :
  @ui_reachable sample_platform sample_desktop ui_recording
  ∧ is_Some (process (self (recorder ui_recording)))
  ∧ ending (@action_exit sample_platform ui_recording).1 = Exited 0
  ∧ started (self (recorder (@action_exit sample_platform ui_recording).2))
    = false.
Proof.
  split; [apply ui_after_reachable|].
  split; [eexists; reflexivity|].
  pose proof (@exit_stops_the_recording sample_platform sample_desktop
                ui_recording (ui_after_reachable _)) as Hx.
  cbv zeta in Hx.
  destruct (process (self (recorder ui_recording))) as [proc|] eqn:Hp.
  - destruct Hx as (_ & delivered & Hx). destruct delivered.
    + destruct Hx as (Hend & _ & _ & _ & Hoff). exact (conj Hend Hoff).
    + destruct Hx as (_ & _ & _ & Hon). vm_compute in Hon. discriminate.
  - destruct Hx as (Hend & _ & _ & _ & Hoff & _). exact (conj Hend Hoff).
Defined.

Lemma maximised_window_is_the_screen_witness :
  let u' := (@select_changed sample_platform sample_desktop (Some 77)
               (Ui_init empty_world)).2 in
  77 ≠ 0
  ∧ @GetWindowRect sample_desktop (world (recorder (Ui_init empty_world))) 77
    = (-8, -8, 1920 + 8, 1080 + 8)
  ∧ box (self (recorder u')) = (0, 0, 1920, 1080)
  ∧ has_option
      (@build_cmd sample_platform (self (recorder u')) "1/60" "60"
         (mk_datetime 2024 3 9 17 5 42))
      "-video_size" "1920x1080".
Proof.
  intros u'. split; [lia|]. split; [reflexivity|].
  destruct (@maximised_window_is_the_screen sample_platform sample_desktop
              (Ui_init empty_world) 77 ltac:(lia) eq_refl)
    as (_ & _ & Hbox & _ & _ & Hcmd).
  split; [exact Hbox|].
  destruct (Hcmd "1/60" "60" (mk_datetime 2024 3 9 17 5 42)) as (_ & _ & Hsz).
  exact Hsz.
Defined.

Lemma typed_bitrate_reaches_the_command_line_witness :
  let event := mk_InputChanged (Some true) "8000" "bitrate" in
  let u' := (@input_update sample_desktop event (Ui_init empty_world)).2 in
  validation_result event = Some true
  ∧ value event ≠ ""
  ∧ input_id event = "bitrate"
  ∧ bitrate (self (recorder u')) = 8000
  ∧ ∃ argv,
      cmd (self (@start_recording sample_platform (recorder u')).2) = Some argv
      ∧ has_option argv "-b:v" "8000k".
Proof.
  intros event u'. split; [reflexivity|]. split; [done|]. split; [reflexivity|].
  destruct (@typed_bitrate_reaches_the_command_line sample_platform
              sample_desktop event (Ui_init empty_world)) as (_ & _ & Hbit).
  specialize (Hbit eq_refl ltac:(done) eq_refl).
  change (@int_of_str sample_desktop (value event)) with (Some 8000) in Hbit.
  cbv iota zeta in Hbit.
  destruct Hbit as (_ & _ & Hrec & Hcmd).
  subst u'. split; [by rewrite Hrec|].
  exact (Hcmd "1/60" "60" eq_refl eq_refl).
Defined.

Lemma recorder_methods_keep_settings_witness :
  same_settings (self (recording sample_platform))
    (self (@cancel_recording sample_platform (recording sample_platform)).2).
Proof.
  destruct (@recorder_methods_keep_settings sample_platform
              (recording sample_platform)) as (_ & _ & Hc).
  exact Hc.
Defined.

Lemma cancel_deletes_only_the_output_witness :
  let before :=
    @cancelled locked_platform (world (recording locked_platform))
      (Zpos (pid sample_child)) in
  let s' := (@cancel_recording locked_platform (recording locked_platform)).2 in
  @reachable locked_platform (recording locked_platform)
  ∧ process (self (recording locked_platform)) = Some sample_child
  ∧ @os_kill locked_platform (world (recording locked_platform))
      (Zpos (pid sample_child)) SIGTERM = None
  ∧ events_between (recording locked_platform) s'
      [EvSignal 4242 SIGTERM true; EvSleep 3; EvRecompose;
       EvUnlink sample_output]
  ∧ files (world s') = files before
  ∧ dirs (world s') = dirs before.
Proof.
  intros before s'.
  split; [apply recording_reachable|]. split; [reflexivity|].
  split; [reflexivity|].
  destruct (@cancel_deletes_only_the_output locked_platform
              (recording locked_platform) sample_child
              (recording_reachable locked_platform) eq_refl eq_refl)
    as (file & Hl & Hev & _ & Hd & Hres).
  assert (file = sample_output) as ->.
  { vm_compute in Hl. by simplify_eq. }
  split; [exact Hev|].
  change (@os_unlink locked_platform
            (@cancelled locked_platform (world (recording locked_platform))
               (Zpos (pid sample_child))) sample_output)
    with (Some "[WinError 32] The file is in use by another process")
    in Hres.
  destruct Hres as (_ & Hfiles). exact (conj Hfiles Hd).
Defined.

Lemma stopped_recorder_is_idle_witness :
  let s1 := (@stop_recording sample_platform (recording sample_platform)).2 in
  @reachable sample_platform (recording sample_platform)
  ∧ process (self (recording sample_platform)) = Some sample_child
  ∧ @os_kill sample_platform (world (recording sample_platform))
      (Zpos (pid sample_child)) CTRL_BREAK_EVENT = None
  ∧ @cancel_recording sample_platform s1 = (Return tt, s1)
  ∧ children (trace (world (@start_recording sample_platform s1).2)) = [4242].
Proof.
  intros s1. split; [apply recording_reachable|]. split; [reflexivity|].
  split; [reflexivity|].
  destruct (@stopped_recorder_is_idle sample_platform
              (recording sample_platform) sample_child
              (recording_reachable sample_platform) eq_refl eq_refl)
    as (_ & _ & _ & Hc & Hstart).
  split; [exact Hc|].
  destruct (Hstart "1/60" "60" 4242%positive eq_refl eq_refl)
    as (_ & _ & _ & Hch & _).
  exact Hch.
Defined.

Lemma recordings_directory_comes_first_witness :
  (@ensure_recordings (State_init empty_world)).1 = Return tt
  ∧ "recordings" ∈ dirs (world (@ensure_recordings (State_init empty_world)).2).
Proof.
  assert ((@ensure_recordings (State_init empty_world)).1 = Return tt) as Hr
    by (by vm_compute).
  split; [exact Hr|].
  destruct (@recordings_directory_comes_first sample_platform
              (State_init empty_world)) as (_ & Hmk & _).
  destruct (Hmk Hr) as (Hd & _). exact Hd.
Defined.

Lemma output_path_tells_the_time_witness :
  let s1 := State_init empty_world in
  let s2 := (@stop_recording ticking_platform
               (@start_recording ticking_platform s1).2).2 in
  process (self s1) = None
  ∧ process (self s2) = None
  ∧ @filter_args ticking_platform (record_fps (self s1)) (target_fps (self s1))
    = Return ("1/60", "60")
  ∧ @filter_args ticking_platform (record_fps (self s2)) (target_fps (self s2))
    = Return ("1/60", "60")
  ∧ ∃ out1 out2,
      (argv ← cmd (self (@start_recording ticking_platform s1).2); last argv)
      = Some out1
      ∧ (argv ← cmd (self (@start_recording ticking_platform s2).2); last argv)
        = Some out2
      ∧ out1 ≠ out2.
Proof.
  intros s1 s2.
  split; [reflexivity|]. split; [reflexivity|].
  split; [reflexivity|]. split; [reflexivity|].
  destruct (@output_path_tells_the_time ticking_platform s1 s2
              "1/60" "60" "1/60" "60" eq_refl eq_refl eq_refl eq_refl)
    as (argv1 & argv2 & out1 & out2 & Hc1 & Hc2 & Hl1 & Hl2 & Hiff).
  exists out1, out2. rewrite Hc1, Hc2. simpl.
  split; [exact Hl1|]. split; [exact Hl2|].
  intros Heq. apply Hiff in Heq. vm_compute in Heq. discriminate.
Defined.

Lemma window_list_is_sorted_and_complete_witness :
  ("Editor (12)", 12) ∈ (@get_windows_titles sample_desktop empty_world []).1
  ∧ NoDup (@get_windows_titles sample_desktop empty_world []).1.*2.
Proof.
  destruct (@window_list_is_sorted_and_complete sample_desktop empty_world [])
    as (Hin & Hnd & _).
  split; [|exact Hnd].
  apply Hin. split; [|split; [reflexivity|split; [done|reflexivity]]].
  vm_compute. apply list_elem_of_further, list_elem_of_here.
Defined.

Lemma zero_target_rate_stops_the_start_witness :
  process (self zero_rate) = None
  ∧ target_fps (self zero_rate) = PyFloat (S754_zero false)
  ∧ ∃ e,
      @start_recording sample_platform zero_rate = (Raise e, zero_rate)
      ∧ exn_cls e = ZeroDivisionError.
Proof.
  split; [reflexivity|]. split; [reflexivity|].
  exact (@zero_target_rate_stops_the_start sample_platform zero_rate
           _ _ eq_refl eq_refl eq_refl
           (or_intror (ex_intro _ false eq_refl))).
Defined.

Lemma blank_selection_disarms_the_start_witness :
  let u' := (@select_changed sample_platform sample_desktop None
               (ui_after [Selected (Some 77)])).2 in
  start_disabled (widgets (ui_after [Selected (Some 77)])) = false
  ∧ start_disabled (widgets u') = true
  ∧ @action_start_recording sample_platform u' = (Return tt, u').
Proof.
  intros u'. split; [reflexivity|].
  destruct (@blank_selection_disarms_the_start sample_platform sample_desktop
              (ui_after [Selected (Some 77)]) None (or_introl eq_refl))
    as (_ & _ & _ & _ & Hd & Hs).
  exact (conj Hd Hs).
Defined.
